(** * Glogos genesis ceremony: attestation protocol

    A shallow embedding of [ceremony/witness.py] (and of the cryptographic
    section of [scripts/verify_quick.py] / [scripts/verify_full.py]) together
    with the properties the specification states about it.

    Conventions of the embedding:
    - Python [bytes] are [list byte]; Python [int] is [Z].
    - Python [str] is [string]; a character stands for the code point of the
      same number (U+0000..U+00FF), which covers every literal of the
      program and every hex text. Texts with other code points are outside
      the embedding; among them are those UTF-8 cannot encode (a lone
      surrogate), on which [str.encode] raises [UnicodeEncodeError].
    - A Python exception is a [Raise], threaded by a small error monad.
    - [hashlib.sha256] is the function of FIPS 180-4, written out below and
      checked against the published vectors; PyNaCl's Ed25519 is an interface
      ([NaCl]) whose absence ([None]) is the program's [NACL_AVAILABLE = False]. *)

From Stdlib Require Import ZArith Lia Strings.Byte Ascii String List Permutation Sorted.
From stdpp Require Import base tactics option list sorting strings gmap.

Local Open Scope Z_scope.

(** ** Exceptions *)

Inductive exn : Type :=
  | ValueError                    (* bytes.fromhex on a malformed text *)
  | StructError                   (* struct.pack('>Q', n) out of range *)
  | RuntimeError (msg : string)   (* raised by the program itself *)
  | KeyError (key : string)       (* missing dict key *)
  | CryptoError.                  (* raised inside PyNaCl *)

Inductive result (A : Type) : Type :=
  | Ok (a : A)
  | Raise (e : exn).
Arguments Ok {A} a.
Arguments Raise {A} e.

Definition bind {A B} (r : result A) (k : A → result B) : result B :=
  match r with
  | Ok a => k a
  | Raise e => Raise e
  end.

Notation "'let*' x := r 'in' k" := (bind r (fun x => k))
  (at level 10, x name, r at level 100, k at level 200).

Definition is_Ok {A} (r : result A) : Prop := ∃ a, r = Ok a.

(** ** Bytes and machine words *)

Abbreviation bytes := (list byte).

Global Instance byte_eq_dec : EqDecision byte := Byte.byte_eq_dec.

Definition Z_of_byte (b : byte) : Z := Z.of_N (Byte.to_N b).

Definition byte_of_Z (z : Z) : byte :=
  match Byte.of_N (Z.to_N (z mod 256)) with
  | Some b => b
  | None => x00
  end.

(** [n.to_bytes(width, 'big')] for an [n] already known to fit. *)
Fixpoint be_bytes (width : nat) (n : Z) : bytes :=
  match width with
  | O => []
  | S w => byte_of_Z (Z.shiftr n (8 * Z.of_nat w)) :: be_bytes w n
  end.

(** [int.from_bytes(bs, 'big')]. *)
Definition be_int (bs : bytes) : Z :=
  fold_left (fun acc b => acc * 256 + Z_of_byte b) bs 0.

(** ** SHA-256 (FIPS 180-4), the function behind [hashlib.sha256] *)

Module SHA256.

Definition mask32 (x : Z) : Z := Z.land x 4294967295.
Definition add32 (x y : Z) : Z := mask32 (x + y).
Definition rotr (n x : Z) : Z :=
  Z.lor (Z.shiftr x n) (mask32 (Z.shiftl x (32 - n))).
Definition shr (n x : Z) : Z := Z.shiftr x n.

Definition Ch (x y z : Z) : Z :=
  Z.lxor (Z.land x y) (Z.land (Z.lxor x 4294967295) z).
Definition Maj (x y z : Z) : Z :=
  Z.lxor (Z.lxor (Z.land x y) (Z.land x z)) (Z.land y z).
Definition bsig0 (x : Z) : Z := Z.lxor (Z.lxor (rotr 2 x) (rotr 13 x)) (rotr 22 x).
Definition bsig1 (x : Z) : Z := Z.lxor (Z.lxor (rotr 6 x) (rotr 11 x)) (rotr 25 x).
Definition ssig0 (x : Z) : Z := Z.lxor (Z.lxor (rotr 7 x) (rotr 18 x)) (shr 3 x).
Definition ssig1 (x : Z) : Z := Z.lxor (Z.lxor (rotr 17 x) (rotr 19 x)) (shr 10 x).

(** Big-endian 32-bit words of a byte sequence (a trailing group of fewer
    than four bytes does not occur on padded input and is dropped). *)
Fixpoint words (bs : bytes) : list Z :=
  match bs with
  | b0 :: b1 :: b2 :: b3 :: rest => be_int [b0; b1; b2; b3] :: words rest
  | _ => []
  end.

(** Round constants: the first 32 bits of the fractional parts of the cube
    roots of the first 64 primes, each written as (high half, low half). *)
Definition round_constants : list Z := Eval vm_compute in
  map (fun p : Z * Z => let (hi, lo) := p in hi * 65536 + lo)
  [ (17034,12184); (28983,17553); (46528,64463); (59829,56229);
    (14678,49755); (23025,4593); (37439,33444); (43804,24277);
    (55303,43672); (4739,23297); (9265,34238); (21772,32195);
    (29374,23924); (32990,45566); (39900,1703); (49563,61812);
    (58523,27073); (61374,18310); (4033,40390); (9228,41420);
    (11753,11375); (19060,33962); (23728,43484); (30457,35034);
    (38974,20818); (43057,50797); (45059,10184); (48985,32711);
    (50912,3059); (54695,37191); (1738,25425); (5161,10599);
    (10167,2693); (11803,8504); (19756,28156); (21304,3347);
    (25866,29524); (30314,2747); (33218,51502); (37490,11397);
    (41663,59553); (43034,26187); (49739,35696); (51052,20899);
    (53650,59417); (54937,1572); (62478,13701); (4202,41072);
    (6564,49430); (7735,27656); (10056,30540); (13488,48309);
    (14620,3251); (20184,43594); (23452,51791); (26670,28659);
    (29839,33518); (30885,25455); (33992,30740); (36039,520);
    (37054,65530); (42064,27883); (48889,41975); (50801,30962) ].

Record state : Type := State
  { sa : Z; sb : Z; sc : Z; sd : Z; se : Z; sf : Z; sg : Z; sh : Z }.

(** Initial hash value (section 5.3.3). *)
Definition H0 : state :=
  State 1779033703 3144134277 1013904242 2773480762
        1359893119 2600822924 528734635 1541459225.

(** One round of section 6.2.2, step 3. *)
Definition round (k w : Z) (v : state) : state :=
  let t1 := add32 (add32 (add32 (sh v) (bsig1 (se v))) (Ch (se v) (sf v) (sg v)))
                  (add32 k w) in
  let t2 := add32 (bsig0 (sa v)) (Maj (sa v) (sb v) (sc v)) in
  State (add32 t1 t2) (sa v) (sb v) (sc v) (add32 (sd v) t1) (se v) (sf v) (sg v).

(** The 64 rounds, with the message schedule kept as a window of the
    sixteen most recent words: [w] holds W(t) .. W(t+15). *)
Fixpoint rounds (ks : list Z) (w : list Z) (v : state) : state :=
  match ks with
  | [] => v
  | k :: ks' =>
      let wt := nth 0 w 0 in
      let wnew := add32 (add32 (ssig1 (nth 14 w 0)) (nth 9 w 0))
                        (add32 (ssig0 (nth 1 w 0)) wt) in
      rounds ks' (tl w ++ [wnew]) (round k wt v)
  end.

Definition compress (h : state) (block : bytes) : state :=
  let v := rounds round_constants (words block) h in
  State (add32 (sa h) (sa v)) (add32 (sb h) (sb v)) (add32 (sc h) (sc v))
        (add32 (sd h) (sd v)) (add32 (se h) (se v)) (add32 (sf h) (sf v))
        (add32 (sg h) (sg v)) (add32 (sh h) (sh v)).

(** Padding of section 5.1.1: a 1 bit, zeros up to 56 mod 64 bytes, then
    the bit length on 64 bits. *)
Definition pad (m : bytes) : bytes :=
  let len := Z.of_nat (length m) in
  m ++ [x80] ++ repeat x00 (Z.to_nat ((55 - len) mod 64))
    ++ be_bytes 8 ((8 * len) mod 2 ^ 64).

Fixpoint blocks (n : nat) (data : bytes) (h : state) : state :=
  match n with
  | O => h
  | S n' => blocks n' (drop 64 data) (compress h (take 64 data))
  end.

Definition output (h : state) : bytes :=
  be_bytes 4 (sa h) ++ be_bytes 4 (sb h) ++ be_bytes 4 (sc h) ++ be_bytes 4 (sd h)
  ++ be_bytes 4 (se h) ++ be_bytes 4 (sf h) ++ be_bytes 4 (sg h) ++ be_bytes 4 (sh h).

Definition digest (m : bytes) : bytes :=
  let p := pad m in
  output (blocks (length p / 64)%nat p H0).

End SHA256.

Global Arguments SHA256.digest : simpl never.


(** ** Codec: the "cryptographic primitives" section of witness.py *)

(** [data.encode('utf-8')] on code points below U+0100: one byte below
    U+0080, otherwise the two-byte form 110xxxxx 10xxxxxx. *)
Definition utf8_char (c : ascii) : bytes :=
  let n := Z.of_N (N_of_ascii c) in
  if n <? 128 then [byte_of_Z n]
  else [byte_of_Z (192 + n / 64); byte_of_Z (128 + n mod 64)].

Fixpoint encode_utf8 (s : string) : bytes :=
  match s with
  | EmptyString => []
  | String c s' => utf8_char c ++ encode_utf8 s'
  end.

(** The digit of [bytes.hex()] for a value below 16. *)
Definition hex_char (n : Z) : ascii :=
  ascii_of_N (Z.to_N (if n <? 10 then 48 + n else 87 + n)).

Fixpoint bytes_to_hex (data : bytes) : string :=
  match data with
  | [] => EmptyString
  | b :: rest =>
      String (hex_char (Z_of_byte b / 16))
        (String (hex_char (Z_of_byte b mod 16)) (bytes_to_hex rest))
  end.

(** Value of a hex digit, either case; [None] on any other character. *)
Definition digit_value (c : ascii) : option Z :=
  let n := Z.of_N (N_of_ascii c) in
  if (48 <=? n) && (n <=? 57) then Some (n - 48)
  else if (97 <=? n) && (n <=? 102) then Some (n - 87)
  else if (65 <=? n) && (n <=? 70) then Some (n - 55)
  else None.

(** ASCII whitespace, which [bytes.fromhex] skips between bytes. *)
Definition is_space (c : ascii) : bool :=
  let n := Z.of_N (N_of_ascii c) in
  (n =? 32) || ((9 <=? n) && (n <=? 13)).

(** [bytes.fromhex]: two digits per byte, whitespace allowed before a byte
    but not inside one; anything else is a [ValueError]. *)
Fixpoint fromhex (s : string) : option bytes :=
  match s with
  | EmptyString => Some []
  | String c s' =>
      if is_space c then fromhex s'
      else
        match digit_value c, s' with
        | Some top, String d s'' =>
            match digit_value d with
            | Some bot => cons (byte_of_Z (16 * top + bot)) <$> fromhex s''
            | None => None
            end
        | _, _ => None
        end
  end.

Definition hex_to_bytes (hex_str : string) : result bytes :=
  match fromhex hex_str with
  | Some data => Ok data
  | None => Raise ValueError
  end.

Definition sha256_bytes (data : bytes) : bytes := SHA256.digest data.

(** The argument of [sha256_hex] is [str | bytes]. *)
Inductive str_or_bytes : Type :=
  | Str (s : string)
  | Bytes (b : bytes).

Definition sha256_hex (data : str_or_bytes) : string :=
  let data := match data with
              | Str s => encode_utf8 s
              | Bytes b => b
              end in
  bytes_to_hex (SHA256.digest data).

(** [struct.pack('>Q', n)]: eight big-endian bytes, or [struct.error]. *)
Definition uint64_be (n : Z) : result bytes :=
  if (0 <=? n) && (n <? 2 ^ 64) then Ok (be_bytes 8 n) else Raise StructError.

(** ** Protocol constants *)

Definition GENESIS_TIMESTAMP : Z := 1766329380.
Definition GLR : string :=
  "e3b0c44298fc1c149afbf4c8996fb92427ae41e4649b934ca495991b7852b855".
Definition DOMAIN_SEPARATOR : string := "glogos-genesis".
Definition REFS_DELIMITER : string := "|".

(** ** Ed25519 capability (PyNaCl) *)

(** What the program uses of PyNaCl. [None] stands for an exception raised
    by the library (wrong seed length); [VerifyKey_verify] is [true] when
    [VerifyKey(pk).verify(message, signature)] returns and [false] when it
    raises. *)
Record NaCl : Type := {
  SigningKey_verify_key : bytes → option bytes;
  SigningKey_sign : bytes → bytes → option bytes;
  VerifyKey_verify : bytes → bytes → bytes → bool
}.

(** The module-level flag set by the guarded import. *)
Definition NACL_AVAILABLE (nacl : option NaCl) : bool :=
  match nacl with
  | Some _ => true
  | None => false
  end.

Definition from_nacl {A} (o : option A) : result A :=
  match o with
  | Some a => Ok a
  | None => Raise CryptoError
  end.

(** ** Zone operations *)

Record Zone : Type := {
  seed : string;
  private_key : string;
  public_key : string;
  zone_id : string
}.

(** The key material [derive_genesis_zone] returns when PyNaCl is missing. *)
Definition PRECOMPUTED_ZONE : Zone :=
  {| seed := "ae958e20ef38261f13a52590ee631ca83d718ea62d03f22774affd43c01bb902";
     private_key := "ae958e20ef38261f13a52590ee631ca83d718ea62d03f22774affd43c01bb902";
     public_key := "c70b1f7e4ce8cb7f6f8f3984ff6fe8260469b6cf8f8f839f047ba64d894d4be8";
     zone_id := "db1756c17220873bcb831c2f9c197081ab0d83acf2226b819880d62ce906c010" |}.

(** The derivation proper (the part of [derive_genesis_zone] after the
    availability guard), with the two globals it reads, [GLR] and
    [DOMAIN_SEPARATOR], as arguments. *)
Definition derive_zone (E : NaCl) (glr domain_separator : string) : result Zone :=
  let* glr_bytes := hex_to_bytes glr in
  let domain_bytes := encode_utf8 domain_separator in
  let seed := sha256_bytes (glr_bytes ++ domain_bytes) in
  let* public_key_bytes := from_nacl (SigningKey_verify_key E seed) in
  let zone_id := sha256_hex (Bytes public_key_bytes) in
  Ok {| seed := bytes_to_hex seed;
        private_key := bytes_to_hex seed;
        public_key := bytes_to_hex public_key_bytes;
        zone_id := zone_id |}.

Definition derive_genesis_zone (nacl : option NaCl) : result Zone :=
  match nacl with
  | None => Ok PRECOMPUTED_ZONE
  | Some E => derive_zone E GLR DOMAIN_SEPARATOR
  end.

(** ** Attestation operations *)

Definition str_le (s t : string) : Prop := String.leb s t = true.

Global Instance str_le_dec s t : Decision (str_le s t).
Proof. unfold str_le. apply _. Defined.

(** [sorted(refs)] on texts: the ascending arrangement by code points. *)
Definition sorted (refs : list string) : list string := merge_sort str_le refs.

Definition compute_refs_hash (refs : list string) : string :=
  match refs with
  | [] => GLR
  | _ =>
      let sorted_refs := sorted refs in
      let refs_concat := String.concat REFS_DELIMITER sorted_refs in
      sha256_hex (Str refs_concat)
  end.

(** The local [data] of [compute_attestation_id]. *)
Definition attestation_id_data (zone subject canon : string) (time : Z)
  : result bytes :=
  let* z := hex_to_bytes zone in
  let* s := hex_to_bytes subject in
  let* c := hex_to_bytes canon in
  let* t := uint64_be time in
  Ok (z ++ s ++ c ++ t).

Definition compute_attestation_id (zone subject canon : string) (time : Z)
  : result string :=
  let* data := attestation_id_data zone subject canon time in
  Ok (sha256_hex (Bytes data)).

Definition build_signature_input
    (attestation_id subject : string) (time : Z) (refs_hash canon : string)
  : result bytes :=
  let* i := hex_to_bytes attestation_id in
  let* s := hex_to_bytes subject in
  let* t := uint64_be time in
  let* r := hex_to_bytes refs_hash in
  let* c := hex_to_bytes canon in
  Ok (i ++ s ++ t ++ r ++ c).

Definition sign_message (nacl : option NaCl) (message : bytes)
    (private_key_hex : string) : result string :=
  match nacl with
  | None => Raise (RuntimeError "PyNaCl required for signing")
  | Some E =>
      let* seed := hex_to_bytes private_key_hex in
      let* signature := from_nacl (SigningKey_sign E seed message) in
      Ok (bytes_to_hex signature)
  end.

Definition verify_signature (nacl : option NaCl) (message : bytes)
    (signature_hex public_key_hex : string) : result bool :=
  match nacl with
  | None => Raise (RuntimeError "PyNaCl required for verification")
  | Some E =>
      (* try: ... return True / except Exception: return False *)
      match hex_to_bytes public_key_hex, hex_to_bytes signature_hex with
      | Ok public_key_bytes, Ok signature_bytes =>
          Ok (VerifyKey_verify E public_key_bytes message signature_bytes)
      | _, _ => Ok false
      end
  end.

Record Attestation : Type := {
  att_id : string;
  att_zone : string;
  att_subject : string;
  att_canon : string;
  att_time : Z;
  att_refs : list string;
  att_proof : string
}.

Definition PRECOMPUTED_PROOF : string :=
  "9a06e9a971416bc167ce0edeb66961f1a15fac31296fb6add213e64fbb0b5172283bbb044fc5808794d2b1b42cb23b7dc8072e568cee3eb8c438294fe78b8008".

(** Body of [create_genesis_attestation], with the statement it signs
    (subject text, canon label, time, refs) as arguments. *)
Definition build_attestation (nacl : option NaCl) (zone : Zone)
    (subject_text canon_label : string) (time : Z) (refs : list string)
  : result Attestation :=
  let subject := sha256_hex (Str subject_text) in
  let canon := sha256_hex (Str canon_label) in
  let* attestation_id := compute_attestation_id (zone_id zone) subject canon time in
  let refs_hash := compute_refs_hash refs in
  let* sign_input :=
    build_signature_input attestation_id subject time refs_hash canon in
  let* proof :=
    if NACL_AVAILABLE nacl then sign_message nacl sign_input (private_key zone)
    else Ok PRECOMPUTED_PROOF in
  Ok {| att_id := attestation_id;
        att_zone := zone_id zone;
        att_subject := subject;
        att_canon := canon;
        att_time := time;
        att_refs := refs;
        att_proof := proof |}.

Definition create_genesis_attestation (nacl : option NaCl) (zone : Zone)
  : result Attestation :=
  build_attestation nacl zone "From nothing, truth emerges" "raw:sha256:1.0"
    GENESIS_TIMESTAMP [GLR].

(** One entry of the [steps] list of a verification. *)
Record Step : Type := {
  step_name : string;
  passed : bool;
  expected : option string;
  actual : option string;
  note : option string
}.

Record Verification : Type := {
  valid : bool;
  error : option string;
  steps : list Step
}.

Definition verify_attestation (nacl : option NaCl) (attestation : Attestation)
    (public_key : string) : result Verification :=
  (* Step 1: zone matches public key *)
  let* public_key_bytes := hex_to_bytes public_key in
  let computed_zone := sha256_hex (Bytes public_key_bytes) in
  let zone_valid := String.eqb computed_zone (att_zone attestation) in
  let steps :=
    [ {| step_name := "Zone verification"; passed := zone_valid;
         expected := Some (att_zone attestation); actual := Some computed_zone;
         note := None |} ] in
  if negb zone_valid then
    Ok {| valid := false; error := Some "Zone ID mismatch"; steps := steps |}
  else
  (* Step 2: attestation ID *)
  let* computed_id :=
    compute_attestation_id (att_zone attestation) (att_subject attestation)
      (att_canon attestation) (att_time attestation) in
  let id_valid := String.eqb computed_id (att_id attestation) in
  let steps := steps ++
    [ {| step_name := "Attestation ID verification"; passed := id_valid;
         expected := Some (att_id attestation); actual := Some computed_id;
         note := None |} ] in
  if negb id_valid then
    Ok {| valid := false; error := Some "Attestation ID mismatch"; steps := steps |}
  else
  (* Step 3: signature *)
  let refs_hash := compute_refs_hash (att_refs attestation) in
  let* sign_input :=
    build_signature_input (att_id attestation) (att_subject attestation)
      (att_time attestation) refs_hash (att_canon attestation) in
  let* sig_valid :=
    if NACL_AVAILABLE nacl then
      verify_signature nacl sign_input (att_proof attestation) public_key
    else Ok true in
  let steps :=
    if NACL_AVAILABLE nacl then
      steps ++ [ {| step_name := "Ed25519 signature verification";
                    passed := sig_valid; expected := None; actual := None;
                    note := None |} ]
    else
      steps ++ [ {| step_name := "Signature verification"; passed := true;
                    expected := None; actual := None;
                    note := Some "Skipped (PyNaCl not available)" |} ] in
  if negb sig_valid then
    Ok {| valid := false; error := Some "Invalid signature"; steps := steps |}
  else
    Ok {| valid := true; error := None; steps := steps |}.

(** ** The persisted artifact *)

(** Witness readings: free-form JSON. *)
#[local] Set Warnings "-register-all".
Inductive json : Type :=
  | JNull
  | JString (s : string)
  | JNumber (n : Z)
  | JObject (fields : list (string * json)).

(** What sits under a key of genesis-artifact.json. *)
Inductive value : Type :=
  | VText (s : string)
  | VAttestation (a : Attestation)
  | VWitnesses (w : json).

(** The [artifact] dict assembled at step 5 of [main]. *)
Definition make_artifact (ceremony_time : string)
    (genesis_attestation : Attestation) (witnesses : json) : gmap string value :=
  <["_ceremony" := VText "Winter Solstice Genesis 2025"]>
  (<["_timestamp" := VText ceremony_time]>
  (<["attestation" := VAttestation genesis_attestation]>
  (<["witnesses" := VWitnesses witnesses]> ∅))).

(** [artifact['attestation']]. An entry that is no attestation record is
    reported here, as [ValueError]; the code fetches it and raises
    [TypeError] at the first field access, after [derive_genesis_zone] has
    run. *)
Definition artifact_attestation (artifact : gmap string value) : result Attestation :=
  match artifact !! "attestation" with
  | Some (VAttestation a) => Ok a
  | Some _ => Raise ValueError
  | None => Raise (KeyError "attestation")
  end.

(** [verify_artifact], printing left out; [file] is the parsed content of
    genesis-artifact.json, [None] when the file is not found. *)
Definition verify_artifact (nacl : option NaCl)
    (file : option (gmap string value)) : result bool :=
  match file with
  | None => Ok false
  | Some artifact =>
      let* att := artifact_attestation artifact in
      let all_passed := true in
      let glr_ok := String.eqb (sha256_hex (Str "")) GLR in
      let all_passed := all_passed && glr_ok in
      let* zone := derive_genesis_zone nacl in
      let zone_ok := String.eqb (zone_id zone) (att_zone att) in
      let all_passed := all_passed && zone_ok in
      let expected_subject := sha256_hex (Str "From nothing, truth emerges") in
      let subject_ok := String.eqb expected_subject (att_subject att) in
      let all_passed := all_passed && subject_ok in
      let expected_canon := sha256_hex (Str "raw:sha256:1.0") in
      let canon_ok := String.eqb expected_canon (att_canon att) in
      let all_passed := all_passed && canon_ok in
      let* expected_id :=
        compute_attestation_id (att_zone att) (att_subject att) (att_canon att)
          (att_time att) in
      let id_ok := String.eqb expected_id (att_id att) in
      let all_passed := all_passed && id_ok in
      if NACL_AVAILABLE nacl then
        let* verification := verify_attestation nacl att (public_key zone) in
        let sig_ok := valid verification in
        Ok (all_passed && sig_ok)
      else Ok all_passed
  end.

(** ** The stand-alone checker: step 5 of scripts/verify_quick.py
    (repeated verbatim in scripts/verify_full.py) *)

Module Scripts.

(** [binascii.unhexlify]: pairs of hex digits and nothing else. *)
Fixpoint unhexlify_opt (s : string) : option bytes :=
  match s with
  | EmptyString => Some []
  | String c (String d s') =>
      match digit_value c, digit_value d with
      | Some top, Some bot => cons (byte_of_Z (16 * top + bot)) <$> unhexlify_opt s'
      | _, _ => None
      end
  | String _ EmptyString => None
  end.

Definition unhexlify (s : string) : result bytes :=
  match unhexlify_opt s with
  | Some data => Ok data
  | None => Raise ValueError
  end.

(** [int(n).to_bytes(8, 'big')]; [OverflowError] is reported as the
    range error of [uint64_be]. Times are integers in the embedding, on
    which [int] is the identity (on a float the script truncates, where
    [uint64_be] raises). *)
Definition to_bytes8 (n : Z) : result bytes := uint64_be n.

Definition id_payload (att : Attestation) : result bytes :=
  let id_payload := [] in
  let* z := unhexlify (att_zone att) in
  let id_payload := id_payload ++ z in
  let* s := unhexlify (att_subject att) in
  let id_payload := id_payload ++ s in
  let* c := unhexlify (att_canon att) in
  let id_payload := id_payload ++ c in
  let* t := to_bytes8 (att_time att) in
  Ok (id_payload ++ t).

Definition computed_id (att : Attestation) : result string :=
  let* id_payload := id_payload att in
  Ok (bytes_to_hex (SHA256.digest id_payload)).

Definition refs_concat (att : Attestation) : bytes :=
  encode_utf8 (String.concat "|" (sorted (att_refs att))).

Definition refs_hash (att : Attestation) : bytes :=
  SHA256.digest (refs_concat att).

Definition sign_input (att : Attestation) : result bytes :=
  let* computed_id := computed_id att in
  let* sign_input := unhexlify computed_id in
  let* s := unhexlify (att_subject att) in
  let sign_input := sign_input ++ s in
  let* t := to_bytes8 (att_time att) in
  let sign_input := sign_input ++ t in
  let sign_input := sign_input ++ refs_hash att in
  let* c := unhexlify (att_canon att) in
  Ok (sign_input ++ c).

(** The signature check proper: [true] for PASS, [false] for FAIL.
    [verify_key] is the key derived at step 4 of the script. *)
Definition signature_check (E : NaCl) (verify_key : bytes) (att : Attestation)
  : result bool :=
  let* sign_input := sign_input att in
  match unhexlify (att_proof att) with
  | Ok proof => Ok (VerifyKey_verify E verify_key sign_input proof)
  | Raise _ => Ok false
  end.

End Scripts.

(** ** scripts/verify_full.py, part 1 (cryptographic verification); the
    checks of scripts/verify_quick.py are the same, printed only *)

Module VerifyFull.

(** How the part ends: the script stops on an uncaught exception, or goes on
    with the flag [all_passed]. *)
Inductive ending : Type :=
  | IndexError                  (* att['refs'][0] on an empty list *)
  | Uncaught (e : exn)
  | Finished (all_passed : bool).

(** The fallback constant of check 4. *)
Definition KNOWN_ZONE : string :=
  "db1756c17220873bcb831c2f9c197081ab0d83acf2226b819880d62ce906c010".

(** Check 4 with PyNaCl: the verification key derived from the seed
    SHA-256(GLR ‖ b"glogos-genesis"). *)
Definition verify_key (E : NaCl) : result bytes :=
  let glr := sha256_hex (Bytes []) in
  let* glr_bytes := Scripts.unhexlify glr in
  let seed_input := glr_bytes ++ String.list_byte_of_string "glogos-genesis" in
  let seed := SHA256.digest seed_input in
  from_nacl (SigningKey_verify_key E seed).

Definition cryptographic_verification (nacl : option NaCl) (att : Attestation)
  : ending :=
  let all_passed := true in
  (* 1. GLR ref *)
  let glr := sha256_hex (Bytes []) in
  match att_refs att with
  | [] => IndexError
  | ref0 :: _ =>
      let glr_ok := String.eqb ref0 glr in
      let all_passed := all_passed && glr_ok in
      (* 2. subject *)
      let subject_hash := sha256_hex (Str "From nothing, truth emerges") in
      let subject_ok := String.eqb (att_subject att) subject_hash in
      let all_passed := all_passed && subject_ok in
      (* 3. canon *)
      let canon_hash := sha256_hex (Str "raw:sha256:1.0") in
      let canon_ok := String.eqb (att_canon att) canon_hash in
      let all_passed := all_passed && canon_ok in
      match nacl with
      | Some E =>
          (* 4. zone id *)
          match verify_key E with
          | Raise e => Uncaught e
          | Ok public_key_bytes =>
              let derived_zone_id := bytes_to_hex (SHA256.digest public_key_bytes) in
              let zone_ok := String.eqb (att_zone att) derived_zone_id in
              let all_passed := all_passed && zone_ok in
              (* 5. signature *)
              match Scripts.signature_check E public_key_bytes att with
              | Raise e => Uncaught e
              | Ok true => Finished all_passed
              | Ok false => Finished false
              end
          end
      | None =>
          let zone_ok := String.eqb (att_zone att) KNOWN_ZONE in
          let all_passed := all_passed && zone_ok in
          (* 5. skipped *)
          Finished all_passed
      end
  end.

End VerifyFull.

(** ** The countdown of [wait_for_ceremony_time] *)

(** [hours, minutes, secs] as computed from the remaining whole seconds. *)
Definition countdown_fields (seconds : Z) : Z * Z * Z :=
  ((seconds mod 86400) / 3600, (seconds mod 3600) / 60, seconds mod 60).

(** * Vocabulary of the properties *)

(** Definitions used to state the properties below; none of them is part of
    the program. *)

(** ** Assumptions on the primitives *)

(** "Absent a SHA-256 collision", for one pair of inputs. *)
Definition no_collision (m1 m2 : bytes) : Prop :=
  SHA256.digest m1 = SHA256.digest m2 → m1 = m2.

(** Correctness of a signature scheme, as far as the program needs it:
    32-byte seeds give 32-byte keys and 64-byte signatures, and a signature
    verifies under the key of the seed that made it. *)
Record NaClCorrect (E : NaCl) : Prop := {
  verify_key_total : ∀ sd, length sd = 32%nat →
    ∃ pk, SigningKey_verify_key E sd = Some pk ∧ length pk = 32%nat;
  sign_total : ∀ sd m, length sd = 32%nat →
    ∃ sg, SigningKey_sign E sd m = Some sg ∧ length sg = 64%nat;
  sign_verify : ∀ sd m pk sg,
    SigningKey_verify_key E sd = Some pk → SigningKey_sign E sd m = Some sg →
    VerifyKey_verify E pk m sg = true
}.

(** A small scheme with these properties (a keyed digest whose verification
    key is the seed itself). It is not Ed25519; it shows that the properties
    above can be met and lets the statements below be run on an example. *)
Definition keyed_digest_tag (key m : bytes) : bytes :=
  SHA256.digest (key ++ m) ++ SHA256.digest (m ++ key).

Definition keyed_digest_nacl : NaCl := {|
  SigningKey_verify_key sd :=
    if decide (length sd = 32%nat) then Some sd else None;
  SigningKey_sign sd m :=
    if decide (length sd = 32%nat) then Some (keyed_digest_tag sd m) else None;
  VerifyKey_verify pk m sg := bool_decide (sg = keyed_digest_tag pk m)
|}.

(** ** Refs *)

(** No "|" in the text. *)
Fixpoint delimiter_free (s : string) : bool :=
  match s with
  | EmptyString => true
  | String c s' => negb (Ascii.eqb c "|") && delimiter_free s'
  end.

(** [s.split("|")], as first field and remaining fields. *)
Fixpoint split_fields (s : string) : string * list string :=
  match s with
  | EmptyString => (EmptyString, [])
  | String c s' =>
      let '(f, r) := split_fields s' in
      if Ascii.eqb c "|" then (EmptyString, f :: r) else (String c f, r)
  end.

(** [s.split("|")]. *)
Definition fields (s : string) : list string :=
  let '(f, r) := split_fields s in f :: r.

(** The bytes behind [compute_refs_hash]: always a 32-byte digest. *)
Definition refs_hash_bytes (refs : list string) : bytes :=
  match refs with
  | [] => SHA256.digest []
  | _ => SHA256.digest (encode_utf8 (String.concat REFS_DELIMITER (sorted refs)))
  end.

(** ** Identities *)

(** An invocation of the Identity Deriver on a public constant and a domain
    label: either the program's entry point, which reads the two globals, or
    the derivation proper on any constant when the primitive is present. *)
Inductive derives (nacl : option NaCl) (glr domain : string)
  : result Zone → Prop :=
  | derives_genesis :
      glr = GLR → domain = DOMAIN_SEPARATOR →
      derives nacl glr domain (derive_genesis_zone nacl)
  | derives_from E :
      nacl = Some E →
      derives nacl glr domain (derive_zone E glr domain).

(** What every derived identity satisfies, and all the builder and the
    verifier need of it. *)
Record zone_ok (nacl : option NaCl) (zone : Zone) (sd pk : bytes) : Prop := {
  zone_private_key : hex_to_bytes (private_key zone) = Ok sd;
  zone_seed_length : length sd = 32%nat;
  zone_public_key : hex_to_bytes (public_key zone) = Ok pk;
  zone_fingerprint : zone_id zone = bytes_to_hex (SHA256.digest pk);
  zone_keypair : ∀ E, nacl = Some E → SigningKey_verify_key E sd = Some pk
}.

(** ** Built attestations *)

(** The 136 bytes that are signed, from the decoded fields. *)
Definition signed_bytes (i s : bytes) (time : Z) (r c : bytes) : bytes :=
  i ++ s ++ be_bytes 8 time ++ r ++ c.

(** The attestation [build_attestation] returns for an identity whose
    fingerprint decodes to [z], carrying [proof]. *)
Definition built (zone : Zone) (subject_text canon_label : string) (time : Z)
    (refs : list string) (z : bytes) (proof : string) : Attestation :=
  let s := SHA256.digest (encode_utf8 subject_text) in
  let c := SHA256.digest (encode_utf8 canon_label) in
  {| att_id := bytes_to_hex (SHA256.digest (z ++ s ++ c ++ be_bytes 8 time));
     att_zone := zone_id zone;
     att_subject := bytes_to_hex s;
     att_canon := bytes_to_hex c;
     att_time := time;
     att_refs := refs;
     att_proof := proof |}.

(** The message the builder signs. *)
Definition built_message (subject_text canon_label : string) (time : Z)
    (refs : list string) (z : bytes) : bytes :=
  let s := SHA256.digest (encode_utf8 subject_text) in
  let c := SHA256.digest (encode_utf8 canon_label) in
  signed_bytes (SHA256.digest (z ++ s ++ c ++ be_bytes 8 time)) s time
    (refs_hash_bytes refs) c.

(** ** Verdicts *)

(** The entries [verify_attestation] appends to [steps]. *)
Definition zone_step (att : Attestation) (computed_zone : string) : Step :=
  {| step_name := "Zone verification";
     passed := String.eqb computed_zone (att_zone att);
     expected := Some (att_zone att); actual := Some computed_zone;
     note := None |}.

Definition id_step (att : Attestation) (computed_id : string) : Step :=
  {| step_name := "Attestation ID verification";
     passed := String.eqb computed_id (att_id att);
     expected := Some (att_id att); actual := Some computed_id;
     note := None |}.

Definition signature_step (nacl : option NaCl) (sig_valid : bool) : Step :=
  if NACL_AVAILABLE nacl then
    {| step_name := "Ed25519 signature verification"; passed := sig_valid;
       expected := None; actual := None; note := None |}
  else
    {| step_name := "Signature verification"; passed := true;
       expected := None; actual := None;
       note := Some "Skipped (PyNaCl not available)" |}.

(** Outcome of step 3 on the message [m]: the primitive's answer on the
    decoded key and proof when there is a primitive, [true] when not. *)
Definition signature_verdict (nacl : option NaCl) (att : Attestation)
    (public_key : string) (m : bytes) : bool :=
  match nacl with
  | None => true
  | Some E =>
      match hex_to_bytes public_key, hex_to_bytes (att_proof att) with
      | Ok pk, Ok sg => VerifyKey_verify E pk m sg
      | _, _ => false
      end
  end.

(** The verdicts of the specification. *)
Inductive Outcome : Type :=
  | Valid
  | IdentityMismatch
  | IdentifierMismatch
  | InvalidSignature.

(** How a returned [Verification] reads as a verdict. *)
Definition outcome (v : Verification) : option Outcome :=
  match valid v, error v with
  | true, None => Some Valid
  | false, Some e =>
      if String.eqb e "Zone ID mismatch" then Some IdentityMismatch
      else if String.eqb e "Attestation ID mismatch" then Some IdentifierMismatch
      else if String.eqb e "Invalid signature" then Some InvalidSignature
      else None
  | _, _ => None
  end.

(** The verdict of three ordered, short-circuiting checks. *)
Definition first_failure (c1 c2 c3 : bool) : Outcome :=
  if negb c1 then IdentityMismatch
  else if negb c2 then IdentifierMismatch
  else if negb c3 then InvalidSignature
  else Valid.

(** The [passed] flags logged by three ordered, short-circuiting checks. *)
Definition checks_run (c1 c2 c3 : bool) : list bool :=
  if negb c1 then [false]
  else if negb c2 then [true; false]
  else [true; true; c3].

(** Check 1: the fingerprint of the supplied key is the attestation's zone. *)
Definition identity_check (public_key_bytes : bytes) (att : Attestation) : bool :=
  String.eqb (sha256_hex (Bytes public_key_bytes)) (att_zone att).

(** Check 2: the recomputed identifier is the attestation's id. *)
Definition identifier_check (att : Attestation) : bool :=
  match compute_attestation_id (att_zone att) (att_subject att) (att_canon att)
          (att_time att) with
  | Ok cid => String.eqb cid (att_id att)
  | Raise _ => false
  end.

(** Step 3 as the code runs it: Ed25519 verification of the proof over the
    rebuilt signing input when the primitive is present; passed without
    looking at the proof when it is not. *)
Definition signature_check (nacl : option NaCl) (att : Attestation)
    (public_key : string) : bool :=
  match build_signature_input (att_id att) (att_subject att) (att_time att)
          (compute_refs_hash (att_refs att)) (att_canon att) with
  | Ok m => signature_verdict nacl att public_key m
  | Raise _ => false
  end.

(** The verifier returns on [att] under [pk] with verdict [o], having logged
    the steps [ps]. *)
Definition verdict_is (nacl : option NaCl) (att : Attestation) (pk : string)
    (o : Outcome) (ps : list bool) : Prop :=
  ∃ v, verify_attestation nacl att pk = Ok v
       ∧ outcome v = Some o
       ∧ map passed (steps v) = ps.

(** ** Tampering *)

(** Flip bit [j] of a byte, bit 0 being the most significant. *)
Definition flip_byte (j : nat) (b : byte) : byte :=
  byte_of_Z (Z.lxor (Z_of_byte b) (2 ^ (7 - Z.of_nat j))).

(** Flip bit [k] of a byte sequence; out of range nothing changes. *)
Definition flip_bit (k : nat) (data : bytes) : bytes :=
  alter (flip_byte (k mod 8)) (k / 8)%nat data.

(** Flip bit [k] of the bytes a hex text stands for. *)
Definition flip_hex (k : nat) (h : string) : string :=
  match hex_to_bytes h with
  | Ok data => bytes_to_hex (flip_bit k data)
  | Raise _ => h
  end.

(** Flip bit [k] of an unsigned integer, bit 0 being the least significant. *)
Definition flip_time (k : nat) (t : Z) : Z := Z.lxor t (2 ^ Z.of_nat k).

(** An attestation with one field replaced. *)
Definition with_zone (att : Attestation) (zone : string) : Attestation :=
  {| att_id := att_id att; att_zone := zone;
     att_subject := att_subject att; att_canon := att_canon att;
     att_time := att_time att; att_refs := att_refs att;
     att_proof := att_proof att |}.

Definition with_subject (att : Attestation) (subject : string) : Attestation :=
  {| att_id := att_id att; att_zone := att_zone att;
     att_subject := subject; att_canon := att_canon att;
     att_time := att_time att; att_refs := att_refs att;
     att_proof := att_proof att |}.

Definition with_canon (att : Attestation) (canon : string) : Attestation :=
  {| att_id := att_id att; att_zone := att_zone att;
     att_subject := att_subject att; att_canon := canon;
     att_time := att_time att; att_refs := att_refs att;
     att_proof := att_proof att |}.

Definition with_time (att : Attestation) (time : Z) : Attestation :=
  {| att_id := att_id att; att_zone := att_zone att;
     att_subject := att_subject att; att_canon := att_canon att;
     att_time := time; att_refs := att_refs att;
     att_proof := att_proof att |}.

Definition with_proof (att : Attestation) (proof : string) : Attestation :=
  {| att_id := att_id att; att_zone := att_zone att;
     att_subject := att_subject att; att_canon := att_canon att;
     att_time := att_time att; att_refs := att_refs att; att_proof := proof |}.

(** ** Examples *)

(** The fingerprint of the stored identity, decoded. *)
Definition PRECOMPUTED_ZONE_ID_BYTES : bytes := Eval vm_compute in
  match hex_to_bytes (zone_id PRECOMPUTED_ZONE) with
  | Ok b => b
  | Raise _ => []
  end.

(** The genesis attestation as built without the primitive. *)
Definition fallback_genesis_attestation : Attestation :=
  built PRECOMPUTED_ZONE "From nothing, truth emerges" "raw:sha256:1.0"
    GENESIS_TIMESTAMP [GLR] PRECOMPUTED_ZONE_ID_BYTES PRECOMPUTED_PROOF.

(** The genesis attestation of the stored identity, its proof replaced by a
    text that is no signature at all (it does not even decode). *)
Definition unsigned_attestation : Attestation :=
  built PRECOMPUTED_ZONE "From nothing, truth emerges" "raw:sha256:1.0"
    GENESIS_TIMESTAMP [GLR] PRECOMPUTED_ZONE_ID_BYTES "zz".

(** An identity derived with the example scheme from the constant [GLR]
    and the label "zone". *)
Definition example_zone : Zone :=
  {| seed := bytes_to_hex (sha256_bytes (SHA256.digest [] ++ encode_utf8 "zone"));
     private_key := bytes_to_hex (sha256_bytes (SHA256.digest [] ++ encode_utf8 "zone"));
     public_key := bytes_to_hex (sha256_bytes (SHA256.digest [] ++ encode_utf8 "zone"));
     zone_id := bytes_to_hex
                  (sha256_bytes (sha256_bytes (SHA256.digest [] ++ encode_utf8 "zone"))) |}.

(** The attestation the example scheme builds for [example_zone]. *)
Definition example_attestation : Attestation := Eval vm_compute in
  match build_attestation (Some keyed_digest_nacl) example_zone
          "subject" "canon" 7 [GLR; GLR] with
  | Ok att => att
  | Raise _ => unsigned_attestation
  end.

(** The ceremony's artifact for the stored genesis attestation. *)
Definition example_artifact (witnesses : json) : gmap string value :=
  make_artifact "2025-12-21T15:03:00.000Z" fallback_genesis_attestation witnesses.

(** ** Further vocabulary *)

Definition with_refs (att : Attestation) (refs : list string) : Attestation :=
  {| att_id := att_id att; att_zone := att_zone att;
     att_subject := att_subject att; att_canon := att_canon att;
     att_time := att_time att; att_refs := refs;
     att_proof := att_proof att |}.

Definition with_id (att : Attestation) (i : string) : Attestation :=
  {| att_id := i; att_zone := att_zone att;
     att_subject := att_subject att; att_canon := att_canon att;
     att_time := att_time att; att_refs := att_refs att;
     att_proof := att_proof att |}.

(** A hex digit of either case. *)
Definition is_hex_digit (c : ascii) : bool :=
  match digit_value c with
  | Some _ => true
  | None => false
  end.

(** Number of hex digits in a text. *)
Fixpoint hex_digits (s : string) : nat :=
  match s with
  | EmptyString => O
  | String c s' => ((if is_hex_digit c then 1 else 0) + hex_digits s')%nat
  end.

(** All characters satisfy [p]. *)
Fixpoint all_chars (p : ascii → bool) (s : string) : bool :=
  match s with
  | EmptyString => true
  | String c s' => p c && all_chars p s'
  end.

(** The genesis statement, as the ceremony and its checkers spell it. *)
Definition GENESIS_SUBJECT : string := sha256_hex (Str "From nothing, truth emerges").
Definition GENESIS_CANON : string := sha256_hex (Str "raw:sha256:1.0").

(** A digit of [bytes.hex()]: 0-9 or a-f. *)
Definition is_lower_hex_digit (c : ascii) : bool :=
  let n := Z.of_N (N_of_ascii c) in
  ((48 <=? n) && (n <=? 57)) || ((97 <=? n) && (n <=? 102)).

(** The acceptance condition of [verify_attestation], on the decoded
    fields. *)
Definition acceptable (nacl : option NaCl) (att : Attestation)
    (public_key : string) (pkb s c : bytes) : Prop :=
  hex_to_bytes public_key = Ok pkb
  ∧ att_zone att = bytes_to_hex (SHA256.digest pkb)
  ∧ hex_to_bytes (att_subject att) = Ok s
  ∧ hex_to_bytes (att_canon att) = Ok c
  ∧ 0 ≤ att_time att < 2 ^ 64
  ∧ att_id att
    = bytes_to_hex (SHA256.digest (SHA256.digest pkb ++ s ++ c
                                   ++ be_bytes 8 (att_time att)))
  ∧ signature_verdict nacl att public_key
      (signed_bytes
         (SHA256.digest (SHA256.digest pkb ++ s ++ c ++ be_bytes 8 (att_time att)))
         s (att_time att) (refs_hash_bytes (att_refs att)) c) = true.

(** * Properties *)

Lemma Ok_inj {A} (a b : A) : Ok a = Ok b → a = b.
Proof. congruence. Qed.

(** ** Bytes and big-endian integers *)

Lemma Z_of_byte_range b : 0 ≤ Z_of_byte b < 256.
Proof. unfold Z_of_byte. pose proof (Byte.to_N_bounded b). lia. Qed.

Lemma byte_of_Z_of_byte b : byte_of_Z (Z_of_byte b) = b.
Proof.
  unfold byte_of_Z. rewrite Z.mod_small by apply Z_of_byte_range.
  unfold Z_of_byte. by rewrite N2Z.id, Byte.of_to_N.
Qed.

Lemma Z_of_byte_of_Z z : Z_of_byte (byte_of_Z z) = z mod 256.
Proof.
  unfold byte_of_Z, Z_of_byte.
  pose proof (Z.mod_pos_bound z 256 ltac:(lia)) as Hz.
  destruct (Byte.of_N (Z.to_N (z mod 256))) as [b|] eqn:Hb.
  - apply Byte.to_of_N in Hb. rewrite Hb. lia.
  - apply Byte.of_N_None_iff in Hb. lia.
Qed.

Lemma Z_of_byte_inj b1 b2 : Z_of_byte b1 = Z_of_byte b2 → b1 = b2.
Proof. intros H. by rewrite <- (byte_of_Z_of_byte b1), H, byte_of_Z_of_byte. Qed.

Lemma length_be_bytes w n : length (be_bytes w n) = w.
Proof. induction w as [|w IH]; simpl; [done | by rewrite IH]. Qed.

Lemma be_int_from acc (bs : bytes) :
  fold_left (fun a b => a * 256 + Z_of_byte b) bs acc
  = acc * 256 ^ Z.of_nat (length bs) + be_int bs.
Proof.
  unfold be_int. revert acc.
  induction bs as [|b bs IH]; intros acc; simpl fold_left.
  - simpl. lia.
  - rewrite IH, (IH (0 * 256 + _)).
    rewrite length_cons, Nat2Z.inj_succ, Z.pow_succ_r by lia. lia.
Qed.

Lemma be_int_cons b (bs : bytes) :
  be_int (b :: bs) = Z_of_byte b * 256 ^ Z.of_nat (length bs) + be_int bs.
Proof. unfold be_int at 1. simpl fold_left. by rewrite be_int_from. Qed.

Lemma be_int_range (bs : bytes) : 0 ≤ be_int bs < 256 ^ Z.of_nat (length bs).
Proof.
  induction bs as [|b bs IH].
  - unfold be_int. simpl. lia.
  - rewrite be_int_cons, length_cons, Nat2Z.inj_succ, Z.pow_succ_r by lia.
    pose proof (Z_of_byte_range b). nia.
Qed.

(** Decoding what [be_bytes] wrote gives the number back modulo 256^width. *)
Lemma be_int_be_bytes w n : be_int (be_bytes w n) = n mod 256 ^ Z.of_nat w.
Proof.
  induction w as [|w IH].
  - unfold be_int. simpl. by rewrite Z.mod_1_r.
  - simpl be_bytes. rewrite be_int_cons, IH, length_be_bytes, Z_of_byte_of_Z.
    rewrite Nat2Z.inj_succ, Z.pow_succ_r by lia.
    rewrite Z.shiftr_div_pow2 by lia.
    replace (2 ^ (8 * Z.of_nat w)) with (256 ^ Z.of_nat w)
      by (change 256 with (2 ^ 8); rewrite <- Z.pow_mul_r by lia; done).
    assert (0 < 256 ^ Z.of_nat w) by (apply Z.pow_pos_nonneg; lia).
    rewrite (Z.mul_comm 256), Z.rem_mul_r by lia. lia.
Qed.

Lemma be_bytes_inj w n m :
  0 ≤ n < 256 ^ Z.of_nat w → 0 ≤ m < 256 ^ Z.of_nat w →
  be_bytes w n = be_bytes w m → n = m.
Proof.
  intros Hn Hm H. apply (f_equal be_int) in H.
  rewrite !be_int_be_bytes, !Z.mod_small in H; done.
Qed.

(** ** SHA-256 *)

(** Published vectors: the empty input, "abc" (FIPS 180-4 examples), and a
    56-byte input, which takes two blocks. *)
Example sha256_vectors :
  sha256_hex (Str "")
  = "e3b0c44298fc1c149afbf4c8996fb92427ae41e4649b934ca495991b7852b855"
  ∧ sha256_hex (Str "abc")
    = "ba7816bf8f01cfea414140de5dae2223b00361a396177a9cb410ff61f20015ad"
  ∧ sha256_hex (Str "abcdbcdecdefdefgefghfghighijhijkijkljklmklmnlmnomnopnopq")
    = "248d6a61d20638b8e5c026930c3e6039a33ce45964ff2167f6ecedd419db06c1".
Proof. repeat split; vm_compute; reflexivity. Qed.

Lemma length_sha256 m : length (SHA256.digest m) = 32%nat.
Proof.
  unfold SHA256.digest, SHA256.output.
  by rewrite !length_app, !length_be_bytes.
Qed.

(** ** Hex codec *)

Lemma fromhex_hex_byte b s :
  fromhex (String (hex_char (Z_of_byte b / 16))
             (String (hex_char (Z_of_byte b mod 16)) s))
  = cons b <$> fromhex s.
Proof. destruct b; reflexivity. Qed.

Lemma fromhex_bytes_to_hex data : fromhex (bytes_to_hex data) = Some data.
Proof.
  induction data as [|b data IH]; [done|].
  cbn [bytes_to_hex]. by rewrite fromhex_hex_byte, IH.
Qed.

(** Round trip: hex-encode then hex-decode returns the original bytes. *)
Lemma hex_to_bytes_to_hex data : hex_to_bytes (bytes_to_hex data) = Ok data.
Proof. unfold hex_to_bytes. by rewrite fromhex_bytes_to_hex. Qed.

Lemma bytes_to_hex_inj d1 d2 : bytes_to_hex d1 = bytes_to_hex d2 → d1 = d2.
Proof.
  intros H. apply (f_equal fromhex) in H.
  rewrite !fromhex_bytes_to_hex in H. congruence.
Qed.

Lemma length_bytes_to_hex data :
  String.length (bytes_to_hex data) = (2 * length data)%nat.
Proof. induction data as [|b data IH]; simpl; [done | rewrite IH; lia]. Qed.

Lemma hex_to_bytes_sha256_hex d :
  hex_to_bytes (sha256_hex d) = Ok (SHA256.digest
    match d with Str s => encode_utf8 s | Bytes b => b end).
Proof. unfold sha256_hex. apply hex_to_bytes_to_hex. Qed.

(** [encode_utf8] is a prefix code on the modelled code points, hence
    injective: two different texts never hash the same bytes by accident of
    the encoding. *)
Lemma N_of_ascii_Z_inj c1 c2 :
  Z.of_N (N_of_ascii c1) = Z.of_N (N_of_ascii c2) → c1 = c2.
Proof.
  intros H. apply N2Z.inj in H.
  by rewrite <- (ascii_N_embedding c1), H, ascii_N_embedding.
Qed.

Lemma utf8_char_prefix c1 c2 r1 r2 :
  utf8_char c1 ++ r1 = utf8_char c2 ++ r2 → c1 = c2 ∧ r1 = r2.
Proof.
  unfold utf8_char.
  pose proof (N_ascii_bounded c1) as B1. pose proof (N_ascii_bounded c2) as B2.
  set (n1 := Z.of_N (N_of_ascii c1)) in *.
  set (n2 := Z.of_N (N_of_ascii c2)) in *.
  assert (0 ≤ n1 < 256 ∧ 0 ≤ n2 < 256) as [R1 R2] by (subst n1 n2; lia).
  assert (∀ x y, 0 ≤ x < 256 → 0 ≤ y < 256 → byte_of_Z x = byte_of_Z y → x = y)
    as Hinj.
  { intros x y Hx Hy E. apply (f_equal Z_of_byte) in E.
    rewrite !Z_of_byte_of_Z, !Z.mod_small in E; lia. }
  destruct (Z.ltb_spec n1 128), (Z.ltb_spec n2 128); simpl; intros E;
    simplify_eq.
  - split; [|done]. apply N_of_ascii_Z_inj. fold n1 n2. apply Hinj; done.
  - exfalso. match goal with H : byte_of_Z _ = byte_of_Z _ |- _ =>
      apply Hinj in H; [| lia | pose proof (Z.div_pos n2 64);
        pose proof (Z.div_lt_upper_bound n2 64 4); lia] end.
    pose proof (Z.div_pos n2 64). lia.
  - exfalso. match goal with H : byte_of_Z _ = byte_of_Z _ |- _ =>
      apply Hinj in H; [| pose proof (Z.div_pos n1 64);
        pose proof (Z.div_lt_upper_bound n1 64 4); lia | lia] end.
    pose proof (Z.div_pos n1 64). lia.
  - split; [|done]. apply N_of_ascii_Z_inj. fold n1 n2.
    repeat match goal with H : byte_of_Z _ = byte_of_Z _ |- _ =>
      apply Hinj in H;
        [| try (pose proof (Z.div_pos n1 64); pose proof (Z.div_lt_upper_bound n1 64 4));
           try (pose proof (Z.mod_pos_bound n1 64)); lia
         | try (pose proof (Z.div_pos n2 64); pose proof (Z.div_lt_upper_bound n2 64 4));
           try (pose proof (Z.mod_pos_bound n2 64)); lia ] end.
    rewrite (Z.div_mod n1 64), (Z.div_mod n2 64) by lia. lia.
Qed.

Lemma encode_utf8_inj s1 s2 : encode_utf8 s1 = encode_utf8 s2 → s1 = s2.
Proof.
  revert s2. induction s1 as [|c1 s1 IH]; intros [|c2 s2]; simpl; try done.
  - unfold utf8_char. by case_match.
  - unfold utf8_char. by case_match.
  - intros [-> E]%utf8_char_prefix. f_equal. by apply IH.
Qed.

(** ** Sorting texts *)

Lemma compare_not_Gt_trans s1 : ∀ s2 s3,
  String.compare s1 s2 ≠ Gt → String.compare s2 s3 ≠ Gt →
  String.compare s1 s3 ≠ Gt.
Proof.
  induction s1 as [|a s1 IH]; intros [|b s2] [|c s3]; simpl; try done.
  unfold Ascii.compare.
  destruct (N.compare_spec (N_of_ascii a) (N_of_ascii b)),
           (N.compare_spec (N_of_ascii b) (N_of_ascii c)),
           (N.compare_spec (N_of_ascii a) (N_of_ascii c));
    try done; try lia.
  apply IH.
Qed.

Lemma leb_not_Gt s t : str_le s t ↔ String.compare s t ≠ Gt.
Proof. unfold str_le, String.leb. by destruct (String.compare s t). Qed.

Global Instance str_le_total : Total str_le.
Proof. intros s t. apply String.leb_total. Qed.

Global Instance str_le_trans : Transitive str_le.
Proof. intros s t u. rewrite !leb_not_Gt. apply compare_not_Gt_trans. Qed.

Global Instance str_le_antisym : AntiSymm (=) str_le.
Proof. intros s t. apply String.leb_antisym. Qed.

Lemma sorted_Permutation refs : sorted refs ≡ₚ refs.
Proof. apply merge_sort_Permutation. Qed.

Lemma sorted_StronglySorted refs : StronglySorted str_le (sorted refs).
Proof. apply StronglySorted_merge_sort; apply _. Qed.

(** [sorted] returns the one ascending arrangement of its argument. *)
Lemma sorted_unique refs l :
  l ≡ₚ refs → StronglySorted str_le l → sorted refs = l.
Proof.
  intros Hp Hs. apply (StronglySorted_unique str_le).
  - apply sorted_StronglySorted.
  - done.
  - by rewrite sorted_Permutation.
Qed.

Lemma sorted_perm_eq refs refs' : refs ≡ₚ refs' → sorted refs = sorted refs'.
Proof.
  intros Hp. apply sorted_unique; [|apply sorted_StronglySorted].
  by rewrite sorted_Permutation.
Qed.

Lemma sorted_nil_inv refs : sorted refs = [] → refs = [].
Proof.
  intros H. apply Permutation_nil_r. by rewrite <- H, sorted_Permutation.
Qed.

(** ** Texts joined with the delimiter *)

Lemma split_fields_free x : delimiter_free x = true → split_fields x = (x, []).
Proof.
  induction x as [|c x IH]; simpl; [done|].
  intros [Hc Hx]%andb_prop. rewrite (IH Hx).
  by destruct (Ascii.eqb c "|").
Qed.

Lemma split_fields_app x rest :
  delimiter_free x = true →
  split_fields (x +:+ "|" +:+ rest) = (x, fields rest).
Proof.
  induction x as [|c x IH].
  - intros _. change ("" +:+ "|" +:+ rest) with (String "|" rest).
    unfold fields. simpl. by destruct (split_fields rest).
  - change (String c x +:+ "|" +:+ rest) with (String c (x +:+ "|" +:+ rest)).
    simpl. intros [Hc Hx]%andb_prop. rewrite (IH Hx).
    by destruct (Ascii.eqb c "|").
Qed.

Lemma fields_concat (l : list string) :
  l ≠ [] → Forall (λ s, delimiter_free s = true) l →
  fields (String.concat "|" l) = l.
Proof.
  induction l as [|x [|y l] IH]; intros Hne Hall; [done| |].
  - simpl. unfold fields. rewrite split_fields_free; [done|].
    by inversion Hall.
  - inversion Hall as [|?? Hx Hrest]; subst.
    change (String.concat "|" (x :: y :: l))
      with (x +:+ "|" +:+ String.concat "|" (y :: l)).
    unfold fields at 1. rewrite split_fields_app by done.
    by rewrite IH.
Qed.

Lemma concat_delimiter_inj (l l' : list string) :
  l ≠ [] → l' ≠ [] →
  Forall (λ s, delimiter_free s = true) l →
  Forall (λ s, delimiter_free s = true) l' →
  String.concat "|" l = String.concat "|" l' → l = l'.
Proof.
  intros ???? E. apply (f_equal fields) in E.
  by rewrite !fields_concat in E.
Qed.

(** Hex texts never contain the delimiter. *)
Lemma delimiter_free_hex data : delimiter_free (bytes_to_hex data) = true.
Proof.
  induction data as [|b data IH]; [done|].
  cbn [bytes_to_hex delimiter_free]. rewrite IH. by destruct b.
Qed.

(** ** Facts about the protocol functions *)

Lemma GLR_is_sha256_of_empty : GLR = bytes_to_hex (sha256_bytes []).
Proof. reflexivity. Qed.

Lemma uint64_be_in_range time :
  0 ≤ time < 2 ^ 64 → uint64_be time = Ok (be_bytes 8 time).
Proof.
  intros [H1 H2]. unfold uint64_be.
  apply Z.leb_le in H1. apply Z.ltb_lt in H2. by rewrite H1, H2.
Qed.

Lemma uint64_be_Ok_inv time t :
  uint64_be time = Ok t → 0 ≤ time < 2 ^ 64 ∧ t = be_bytes 8 time.
Proof.
  unfold uint64_be. intros H.
  destruct (Z.leb_spec 0 time), (Z.ltb_spec time (2 ^ 64)); simplify_eq/=.
  done.
Qed.

Lemma compute_refs_hash_hex refs :
  compute_refs_hash refs = bytes_to_hex (refs_hash_bytes refs).
Proof. by destruct refs. Qed.

Lemma length_refs_hash_bytes refs : length (refs_hash_bytes refs) = 32%nat.
Proof. destruct refs; apply length_sha256. Qed.

Lemma attestation_id_data_Ok zone subject canon time z s c :
  hex_to_bytes zone = Ok z → hex_to_bytes subject = Ok s →
  hex_to_bytes canon = Ok c → 0 ≤ time < 2 ^ 64 →
  attestation_id_data zone subject canon time = Ok (z ++ s ++ c ++ be_bytes 8 time).
Proof.
  intros Hz Hs Hc Ht. unfold attestation_id_data.
  by rewrite Hz, Hs, Hc, (uint64_be_in_range _ Ht).
Qed.

Lemma attestation_id_data_Ok_inv zone subject canon time data :
  attestation_id_data zone subject canon time = Ok data →
  ∃ z s c, hex_to_bytes zone = Ok z ∧ hex_to_bytes subject = Ok s ∧
           hex_to_bytes canon = Ok c ∧ 0 ≤ time < 2 ^ 64 ∧
           data = z ++ s ++ c ++ be_bytes 8 time.
Proof.
  unfold attestation_id_data. intros H.
  destruct (hex_to_bytes zone) as [z|]; [|done].
  destruct (hex_to_bytes subject) as [s|]; [|done].
  destruct (hex_to_bytes canon) as [c|]; [|done].
  simpl in H. destruct (uint64_be time) as [t|] eqn:Ht; [|done].
  apply uint64_be_Ok_inv in Ht as [? ->]. simplify_eq/=.
  by exists z, s, c.
Qed.

Lemma compute_attestation_id_Ok_inv zone subject canon time cid :
  compute_attestation_id zone subject canon time = Ok cid →
  ∃ data, attestation_id_data zone subject canon time = Ok data ∧
          cid = bytes_to_hex (SHA256.digest data).
Proof.
  unfold compute_attestation_id. intros H.
  destruct (attestation_id_data zone subject canon time) as [data|]; [|done].
  simplify_eq/=. by exists data.
Qed.

Lemma build_signature_input_Ok aid subject time refs_hash canon i s r c :
  hex_to_bytes aid = Ok i → hex_to_bytes subject = Ok s →
  0 ≤ time < 2 ^ 64 → hex_to_bytes refs_hash = Ok r → hex_to_bytes canon = Ok c →
  build_signature_input aid subject time refs_hash canon
  = Ok (i ++ s ++ be_bytes 8 time ++ r ++ c).
Proof.
  intros Hi Hs Ht Hr Hc. unfold build_signature_input.
  by rewrite Hi, Hs, (uint64_be_in_range _ Ht), Hr, Hc.
Qed.

(** ** refsHash *)

(** C4. For every list of refs: on the empty list [compute_refs_hash] is the
    root anchor [GLR], which is the SHA-256 of the empty byte sequence;
    otherwise it is the SHA-256 of the UTF-8 bytes of the refs joined with
    "|" in ascending (lexicographic) order - whichever ascending
    arrangement [sorted_refs] of the refs one takes. The stand-alone
    checker, which hashes the joined text without the empty-list case,
    computes the same value, and the result does not depend on the order in
    which the refs are listed. *)
Theorem refs_hash_spec (refs sorted_refs : list string) :
  sorted_refs ≡ₚ refs →
  StronglySorted str_le sorted_refs →
  compute_refs_hash refs
  = match refs with
    | [] => GLR
    | _ => bytes_to_hex
             (sha256_bytes (encode_utf8 (String.concat "|" sorted_refs)))
    end
  ∧ GLR = bytes_to_hex (sha256_bytes [])
  ∧ (∀ att, att_refs att = refs →
       bytes_to_hex (Scripts.refs_hash att) = compute_refs_hash refs)
  ∧ (∀ refs', refs' ≡ₚ refs → compute_refs_hash refs' = compute_refs_hash refs).
Proof.
  intros Hperm Hsorted.
  assert (sorted refs = sorted_refs) as Hs by by apply sorted_unique.
  split_and!.
  - destruct refs as [|r refs]; [done|].
    unfold compute_refs_hash. by rewrite Hs.
  - exact GLR_is_sha256_of_empty.
  - intros att Hatt. unfold Scripts.refs_hash, Scripts.refs_concat.
    rewrite Hatt. by destruct refs.
  - intros refs' Hp.
    destruct refs' as [|r' refs'], refs as [|r refs]; try done.
    + by apply Permutation_nil_cons in Hp.
    + symmetry in Hp. by apply Permutation_nil_cons in Hp.
    + unfold compute_refs_hash. by rewrite (sorted_perm_eq _ _ Hp).
Qed.

Lemma refs_hash_spec_witness :
  ["a"; "b"] ≡ₚ ["b"; "a"] ∧ StronglySorted str_le ["a"; "b"] ∧
  compute_refs_hash ["b"; "a"]
  = bytes_to_hex (sha256_bytes (encode_utf8 "a|b")).
Proof.
  assert (["a"; "b"] ≡ₚ ["b"; "a"]) as Hp by apply perm_swap.
  assert (StronglySorted str_le ["a"; "b"]) as Hs
    by (repeat constructor; reflexivity).
  split_and!; [done..|].
  exact (proj1 (refs_hash_spec ["b"; "a"] ["a"; "b"] Hp Hs)).
Defined.

(** C10. [compute_refs_hash] sorts but does not deduplicate. For non-empty
    lists of delimiter-free refs (hex texts are): every ref occurs in the
    sorted, joined list exactly as often as in the input; two lists that are
    not rearrangements of each other - in particular two lists with the same
    elements in different multiplicities - are joined to different texts;
    and, SHA-256 not colliding on those two texts, get different hashes. *)
Theorem refs_hash_keeps_duplicates (refs refs' : list string) :
  refs ≠ [] → refs' ≠ [] →
  Forall (λ r, delimiter_free r = true) refs →
  Forall (λ r, delimiter_free r = true) refs' →
  ¬ refs ≡ₚ refs' →
  (∀ r, count_occ string_dec (sorted refs) r = count_occ string_dec refs r)
  ∧ length (sorted refs) = length refs
  ∧ String.concat REFS_DELIMITER (sorted refs)
    ≠ String.concat REFS_DELIMITER (sorted refs')
  ∧ (no_collision (encode_utf8 (String.concat REFS_DELIMITER (sorted refs)))
                  (encode_utf8 (String.concat REFS_DELIMITER (sorted refs'))) →
     compute_refs_hash refs ≠ compute_refs_hash refs').
Proof.
  intros Hne Hne' Hfree Hfree' Hnp.
  assert (String.concat REFS_DELIMITER (sorted refs)
          ≠ String.concat REFS_DELIMITER (sorted refs')) as Hdiff.
  { intros E. apply Hnp. apply concat_delimiter_inj in E.
    - by rewrite <- (sorted_Permutation refs), E, sorted_Permutation.
    - intros H. by apply sorted_nil_inv in H.
    - intros H. by apply sorted_nil_inv in H.
    - by rewrite sorted_Permutation.
    - by rewrite sorted_Permutation. }
  split_and!.
  - intros r. apply Permutation_count_occ, sorted_Permutation.
  - apply Permutation_length, sorted_Permutation.
  - done.
  - intros Hnc E. apply Hdiff.
    destruct refs as [|r0 refs]; [done|]. destruct refs' as [|r0' refs']; [done|].
    unfold compute_refs_hash, sha256_hex in E.
    apply bytes_to_hex_inj, Hnc in E. by apply encode_utf8_inj.
Qed.

Lemma refs_hash_keeps_duplicates_witness :
  compute_refs_hash [GLR] ≠ compute_refs_hash [GLR; GLR]
  ∧ count_occ string_dec (sorted [GLR; GLR]) GLR = 2%nat.
Proof.
  assert (¬ [GLR] ≡ₚ [GLR; GLR]) as Hnp
    by (intros H; apply Permutation_length in H; discriminate).
  assert (Forall (λ r, delimiter_free r = true) [GLR]) as F1
    by (repeat constructor).
  assert (Forall (λ r, delimiter_free r = true) [GLR; GLR]) as F2
    by (repeat constructor).
  destruct (refs_hash_keeps_duplicates [GLR] [GLR; GLR]
              ltac:(discriminate) ltac:(discriminate) F1 F2 Hnp)
    as (_ & _ & _ & Hhash).
  destruct (refs_hash_keeps_duplicates [GLR; GLR] [GLR]
              ltac:(discriminate) ltac:(discriminate) F2 F1
              ltac:(intros H; apply Hnp; by symmetry))
    as (Hcount & _).
  split.
  - apply Hhash. intros H. vm_compute in H. discriminate H.
  - rewrite Hcount. reflexivity.
Defined.

(** ** The Ed25519 capability: what the proofs rely on *)

Lemma keyed_digest_nacl_correct : NaClCorrect keyed_digest_nacl.
Proof.
  split; simpl.
  - intros sd Hsd. exists sd. by rewrite decide_True.
  - intros sd m Hsd. exists (keyed_digest_tag sd m). rewrite decide_True by done.
    split; [done|]. unfold keyed_digest_tag.
    by rewrite length_app, !length_sha256.
  - intros sd m pk sg. repeat case_decide; intros; simplify_eq.
    by apply bool_decide_eq_true.
Qed.

(** ** The verifier, case by case *)

Lemma verify_zone_mismatch nacl att pk pkb :
  hex_to_bytes pk = Ok pkb →
  sha256_hex (Bytes pkb) ≠ att_zone att →
  verify_attestation nacl att pk
  = Ok {| valid := false; error := Some "Zone ID mismatch";
          steps := [zone_step att (sha256_hex (Bytes pkb))] |}.
Proof.
  intros Hpk Hz. unfold verify_attestation. rewrite Hpk. cbn [bind].
  apply String.eqb_neq in Hz. unfold zone_step. by rewrite Hz.
Qed.

Lemma verify_id_raises nacl att pk pkb e :
  hex_to_bytes pk = Ok pkb →
  sha256_hex (Bytes pkb) = att_zone att →
  compute_attestation_id (att_zone att) (att_subject att) (att_canon att)
    (att_time att) = Raise e →
  verify_attestation nacl att pk = Raise e.
Proof.
  intros Hpk Hz Hid. unfold verify_attestation. rewrite Hpk. cbn [bind].
  apply String.eqb_eq in Hz. rewrite Hz. cbn [negb]. by rewrite Hid.
Qed.

Lemma verify_id_mismatch nacl att pk pkb cid :
  hex_to_bytes pk = Ok pkb →
  sha256_hex (Bytes pkb) = att_zone att →
  compute_attestation_id (att_zone att) (att_subject att) (att_canon att)
    (att_time att) = Ok cid →
  cid ≠ att_id att →
  verify_attestation nacl att pk
  = Ok {| valid := false; error := Some "Attestation ID mismatch";
          steps := [zone_step att (sha256_hex (Bytes pkb)); id_step att cid] |}.
Proof.
  intros Hpk Hz Hid Hne. unfold verify_attestation. rewrite Hpk. cbn [bind].
  unfold zone_step, id_step.
  apply String.eqb_eq in Hz. rewrite Hz. cbn [negb]. rewrite Hid. cbn [bind].
  apply String.eqb_neq in Hne. by rewrite Hne.
Qed.

Lemma verify_reaches_signature nacl att pk pkb :
  hex_to_bytes pk = Ok pkb →
  sha256_hex (Bytes pkb) = att_zone att →
  compute_attestation_id (att_zone att) (att_subject att) (att_canon att)
    (att_time att) = Ok (att_id att) →
  ∃ i s c,
    hex_to_bytes (att_id att) = Ok i ∧
    hex_to_bytes (att_subject att) = Ok s ∧
    hex_to_bytes (att_canon att) = Ok c ∧
    0 ≤ att_time att < 2 ^ 64 ∧
    length i = 32%nat ∧
    let m := signed_bytes i s (att_time att) (refs_hash_bytes (att_refs att)) c in
    let ok := signature_verdict nacl att pk m in
    verify_attestation nacl att pk
    = Ok {| valid := ok;
            error := if ok then None else Some "Invalid signature";
            steps := [zone_step att (sha256_hex (Bytes pkb));
                      id_step att (att_id att);
                      signature_step nacl ok] |}.
Proof.
  intros Hpk Hz Hid.
  destruct (compute_attestation_id_Ok_inv _ _ _ _ _ Hid) as (data & Hdata & Hi).
  destruct (attestation_id_data_Ok_inv _ _ _ _ _ Hdata)
    as (z & s & c & Hzb & Hs & Hc & Ht & ->).
  exists (SHA256.digest (z ++ s ++ c ++ be_bytes 8 (att_time att))), s, c.
  assert (hex_to_bytes (att_id att)
          = Ok (SHA256.digest (z ++ s ++ c ++ be_bytes 8 (att_time att)))) as Hib
    by (rewrite Hi; apply hex_to_bytes_to_hex).
  refine (conj Hib (conj Hs (conj Hc (conj Ht (conj (length_sha256 _) _))))).
  intros m ok. unfold verify_attestation. rewrite Hpk. cbn [bind].
  unfold zone_step, id_step.
  pose proof Hz as Hz'. apply String.eqb_eq in Hz'. rewrite Hz'. cbn [negb].
  rewrite Hid. cbn [bind]. rewrite String.eqb_refl. cbn [negb].
  rewrite (build_signature_input_Ok _ _ _ _ _ _ _ _ _ Hib Hs Ht
             (eq_trans (f_equal hex_to_bytes (compute_refs_hash_hex _))
                       (hex_to_bytes_to_hex _)) Hc).
  cbn [bind]. fold (signed_bytes (SHA256.digest (z ++ s ++ c ++ be_bytes 8 (att_time att)))
                      s (att_time att) (refs_hash_bytes (att_refs att)) c).
  fold m. subst ok. unfold signature_verdict, signature_step.
  destruct nacl as [E|]; cbn [NACL_AVAILABLE verify_signature bind].
  - rewrite Hpk. destruct (hex_to_bytes (att_proof att)) as [sg|]; cbn [bind negb].
    + by destruct (VerifyKey_verify E pkb m sg).
    + done.
  - done.
Qed.

(** ** Identity derivation *)

Lemma derive_zone_closed_form E glr domain c :
  NaClCorrect E → hex_to_bytes glr = Ok c →
  ∃ pk, SigningKey_verify_key E (sha256_bytes (c ++ encode_utf8 domain)) = Some pk
        ∧ length pk = 32%nat
        ∧ derive_zone E glr domain
          = Ok {| seed := bytes_to_hex (sha256_bytes (c ++ encode_utf8 domain));
                  private_key := bytes_to_hex (sha256_bytes (c ++ encode_utf8 domain));
                  public_key := bytes_to_hex pk;
                  zone_id := bytes_to_hex (sha256_bytes pk) |}.
Proof.
  intros HE Hc.
  destruct (verify_key_total E HE (sha256_bytes (c ++ encode_utf8 domain))
              (length_sha256 _)) as (pk & Hpk & Hlen).
  exists pk. split_and!; [done..|].
  unfold derive_zone. rewrite Hc. cbn [bind]. by rewrite Hpk.
Qed.

(** C8. Identity derivation is a function of the public constant and the
    domain label alone: any two invocations on the same 32-byte constant and
    label return the same identity, whose seed is SHA-256 of constant ‖
    UTF-8(label), whose private key is that seed, whose public key is the
    key of that seed, and whose fingerprint is SHA-256 of the public key. No
    other input (no random draw) enters: with the primitive present the key
    is [SigningKey(seed)], and without it the stored constants satisfy the
    same equations. *)
Theorem derive_zone_deterministic (nacl : option NaCl) (glr domain : string)
    (c : bytes) (r1 r2 : result Zone) :
  (∀ E, nacl = Some E → NaClCorrect E) →
  hex_to_bytes glr = Ok c → length c = 32%nat →
  derives nacl glr domain r1 → derives nacl glr domain r2 →
  r1 = r2 ∧
  ∃ zone pk,
    r1 = Ok zone
    ∧ seed zone = bytes_to_hex (sha256_bytes (c ++ encode_utf8 domain))
    ∧ private_key zone = seed zone
    ∧ public_key zone = bytes_to_hex pk
    ∧ length pk = 32%nat
    ∧ zone_id zone = bytes_to_hex (sha256_bytes pk)
    ∧ (∀ E, nacl = Some E →
         SigningKey_verify_key E (sha256_bytes (c ++ encode_utf8 domain)) = Some pk).
Proof.
  intros Hlaws Hc Hlen H1 H2.
  assert (∀ r, derives nacl glr domain r →
            r = match nacl with
                | Some E => derive_zone E glr domain
                | None => Ok PRECOMPUTED_ZONE
                end) as Hfun.
  { intros r [-> ->|E ->]; [by destruct nacl | done]. }
  rewrite (Hfun r1 H1), (Hfun r2 H2). split; [done|].
  destruct nacl as [E|].
  - destruct (derive_zone_closed_form E glr domain c (Hlaws E eq_refl) Hc)
      as (pk & Hpk & Hpklen & ->).
    eexists _, pk. split_and!; try done.
    intros E' [= <-]. done.
  - destruct H1 as [-> ->|E' [=]].
    assert (hex_to_bytes GLR = Ok (SHA256.digest [])) as Hg
      by (vm_compute; reflexivity).
    rewrite Hg in Hc. injection Hc as <-.
    exists PRECOMPUTED_ZONE,
      (match hex_to_bytes (public_key PRECOMPUTED_ZONE) with
       | Ok b => b
       | Raise _ => []
       end).
    split_and!; [done| | | | | |done]; vm_compute; reflexivity.
Qed.

Lemma derive_zone_deterministic_witness :
  ∃ zone, derive_genesis_zone None = Ok zone
          ∧ seed zone = bytes_to_hex
              (sha256_bytes (SHA256.digest [] ++ encode_utf8 "glogos-genesis")).
Proof.
  destruct (derive_zone_deterministic None GLR DOMAIN_SEPARATOR (SHA256.digest [])
              (derive_genesis_zone None) (derive_genesis_zone None))
    as (_ & zone & pk & H & Hseed & _).
  - intros E [=].
  - vm_compute. reflexivity.
  - apply length_sha256.
  - by constructor.
  - by constructor.
  - by exists zone.
Defined.

Lemma derives_zone_ok nacl glr domain zone :
  (∀ E, nacl = Some E → NaClCorrect E) →
  derives nacl glr domain (Ok zone) →
  ∃ sd pk, zone_ok nacl zone sd pk.
Proof.
  intros Hlaws H.
  assert (match nacl with
          | Some E => derive_zone E glr domain
          | None => Ok PRECOMPUTED_ZONE
          end = Ok zone) as Hz.
  { inversion H as [-> -> Heq|E -> Heq]; [by destruct nacl | done]. }
  clear H. destruct nacl as [E|].
  - destruct (hex_to_bytes glr) as [c|] eqn:Hc;
      [|unfold derive_zone in Hz; by rewrite Hc in Hz].
    destruct (derive_zone_closed_form E glr domain c (Hlaws E eq_refl) Hc)
      as (pk & Hpk & Hlen & Hd).
    rewrite Hd in Hz. apply Ok_inj in Hz as <-.
    exists (sha256_bytes (c ++ encode_utf8 domain)), pk.
    split;
      [exact (hex_to_bytes_to_hex _) | exact (length_sha256 _)
      | exact (hex_to_bytes_to_hex _) | done | by intros E' [= <-]].
  - apply Ok_inj in Hz as <-.
    exists (match hex_to_bytes (private_key PRECOMPUTED_ZONE) with
            | Ok b => b | Raise _ => [] end),
           (match hex_to_bytes (public_key PRECOMPUTED_ZONE) with
            | Ok b => b | Raise _ => [] end).
    split; try (vm_compute; reflexivity). intros E [=].
Qed.

(** ** The builder *)

Lemma build_attestation_unfold nacl zone subject_text canon_label time refs z :
  hex_to_bytes (zone_id zone) = Ok z → 0 ≤ time < 2 ^ 64 →
  build_attestation nacl zone subject_text canon_label time refs
  = let* proof :=
      if NACL_AVAILABLE nacl then
        sign_message nacl (built_message subject_text canon_label time refs z)
          (private_key zone)
      else Ok PRECOMPUTED_PROOF in
    Ok (built zone subject_text canon_label time refs z proof).
Proof.
  intros Hz Ht. unfold build_attestation, compute_attestation_id.
  rewrite (attestation_id_data_Ok _ _ _ _ _ _ _ Hz
             (hex_to_bytes_sha256_hex _) (hex_to_bytes_sha256_hex _) Ht).
  cbn [bind].
  rewrite (build_signature_input_Ok _ _ _ _ _ _ _ _ _
             (hex_to_bytes_sha256_hex _) (hex_to_bytes_sha256_hex _) Ht
             (eq_trans (f_equal hex_to_bytes (compute_refs_hash_hex _))
                       (hex_to_bytes_to_hex _))
             (hex_to_bytes_sha256_hex _)).
  cbn [bind]. reflexivity.
Qed.

Lemma length_built_message subject_text canon_label time refs z :
  length (built_message subject_text canon_label time refs z) = 136%nat.
Proof.
  unfold built_message, signed_bytes.
  by rewrite !length_app, !length_sha256, length_refs_hash_bytes, length_be_bytes.
Qed.

Lemma build_attestation_Ok_inv nacl zone subject_text canon_label time refs att :
  build_attestation nacl zone subject_text canon_label time refs = Ok att →
  ∃ z, hex_to_bytes (zone_id zone) = Ok z ∧ 0 ≤ time < 2 ^ 64.
Proof.
  unfold build_attestation. intros H.
  destruct (compute_attestation_id _ _ _ _) as [cid|] eqn:Hid; [|done].
  apply compute_attestation_id_Ok_inv in Hid as (data & Hd & _).
  apply attestation_id_data_Ok_inv in Hd as (z & _ & _ & Hz & _ & _ & Ht & _).
  by exists z.
Qed.

(** Verifying an attestation of the built shape whose identifier and zone
    are what the builder wrote, whatever the proof. *)
Lemma verify_built nacl zone subject_text canon_label time refs sd pk proof :
  zone_ok nacl zone sd pk → 0 ≤ time < 2 ^ 64 →
  let att := built zone subject_text canon_label time refs (SHA256.digest pk) proof in
  let ok := signature_verdict nacl att (public_key zone)
              (built_message subject_text canon_label time refs (SHA256.digest pk)) in
  verify_attestation nacl att (public_key zone)
  = Ok {| valid := ok;
          error := if ok then None else Some "Invalid signature";
          steps := [zone_step att (sha256_hex (Bytes pk));
                    id_step att (att_id att);
                    signature_step nacl ok] |}.
Proof.
  intros [Hsd Hsdlen Hpk Hfp Hkp] Ht att ok.
  assert (hex_to_bytes (zone_id zone) = Ok (SHA256.digest pk)) as Hz
    by (rewrite Hfp; apply hex_to_bytes_to_hex).
  destruct (verify_reaches_signature nacl att (public_key zone) pk Hpk)
    as (i & s & c & Hi & Hs & Hc & _ & _ & Hv).
  - done.
  - subst att. unfold built, compute_attestation_id. cbn [att_zone att_subject
      att_canon att_time att_id].
    by rewrite (attestation_id_data_Ok _ _ _ _ _ _ _ Hz
                  (hex_to_bytes_to_hex _) (hex_to_bytes_to_hex _) Ht).
  - subst att. unfold built in Hi, Hs, Hc.
    cbn [att_zone att_subject att_canon att_time att_id] in Hi, Hs, Hc.
    rewrite hex_to_bytes_to_hex in Hi, Hs, Hc. simplify_eq.
    exact Hv.
Qed.

(** C1. Every attestation the builder produces from a derived identity -
    for any subject text, canon label, time in the unsigned 64-bit range and
    list of refs - is accepted by the verifier under that identity's public
    key: the pipeline returns at each stage and the result has [valid = true]
    and no error. With the primitive present this rests on the signature
    scheme being correct; without it step 3 is not run. *)
Theorem built_attestation_verifies (nacl : option NaCl) (glr domain : string)
    (zone : Zone) (subject_text canon_label : string) (time : Z)
    (refs : list string) :
  (∀ E, nacl = Some E → NaClCorrect E) →
  derives nacl glr domain (Ok zone) →
  0 ≤ time < 2 ^ 64 →
  ∃ att v,
    build_attestation nacl zone subject_text canon_label time refs = Ok att
    ∧ verify_attestation nacl att (public_key zone) = Ok v
    ∧ valid v = true
    ∧ error v = None
    ∧ map passed (steps v) = [true; true; true].
Proof.
  intros Hlaws Hder Ht.
  destruct (derives_zone_ok nacl glr domain zone Hlaws Hder) as (sd & pk & Hzone).
  pose proof Hzone as [Hsd Hsdlen Hpk Hfp Hkp].
  assert (hex_to_bytes (zone_id zone) = Ok (SHA256.digest pk)) as Hz
    by (rewrite Hfp; apply hex_to_bytes_to_hex).
  rewrite (build_attestation_unfold _ _ _ _ _ _ _ Hz Ht).
  set (m := built_message subject_text canon_label time refs (SHA256.digest pk)).
  assert (∃ proof,
    (if NACL_AVAILABLE nacl then sign_message nacl m (private_key zone)
     else Ok PRECOMPUTED_PROOF) = Ok proof
    ∧ signature_verdict nacl
        (built zone subject_text canon_label time refs (SHA256.digest pk) proof)
        (public_key zone) m = true) as (proof & Hproof & Hok).
  { destruct nacl as [E|]; cbn [NACL_AVAILABLE].
    - destruct (sign_total E (Hlaws E eq_refl) sd m Hsdlen) as (sg & Hsg & _).
      exists (bytes_to_hex sg). unfold sign_message, signature_verdict.
      rewrite Hsd, Hpk. cbn [bind from_nacl]. rewrite Hsg. cbn [bind from_nacl].
      split; [done|]. unfold built. cbn [att_proof].
      rewrite hex_to_bytes_to_hex.
      exact (sign_verify E (Hlaws E eq_refl) sd m pk sg (Hkp E eq_refl) Hsg).
    - by exists PRECOMPUTED_PROOF. }
  rewrite Hproof. cbn [bind].
  eexists _, _. split; [reflexivity|].
  rewrite (verify_built nacl zone subject_text canon_label time refs sd pk proof
             Hzone Ht).
  fold m. rewrite Hok. split_and!; [reflexivity..|].
  cbn [steps map passed zone_step id_step].
  unfold signature_step, sha256_hex, built. cbn [att_zone att_id].
  rewrite Hfp, !String.eqb_refl. by destruct (NACL_AVAILABLE nacl).
Qed.

Lemma example_zone_derived :
  derives (Some keyed_digest_nacl) GLR "zone" (Ok example_zone).
Proof.
  assert (derive_zone keyed_digest_nacl GLR "zone" = Ok example_zone) as <-
    by (vm_compute; reflexivity).
  by apply derives_from.
Qed.

Lemma keyed_digest_nacl_laws E : Some keyed_digest_nacl = Some E → NaClCorrect E.
Proof. intros [= <-]. exact keyed_digest_nacl_correct. Qed.

Lemma built_attestation_verifies_witness :
  ∃ att v,
    build_attestation (Some keyed_digest_nacl) example_zone
      "subject" "canon" 7 [GLR; GLR] = Ok att
    ∧ verify_attestation (Some keyed_digest_nacl) att (public_key example_zone) = Ok v
    ∧ valid v = true.
Proof.
  destruct (built_attestation_verifies (Some keyed_digest_nacl) GLR "zone"
              example_zone "subject" "canon" 7 [GLR; GLR]
              keyed_digest_nacl_laws example_zone_derived ltac:(lia))
    as (att & v & Hb & Hv & Hvalid & _).
  exists att, v. split; [exact Hb|]. split; [exact Hv|exact Hvalid].
Defined.

(** ** Signing without the primitive *)

(** C6, as the code has it. Without the primitive [sign_message] raises
    ("PyNaCl required for signing"), but the builder does not call it: for
    every identity with a well-formed fingerprint and every time in range it
    returns an attestation whose proof is the stored constant. *)
Theorem builder_without_primitive (zone : Zone) (subject_text canon_label : string)
    (time : Z) (refs : list string) (z : bytes) :
  hex_to_bytes (zone_id zone) = Ok z →
  0 ≤ time < 2 ^ 64 →
  (∀ message private_key_hex,
     sign_message None message private_key_hex
     = Raise (RuntimeError "PyNaCl required for signing"))
  ∧ build_attestation None zone subject_text canon_label time refs
    = Ok (built zone subject_text canon_label time refs z PRECOMPUTED_PROOF).
Proof.
  intros Hz Ht. split; [done|].
  by rewrite (build_attestation_unfold None _ _ _ _ _ _ Hz Ht).
Qed.

Lemma builder_without_primitive_witness :
  hex_to_bytes (zone_id PRECOMPUTED_ZONE) = Ok PRECOMPUTED_ZONE_ID_BYTES
  ∧ 0 ≤ GENESIS_TIMESTAMP < 2 ^ 64
  ∧ create_genesis_attestation None PRECOMPUTED_ZONE
    = Ok (built PRECOMPUTED_ZONE "From nothing, truth emerges" "raw:sha256:1.0"
            GENESIS_TIMESTAMP [GLR] PRECOMPUTED_ZONE_ID_BYTES PRECOMPUTED_PROOF).
Proof.
  assert (hex_to_bytes (zone_id PRECOMPUTED_ZONE) = Ok PRECOMPUTED_ZONE_ID_BYTES)
    as Hz by (vm_compute; reflexivity).
  assert (0 ≤ GENESIS_TIMESTAMP < 2 ^ 64) as Ht by (unfold GENESIS_TIMESTAMP; lia).
  split; [exact Hz|]. split; [exact Ht|].
  exact (proj2 (builder_without_primitive PRECOMPUTED_ZONE
                  "From nothing, truth emerges" "raw:sha256:1.0"
                  GENESIS_TIMESTAMP [GLR] PRECOMPUTED_ZONE_ID_BYTES Hz Ht)).
Defined.

(** C6, counterexample to the claim as stated: with no primitive present the
    genesis builder returns an attestation instead of failing. *)
Lemma builder_without_primitive_returns :
  NACL_AVAILABLE None = false
  ∧ derive_genesis_zone None = Ok PRECOMPUTED_ZONE
  ∧ ∃ att, create_genesis_attestation None PRECOMPUTED_ZONE = Ok att
           ∧ att_proof att = PRECOMPUTED_PROOF
           ∧ ∀ e, create_genesis_attestation None PRECOMPUTED_ZONE ≠ Raise e.
Proof.
  split; [reflexivity|]. split; [reflexivity|].
  eexists. split; [vm_compute; reflexivity|]. split; [reflexivity|].
  intros e H. vm_compute in H. discriminate H.
Qed.

(** ** The verifier's verdict *)

(** C5, as the code has it. On every attestation and public key whose
    fields decode, the verifier returns, and its result is that of three
    checks run in the order identity, identifier, signature, stopping at the
    first that fails: the error is that check's alone, the logged steps are
    the checks run, and [valid] is true exactly when all three pass - where
    the third is the Ed25519 verification if the primitive is present and
    passes unconditionally if it is not. *)
Theorem verify_attestation_short_circuit (nacl : option NaCl)
    (att : Attestation) (public_key : string) (pkb : bytes) :
  hex_to_bytes public_key = Ok pkb →
  (identity_check pkb att = true →
   is_Ok (compute_attestation_id (att_zone att) (att_subject att) (att_canon att)
            (att_time att))) →
  let c1 := identity_check pkb att in
  let c2 := identifier_check att in
  let c3 := signature_check nacl att public_key in
  ∃ v, verify_attestation nacl att public_key = Ok v
       ∧ outcome v = Some (first_failure c1 c2 c3)
       ∧ map passed (steps v) = checks_run c1 c2 c3
       ∧ (valid v = true ↔ c1 = true ∧ c2 = true ∧ c3 = true)
       ∧ (nacl = None → c1 = true → c2 = true → valid v = true).
Proof.
  intros Hpk Hwf c1 c2 c3. subst c1 c2 c3. unfold identity_check in *.
  destruct (String.eqb_spec (sha256_hex (Bytes pkb)) (att_zone att)) as [Hz|Hz].
  - destruct (Hwf eq_refl) as [cid Hcid]. unfold identifier_check. rewrite Hcid.
    destruct (String.eqb_spec cid (att_id att)) as [Hid|Hid].
    + subst cid.
      destruct (verify_reaches_signature nacl att public_key pkb Hpk Hz Hcid)
        as (i & s & c & Hi & Hs & Hc & Ht & _ & Hv).
      unfold signature_check.
      rewrite (build_signature_input_Ok _ _ _ _ _ _ _ _ _ Hi Hs Ht
                 (eq_trans (f_equal hex_to_bytes (compute_refs_hash_hex _))
                           (hex_to_bytes_to_hex _)) Hc).
      fold (signed_bytes i s (att_time att) (refs_hash_bytes (att_refs att)) c).
      eexists. split; [exact Hv|]. cbn [valid error steps map passed].
      unfold zone_step, id_step, signature_step, first_failure, checks_run, outcome.
      cbn [passed valid error negb]. rewrite Hz, !String.eqb_refl.
      destruct nacl as [E|]; cbn [NACL_AVAILABLE signature_verdict passed].
      * destruct (match hex_to_bytes public_key with
                  | Ok pk => _ | Raise _ => _ end); cbn [negb];
          (split_and!; [done|done|split; [done|intros (_ & _ & ?); done]|done]).
      * cbn [negb]. split_and!; done.
    + eexists. split; [exact (verify_id_mismatch nacl att public_key pkb cid
                                Hpk Hz Hcid Hid)|].
      cbn [valid error steps map passed]. unfold zone_step, id_step.
      cbn [passed]. rewrite Hz, String.eqb_refl.
      apply String.eqb_neq in Hid. rewrite Hid.
      split_and!; [done|done|split; [done|intros (_ & ? & _); done]|done].
  - eexists. split; [exact (verify_zone_mismatch nacl att public_key pkb Hpk Hz)|].
    cbn [valid error steps map passed]. unfold zone_step. cbn [passed].
    apply String.eqb_neq in Hz. rewrite Hz.
    split_and!; [done|done|split; [done|intros (? & _ & _); done]|done].
Qed.

Lemma verify_attestation_short_circuit_witness :
  ∃ v, verify_attestation None unsigned_attestation (public_key PRECOMPUTED_ZONE) = Ok v
       ∧ outcome v = Some Valid
       ∧ map passed (steps v) = [true; true; true].
Proof.
  destruct (verify_attestation_short_circuit None unsigned_attestation
              (public_key PRECOMPUTED_ZONE)
              (match hex_to_bytes (public_key PRECOMPUTED_ZONE) with
               | Ok b => b | Raise _ => [] end))
    as (v & Hv & Ho & Hs & _).
  - vm_compute. reflexivity.
  - intros _. eexists. vm_compute. reflexivity.
  - exists v. split; [exact Hv|]. split.
    + rewrite Ho. vm_compute. reflexivity.
    + rewrite Hs. vm_compute. reflexivity.
Defined.

(** C5, counterexample to the claim as stated: without the primitive the
    verifier returns [valid = true] on an attestation whose proof fails the
    signature check under every Ed25519 implementation. *)
Lemma fallback_accepts_unsigned :
  (∀ E m, verify_signature (Some E) m (att_proof unsigned_attestation)
            (public_key PRECOMPUTED_ZONE) = Ok false)
  ∧ ∃ v, verify_attestation None unsigned_attestation (public_key PRECOMPUTED_ZONE)
         = Ok v
         ∧ valid v = true ∧ error v = None.
Proof.
  split.
  - intros E m. reflexivity.
  - eexists. split; [vm_compute; reflexivity|]. split; reflexivity.
Qed.

(** ** The stand-alone checker agrees with witness.py *)

Lemma string_pair_ind (P : string → Prop) :
  P EmptyString → (∀ c, P (String c EmptyString)) →
  (∀ c d s, P s → P (String c (String d s))) → ∀ s, P s.
Proof.
  intros H0 H1 H2.
  fix IH 1. intros [|c [|d s]]; [exact H0 | exact (H1 c) | exact (H2 c d s (IH s))].
Qed.

Lemma digit_not_space c v : digit_value c = Some v → is_space c = false.
Proof.
  unfold digit_value, is_space. set (n := Z.of_N (N_of_ascii c)).
  repeat match goal with
         | |- context [?a <=? ?b] => destruct (Z.leb_spec a b)
         | |- context [?a =? ?b] => destruct (Z.eqb_spec a b)
         end; simpl; intros; try done; lia.
Qed.

(** [binascii.unhexlify] accepts less than [bytes.fromhex] and agrees with
    it on what it accepts. *)
Lemma unhexlify_fromhex s data :
  Scripts.unhexlify_opt s = Some data → fromhex s = Some data.
Proof.
  revert data. induction s as [|c|c d s IH] using string_pair_ind;
    intros data; cbn [Scripts.unhexlify_opt fromhex]; [done..|].
  destruct (digit_value c) as [top|] eqn:Hc; [|done].
  destruct (digit_value d) as [bot|] eqn:Hd; [|done].
  rewrite (digit_not_space _ _ Hc).
  destruct (Scripts.unhexlify_opt s) as [rest|]; [|done].
  by rewrite (IH rest eq_refl).
Qed.

Lemma unhexlify_hex_to_bytes s data :
  Scripts.unhexlify s = Ok data → hex_to_bytes s = Ok data.
Proof.
  unfold Scripts.unhexlify, hex_to_bytes.
  destruct (Scripts.unhexlify_opt s) as [b|] eqn:H; [|done].
  intros [= <-]. by rewrite (unhexlify_fromhex _ _ H).
Qed.

Lemma unhexlify_hex_byte b s :
  Scripts.unhexlify_opt
    (String (hex_char (Z_of_byte b / 16))
       (String (hex_char (Z_of_byte b mod 16)) s))
  = cons b <$> Scripts.unhexlify_opt s.
Proof. destruct b; reflexivity. Qed.

Lemma unhexlify_bytes_to_hex data : Scripts.unhexlify (bytes_to_hex data) = Ok data.
Proof.
  unfold Scripts.unhexlify.
  assert (Scripts.unhexlify_opt (bytes_to_hex data) = Some data) as ->; [|done].
  induction data as [|b data IH]; [done|].
  cbn [bytes_to_hex]. by rewrite unhexlify_hex_byte, IH.
Qed.

Lemma scripts_refs_hash att : Scripts.refs_hash att = refs_hash_bytes (att_refs att).
Proof. unfold Scripts.refs_hash, Scripts.refs_concat. by destruct (att_refs att). Qed.

(** The identifier step of a returned verification. *)
Lemma verify_attestation_id_step nacl att pk v st :
  verify_attestation nacl att pk = Ok v →
  steps v !! 1%nat = Some st →
  ∃ cid, compute_attestation_id (att_zone att) (att_subject att) (att_canon att)
           (att_time att) = Ok cid
         ∧ st = id_step att cid.
Proof.
  intros Hv Hst.
  destruct (hex_to_bytes pk) as [pkb|e] eqn:Hpk;
    [|unfold verify_attestation in Hv; by rewrite Hpk in Hv].
  destruct (decide (sha256_hex (Bytes pkb) = att_zone att)) as [Hz|Hz].
  - destruct (compute_attestation_id (att_zone att) (att_subject att)
                (att_canon att) (att_time att)) as [cid|e] eqn:Hid.
    + exists cid. split; [done|].
      destruct (decide (cid = att_id att)) as [->|Hne].
      * destruct (verify_reaches_signature nacl att pk pkb Hpk Hz Hid)
          as (i & s & c & _ & _ & _ & _ & _ & Hv').
        rewrite Hv' in Hv. apply Ok_inj in Hv as <-.
        cbn [steps] in Hst. by injection Hst as <-.
      * rewrite (verify_id_mismatch nacl att pk pkb cid Hpk Hz Hid Hne) in Hv.
        apply Ok_inj in Hv as <-. cbn [steps] in Hst. by injection Hst as <-.
    + by rewrite (verify_id_raises nacl att pk pkb e Hpk Hz Hid) in Hv.
  - rewrite (verify_zone_mismatch nacl att pk pkb Hpk Hz) in Hv.
    apply Ok_inj in Hv as <-. done.
Qed.

(** ** The identifier *)

(** C2. For 32-byte zone, subject and canon and a time in the unsigned
    64-bit range, the attestation identifier is SHA-256 of
    zone ‖ subject ‖ canon ‖ BE64(time), an input of exactly 104 bytes. The
    builder writes this value as the attestation's id, step 2 of the
    verifier recomputes this value and compares it with the id, and the
    stand-alone checker hashes the same 104 bytes. *)
Theorem attestation_id_layout (zone subject canon : string) (time : Z)
    (z s c : bytes) :
  hex_to_bytes zone = Ok z → hex_to_bytes subject = Ok s →
  hex_to_bytes canon = Ok c →
  length z = 32%nat → length s = 32%nat → length c = 32%nat →
  0 ≤ time < 2 ^ 64 →
  let data := z ++ s ++ c ++ be_bytes 8 time in
  let expected_id := bytes_to_hex (sha256_bytes data) in
  length data = 104%nat
  ∧ compute_attestation_id zone subject canon time = Ok expected_id
  ∧ (∀ nacl zn subject_text canon_label refs att,
       zone_id zn = zone → sha256_hex (Str subject_text) = subject →
       sha256_hex (Str canon_label) = canon →
       build_attestation nacl zn subject_text canon_label time refs = Ok att →
       att_id att = expected_id)
  ∧ (∀ nacl att pk v st,
       att_zone att = zone → att_subject att = subject →
       att_canon att = canon → att_time att = time →
       verify_attestation nacl att pk = Ok v → steps v !! 1%nat = Some st →
       step_name st = "Attestation ID verification"
       ∧ actual st = Some expected_id
       ∧ passed st = String.eqb expected_id (att_id att))
  ∧ (∀ att,
       att_zone att = zone → att_subject att = subject →
       att_canon att = canon → att_time att = time →
       is_Ok (Scripts.id_payload att) →
       Scripts.id_payload att = Ok data
       ∧ Scripts.computed_id att = Ok expected_id).
Proof.
  intros Hz Hs Hc Lz Ls Lc Ht data expected_id.
  assert (compute_attestation_id zone subject canon time = Ok expected_id) as Hid.
  { unfold compute_attestation_id.
    by rewrite (attestation_id_data_Ok _ _ _ _ _ _ _ Hz Hs Hc Ht). }
  split_and!.
  - subst data. rewrite !length_app, length_be_bytes, Lz, Ls, Lc. done.
  - done.
  - intros nacl zn subject_text canon_label refs att <- <- <- Hb.
    unfold build_attestation in Hb. rewrite Hid in Hb. cbn [bind] in Hb.
    destruct (build_signature_input _ _ _ _ _) as [m|]; [|done].
    cbn [bind] in Hb.
    destruct (if NACL_AVAILABLE nacl then _ else _) as [proof|]; [|done].
    apply Ok_inj in Hb as <-. done.
  - intros nacl att pk v st <- <- <- <- Hv Hst.
    destruct (verify_attestation_id_step nacl att pk v st Hv Hst)
      as (cid & Hcid & ->).
    rewrite Hid in Hcid. apply Ok_inj in Hcid as <-. done.
  - intros att <- <- <- <- [d Hd].
    assert (Scripts.id_payload att = Ok data) as Hp.
    { unfold Scripts.id_payload in *.
      destruct (Scripts.unhexlify (att_zone att)) as [z'|] eqn:Hz'; [|done].
      destruct (Scripts.unhexlify (att_subject att)) as [s'|] eqn:Hs'; [|done].
      destruct (Scripts.unhexlify (att_canon att)) as [c'|] eqn:Hc'; [|done].
      apply unhexlify_hex_to_bytes in Hz', Hs', Hc'.
      rewrite Hz in Hz'. rewrite Hs in Hs'. rewrite Hc in Hc'.
      apply Ok_inj in Hz' as <-. apply Ok_inj in Hs' as <-. apply Ok_inj in Hc' as <-.
      cbn [bind]. unfold Scripts.to_bytes8.
      rewrite (uint64_be_in_range _ Ht). cbn [bind app].
      subst data. by rewrite <- !app_assoc. }
    split; [done|]. unfold Scripts.computed_id. by rewrite Hp.
Qed.

Lemma attestation_id_layout_witness :
  compute_attestation_id (zone_id PRECOMPUTED_ZONE)
    (sha256_hex (Str "From nothing, truth emerges"))
    (sha256_hex (Str "raw:sha256:1.0")) GENESIS_TIMESTAMP
  = Ok "03b426423c8a7f3fe1d1204e564efcc9415f1f5d524b3e2fe7dfa78f38756546".
Proof.
  destruct (attestation_id_layout (zone_id PRECOMPUTED_ZONE)
              (sha256_hex (Str "From nothing, truth emerges"))
              (sha256_hex (Str "raw:sha256:1.0")) GENESIS_TIMESTAMP
              PRECOMPUTED_ZONE_ID_BYTES
              (SHA256.digest (encode_utf8 "From nothing, truth emerges"))
              (SHA256.digest (encode_utf8 "raw:sha256:1.0")))
    as (_ & H & _).
  - vm_compute. reflexivity.
  - apply hex_to_bytes_to_hex.
  - apply hex_to_bytes_to_hex.
  - reflexivity.
  - apply length_sha256.
  - apply length_sha256.
  - unfold GENESIS_TIMESTAMP. lia.
  - rewrite H. vm_compute. reflexivity.
Defined.

(** ** The signed input *)

(** C3, as the code has it. For every attestation built from a derived
    identity, the 136 bytes id ‖ subject ‖ BE64(time) ‖ refsHash ‖ canon are
    what [build_signature_input] returns on the attestation's fields and
    what the stand-alone checker rebuilds, and the proof decodes to 64
    bytes. With the Ed25519 primitive present, the proof is the signature
    made by [SigningKey(seed).sign] over exactly these bytes; step 3 of the
    verifier hands exactly these bytes, the supplied public key and the
    attestation's proof (whatever it is) to [VerifyKey.verify] and returns
    its answer; and the checker's signature check passes. With no primitive
    present, the proof is the stored constant, whatever the 136 bytes are,
    and step 3 is logged as skipped and passed whatever the proof is. *)
Theorem proof_signs_136_bytes (nacl : option NaCl) (glr domain : string)
    (zone : Zone) (subject_text canon_label : string) (time : Z)
    (refs : list string) (att : Attestation) :
  (∀ E, nacl = Some E → NaClCorrect E) →
  derives nacl glr domain (Ok zone) →
  build_attestation nacl zone subject_text canon_label time refs = Ok att →
  ∃ i s r c sd pk sg,
    hex_to_bytes (att_id att) = Ok i
    ∧ hex_to_bytes (att_subject att) = Ok s
    ∧ hex_to_bytes (compute_refs_hash (att_refs att)) = Ok r
    ∧ hex_to_bytes (att_canon att) = Ok c
    ∧ hex_to_bytes (private_key zone) = Ok sd
    ∧ hex_to_bytes (public_key zone) = Ok pk
    ∧ hex_to_bytes (att_proof att) = Ok sg
    ∧ let m := i ++ s ++ be_bytes 8 (att_time att) ++ r ++ c in
      length m = 136%nat
      ∧ length sg = 64%nat
      ∧ build_signature_input (att_id att) (att_subject att) (att_time att)
          (compute_refs_hash (att_refs att)) (att_canon att) = Ok m
      ∧ Scripts.sign_input att = Ok m
      ∧ match nacl with
        | Some E =>
            SigningKey_sign E sd m = Some sg
            ∧ VerifyKey_verify E pk m sg = true
            ∧ (∀ proof', ∃ v,
                 verify_attestation (Some E) (with_proof att proof')
                   (public_key zone) = Ok v
                 ∧ valid v = match hex_to_bytes proof' with
                             | Ok sg' => VerifyKey_verify E pk m sg'
                             | Raise _ => false
                             end)
            ∧ Scripts.signature_check E pk att = Ok true
        | None =>
            att_proof att = PRECOMPUTED_PROOF
            ∧ (∀ proof', ∃ v,
                 verify_attestation None (with_proof att proof')
                   (public_key zone) = Ok v
                 ∧ valid v = true
                 ∧ map note (steps v)
                   = [None; None; Some "Skipped (PyNaCl not available)"])
        end.
Proof.
  intros Hlaws Hder Hb.
  destruct (derives_zone_ok nacl glr domain zone Hlaws Hder) as (sd & pk & Hzone).
  pose proof Hzone as [Hsd Hsdlen Hpk Hfp Hkp].
  assert (hex_to_bytes (zone_id zone) = Ok (SHA256.digest pk)) as Hz
    by (rewrite Hfp; apply hex_to_bytes_to_hex).
  destruct (build_attestation_Ok_inv _ _ _ _ _ _ _ Hb) as (_ & _ & Ht).
  rewrite (build_attestation_unfold _ _ _ _ _ _ _ Hz Ht) in Hb.
  set (m := built_message subject_text canon_label time refs (SHA256.digest pk)) in *.
  assert (∃ sg,
            att = built zone subject_text canon_label time refs (SHA256.digest pk)
                    (bytes_to_hex sg)
            ∧ length sg = 64%nat
            ∧ match nacl with
              | Some E => SigningKey_sign E sd m = Some sg
              | None => bytes_to_hex sg = PRECOMPUTED_PROOF
              end) as (sg & -> & Hsglen & Hcase).
  { destruct nacl as [E|]; cbn [NACL_AVAILABLE] in Hb.
    - destruct (sign_total E (Hlaws E eq_refl) sd m Hsdlen) as (sg & Hsg & Hsglen).
      unfold sign_message in Hb.
      rewrite Hsd in Hb. cbn [bind from_nacl] in Hb. rewrite Hsg in Hb.
      cbn [bind from_nacl] in Hb. apply Ok_inj in Hb as <-.
      by exists sg.
    - cbn [bind] in Hb. apply Ok_inj in Hb as <-.
      exists (match hex_to_bytes PRECOMPUTED_PROOF with Ok b => b | Raise _ => [] end).
      assert (bytes_to_hex
                (match hex_to_bytes PRECOMPUTED_PROOF with
                 | Ok b => b
                 | Raise _ => []
                 end) = PRECOMPUTED_PROOF) as Hc by (vm_compute; reflexivity).
      split; [by rewrite Hc|]. split; [vm_compute; reflexivity|exact Hc]. }
  exists (SHA256.digest (SHA256.digest pk ++ SHA256.digest (encode_utf8 subject_text)
                         ++ SHA256.digest (encode_utf8 canon_label)
                         ++ be_bytes 8 time)),
         (SHA256.digest (encode_utf8 subject_text)), (refs_hash_bytes refs),
         (SHA256.digest (encode_utf8 canon_label)), sd, pk, sg.
  unfold built at 1 2 3 4 5.
  cbn [att_id att_subject att_refs att_canon att_proof att_time].
  assert (hex_to_bytes (compute_refs_hash refs) = Ok (refs_hash_bytes refs)) as Hr
    by (rewrite compute_refs_hash_hex; apply hex_to_bytes_to_hex).
  split; [apply hex_to_bytes_to_hex|]. split; [apply hex_to_bytes_to_hex|].
  split; [exact Hr|]. split; [apply hex_to_bytes_to_hex|].
  split; [exact Hsd|]. split; [exact Hpk|]. split; [apply hex_to_bytes_to_hex|].
  fold (signed_bytes
          (SHA256.digest (SHA256.digest pk ++ SHA256.digest (encode_utf8 subject_text)
                          ++ SHA256.digest (encode_utf8 canon_label)
                          ++ be_bytes 8 time))
          (SHA256.digest (encode_utf8 subject_text)) time (refs_hash_bytes refs)
          (SHA256.digest (encode_utf8 canon_label))).
  fold (built_message subject_text canon_label time refs (SHA256.digest pk)).
  fold m. cbv zeta.
  split; [apply length_built_message|]. split; [exact Hsglen|].
  split.
  { unfold built. cbn [att_id att_subject att_refs att_canon att_proof att_time].
    exact (build_signature_input_Ok _ _ _ _ _ _ _ _ _ (hex_to_bytes_to_hex _)
             (hex_to_bytes_to_hex _) Ht Hr (hex_to_bytes_to_hex _)). }
  assert (Scripts.sign_input
            (built zone subject_text canon_label time refs (SHA256.digest pk)
               (bytes_to_hex sg)) = Ok m) as Hsi.
  { unfold Scripts.sign_input, Scripts.computed_id, Scripts.id_payload, built.
    cbn [att_zone att_subject att_canon att_time att_refs].
    rewrite Hfp, !unhexlify_bytes_to_hex. cbn [bind]. unfold Scripts.to_bytes8.
    rewrite (uint64_be_in_range _ Ht). cbn [bind app].
    rewrite !unhexlify_bytes_to_hex. cbn [bind].
    rewrite scripts_refs_hash. cbn [att_refs].
    subst m. unfold built_message, signed_bytes. by rewrite <- !app_assoc. }
  split; [exact Hsi|].
  destruct nacl as [E|].
  - assert (VerifyKey_verify E pk m sg = true) as Hok
      by exact (sign_verify E (Hlaws E eq_refl) sd m pk sg (Hkp E eq_refl) Hcase).
    split; [exact Hcase|]. split; [exact Hok|].
    split.
    { intros proof'. eexists. split.
      - exact (verify_built (Some E) zone subject_text canon_label time refs sd pk
                 proof' Hzone Ht).
      - cbn [valid]. fold m. unfold signature_verdict. rewrite Hpk.
        unfold built. cbn [att_proof]. reflexivity. }
    unfold Scripts.signature_check. rewrite Hsi. cbn [bind].
    unfold built. cbn [att_proof]. rewrite unhexlify_bytes_to_hex. by rewrite Hok.
  - split; [unfold built; cbn [att_proof]; exact Hcase|].
    intros proof'. eexists. split.
    + exact (verify_built None zone subject_text canon_label time refs sd pk
               proof' Hzone Ht).
    + split; reflexivity.
Qed.

Lemma example_attestation_built :
  build_attestation (Some keyed_digest_nacl) example_zone
    "subject" "canon" 7 [GLR; GLR] = Ok example_attestation.
Proof. vm_compute. reflexivity. Qed.

Lemma proof_signs_136_bytes_witness :
  ∃ att sg, build_attestation (Some keyed_digest_nacl) example_zone
              "subject" "canon" 7 [GLR; GLR] = Ok att
            ∧ hex_to_bytes (att_proof att) = Ok sg ∧ length sg = 64%nat.
Proof.
  destruct (proof_signs_136_bytes (Some keyed_digest_nacl) GLR "zone" example_zone
              "subject" "canon" 7 [GLR; GLR] example_attestation
              keyed_digest_nacl_laws example_zone_derived
              example_attestation_built)
    as (i & s & r & c & sd & pk & sg & _ & _ & _ & _ & _ & _ & Hsg & _ & Hlen & _).
  exists example_attestation, sg.
  split; [exact example_attestation_built|]. split; [exact Hsg|exact Hlen].
Defined.

(** C3, counterexample to the claim as stated. Without the primitive the
    proof is not a signature over the 136 bytes and step 3 does not check
    it against them: the builder gives the statement at time 0 with no refs
    the same proof as the genesis statement, although the two signing
    inputs differ, and the verifier accepts the former both with that proof
    and with a proof that is not even hex. *)
Lemma constant_proof_without_primitive :
  ∃ a0 a1 m0 m1,
    build_attestation None PRECOMPUTED_ZONE "From nothing, truth emerges"
      "raw:sha256:1.0" 0 [] = Ok a0
    ∧ create_genesis_attestation None PRECOMPUTED_ZONE = Ok a1
    ∧ build_signature_input (att_id a0) (att_subject a0) (att_time a0)
        (compute_refs_hash (att_refs a0)) (att_canon a0) = Ok m0
    ∧ build_signature_input (att_id a1) (att_subject a1) (att_time a1)
        (compute_refs_hash (att_refs a1)) (att_canon a1) = Ok m1
    ∧ m0 ≠ m1
    ∧ att_proof a0 = att_proof a1
    ∧ verdict_is None a0 (public_key PRECOMPUTED_ZONE) Valid [true; true; true]
    ∧ verdict_is None (with_proof a0 "zz") (public_key PRECOMPUTED_ZONE)
        Valid [true; true; true].
Proof.
  eexists _, _, _, _.
  split; [vm_compute; reflexivity|]. split; [vm_compute; reflexivity|].
  split; [vm_compute; reflexivity|]. split; [vm_compute; reflexivity|].
  split; [intros H; discriminate H|]. split; [reflexivity|].
  split; (eexists; split; [vm_compute; reflexivity|]; split; reflexivity).
Qed.

(** ** Tampering *)

Lemma flip_byte_neq j b : (j < 8)%nat → flip_byte j b ≠ b.
Proof.
  intros Hj.
  do 8 (destruct j as [|j]; [destruct b; discriminate|]). lia.
Qed.

Lemma length_flip_bit k data : length (flip_bit k data) = length data.
Proof. apply length_alter. Qed.

Lemma flip_bit_neq k data : (k < 8 * length data)%nat → flip_bit k data ≠ data.
Proof.
  intros Hk E.
  assert (k / 8 < length data)%nat as Hi
    by (apply Nat.Div0.div_lt_upper_bound; lia).
  destruct (lookup_lt_is_Some_2 data (k / 8)%nat Hi) as [b Hb].
  apply (f_equal (λ l, l !! (k / 8)%nat)) in E.
  unfold flip_bit in E. rewrite list_lookup_alter_eq, Hb in E.
  injection E as E. apply (flip_byte_neq (k mod 8) b); [|done].
  apply Nat.mod_upper_bound. lia.
Qed.

Lemma flip_time_range k t :
  (k < 64)%nat → 0 ≤ t < 2 ^ 64 → 0 ≤ flip_time k t < 2 ^ 64.
Proof.
  intros Hk [H0 H1]. unfold flip_time.
  assert (0 ≤ 2 ^ Z.of_nat k) by (apply Z.pow_nonneg; lia).
  assert (0 ≤ Z.lxor t (2 ^ Z.of_nat k)) as Hnn by (apply Z.lxor_nonneg; lia).
  split; [done|].
  destruct (Z.eq_dec (Z.lxor t (2 ^ Z.of_nat k)) 0) as [->|Hne]; [lia|].
  apply Z.log2_lt_pow2; [lia|].
  eapply Z.le_lt_trans; [apply Z.log2_lxor; lia|].
  apply Z.max_lub_lt.
  - destruct (Z.eq_dec t 0) as [->|]; [simpl; lia|].
    apply Z.log2_lt_pow2; lia.
  - rewrite Z.log2_pow2 by lia. lia.
Qed.

Lemma flip_time_neq k t : flip_time k t ≠ t.
Proof.
  unfold flip_time. intros E.
  assert (Z.lxor (Z.lxor t (2 ^ Z.of_nat k)) t = 0) as H
    by (rewrite E; apply Z.lxor_nilpotent).
  rewrite (Z.lxor_comm t), Z.lxor_assoc, Z.lxor_nilpotent, Z.lxor_0_r in H.
  pose proof (Z.pow_pos_nonneg 2 (Z.of_nat k)). lia.
Qed.

Lemma zone_mismatch_verdict nacl att pk pkb :
  hex_to_bytes pk = Ok pkb → sha256_hex (Bytes pkb) ≠ att_zone att →
  verdict_is nacl att pk IdentityMismatch [false].
Proof.
  intros Hpk Hz. eexists. split; [exact (verify_zone_mismatch nacl att pk pkb Hpk Hz)|].
  split; [reflexivity|]. cbn [steps map passed zone_step].
  apply String.eqb_neq in Hz. by rewrite Hz.
Qed.

Lemma id_mismatch_verdict nacl att pk pkb cid :
  hex_to_bytes pk = Ok pkb → sha256_hex (Bytes pkb) = att_zone att →
  compute_attestation_id (att_zone att) (att_subject att) (att_canon att)
    (att_time att) = Ok cid →
  cid ≠ att_id att →
  verdict_is nacl att pk IdentifierMismatch [true; false].
Proof.
  intros Hpk Hz Hid Hne. eexists.
  split; [exact (verify_id_mismatch nacl att pk pkb cid Hpk Hz Hid Hne)|].
  split; [reflexivity|]. cbn [steps map passed zone_step id_step].
  apply String.eqb_neq in Hne. by rewrite Hz, String.eqb_refl, Hne.
Qed.

Lemma flip_hex_bytes_to_hex k data :
  flip_hex k (bytes_to_hex data) = bytes_to_hex (flip_bit k data).
Proof. unfold flip_hex. by rewrite hex_to_bytes_to_hex. Qed.

(** What the builder returns, and the proof it carries. *)
Lemma build_attestation_built nacl glr domain zone subject_text canon_label time
    refs att :
  (∀ E, nacl = Some E → NaClCorrect E) →
  derives nacl glr domain (Ok zone) →
  build_attestation nacl zone subject_text canon_label time refs = Ok att →
  ∃ sd pk sg,
    zone_ok nacl zone sd pk ∧ 0 ≤ time < 2 ^ 64 ∧ length sg = 64%nat
    ∧ att = built zone subject_text canon_label time refs (SHA256.digest pk)
              (bytes_to_hex sg).
Proof.
  intros Hlaws Hder Hb.
  destruct (derives_zone_ok nacl glr domain zone Hlaws Hder) as (sd & pk & Hzone).
  pose proof Hzone as [Hsd Hsdlen Hpk Hfp Hkp].
  assert (hex_to_bytes (zone_id zone) = Ok (SHA256.digest pk)) as Hz
    by (rewrite Hfp; apply hex_to_bytes_to_hex).
  destruct (build_attestation_Ok_inv _ _ _ _ _ _ _ Hb) as (_ & _ & Ht).
  rewrite (build_attestation_unfold _ _ _ _ _ _ _ Hz Ht) in Hb.
  exists sd, pk.
  destruct nacl as [E|]; cbn [NACL_AVAILABLE] in Hb.
  - set (m := built_message subject_text canon_label time refs (SHA256.digest pk)) in *.
    destruct (sign_total E (Hlaws E eq_refl) sd m Hsdlen) as (sg & Hsg & Hsglen).
    unfold sign_message in Hb.
    rewrite Hsd in Hb. cbn [bind from_nacl] in Hb. rewrite Hsg in Hb.
    cbn [bind from_nacl] in Hb. apply Ok_inj in Hb as <-.
    by exists sg.
  - cbn [bind] in Hb. apply Ok_inj in Hb as <-.
    exists (match hex_to_bytes PRECOMPUTED_PROOF with Ok b => b | Raise _ => [] end).
    split; [done|]. split; [done|]. split; [vm_compute; reflexivity|].
    unfold built. f_equal.
Qed.

(** C7, as the code has it. For every attestation built from a derived
    identity and verified under that identity's public key:
    - flipping a bit of the subject, of the canon or of the time makes step 2
      fail after step 1 passed, SHA-256 not colliding on the two 104-byte
      inputs;
    - flipping a bit of the zone makes step 1 fail, so that step 2 is not
      reached;
    - flipping a bit of the proof leaves steps 1 and 2 passing; step 3 then
      returns what the Ed25519 primitive answers on the altered proof over
      the unchanged signed bytes, and passes when there is no primitive. *)
Theorem tampering_localised (nacl : option NaCl) (glr domain : string)
    (zone : Zone) (subject_text canon_label : string) (time : Z)
    (refs : list string) (att : Attestation) :
  (∀ E, nacl = Some E → NaClCorrect E) →
  derives nacl glr domain (Ok zone) →
  build_attestation nacl zone subject_text canon_label time refs = Ok att →
  ∃ z s c pk sg,
    hex_to_bytes (att_zone att) = Ok z
    ∧ hex_to_bytes (att_subject att) = Ok s
    ∧ hex_to_bytes (att_canon att) = Ok c
    ∧ hex_to_bytes (public_key zone) = Ok pk
    ∧ hex_to_bytes (att_proof att) = Ok sg
    ∧ length sg = 64%nat
    ∧ let t := att_time att in
      let data := z ++ s ++ c ++ be_bytes 8 t in
      let m := signed_bytes (SHA256.digest data) s t
                 (refs_hash_bytes (att_refs att)) c in
      (∀ k, (k < 256)%nat →
         no_collision (z ++ flip_bit k s ++ c ++ be_bytes 8 t) data →
         verdict_is nacl (with_subject att (flip_hex k (att_subject att)))
           (public_key zone) IdentifierMismatch [true; false])
      ∧ (∀ k, (k < 256)%nat →
         no_collision (z ++ s ++ flip_bit k c ++ be_bytes 8 t) data →
         verdict_is nacl (with_canon att (flip_hex k (att_canon att)))
           (public_key zone) IdentifierMismatch [true; false])
      ∧ (∀ k, (k < 64)%nat →
         no_collision (z ++ s ++ c ++ be_bytes 8 (flip_time k t)) data →
         verdict_is nacl (with_time att (flip_time k t))
           (public_key zone) IdentifierMismatch [true; false])
      ∧ (∀ k, (k < 256)%nat →
         verdict_is nacl (with_zone att (flip_hex k (att_zone att)))
           (public_key zone) IdentityMismatch [false])
      ∧ (∀ k, (k < 512)%nat →
         let ok := match nacl with
                   | Some E => VerifyKey_verify E pk m (flip_bit k sg)
                   | None => true
                   end in
         verdict_is nacl (with_proof att (flip_hex k (att_proof att)))
           (public_key zone) (if ok then Valid else InvalidSignature)
           [true; true; ok]).
Proof.
  intros Hlaws Hder Hb.
  destruct (build_attestation_built _ _ _ _ _ _ _ _ _ Hlaws Hder Hb)
    as (sd & pk & sg & Hzone & Ht & Hsglen & ->).
  pose proof Hzone as [Hsd Hsdlen Hpk Hfp Hkp].
  set (s := SHA256.digest (encode_utf8 subject_text)).
  set (c := SHA256.digest (encode_utf8 canon_label)).
  exists (SHA256.digest pk), s, c, pk, sg.
  unfold built at 1 2 3 4 5 6. fold s c.
  cbn [att_zone att_subject att_canon att_proof att_time att_refs].
  assert (hex_to_bytes (zone_id zone) = Ok (SHA256.digest pk)) as Hz
    by (rewrite Hfp; apply hex_to_bytes_to_hex).
  split; [exact Hz|]. split; [apply hex_to_bytes_to_hex|].
  split; [apply hex_to_bytes_to_hex|]. split; [exact Hpk|].
  split; [apply hex_to_bytes_to_hex|]. split; [exact Hsglen|].
  cbv zeta.
  assert (length s = 32%nat) as Ls by apply length_sha256.
  assert (length c = 32%nat) as Lc by apply length_sha256.
  assert (sha256_hex (Bytes pk) = zone_id zone) as Hzid by (by rewrite Hfp).
  (* a tampered statement field changes the recomputed identifier *)
  assert (∀ att' s' c' t',
            att_zone att' = zone_id zone →
            att_subject att' = bytes_to_hex s' → att_canon att' = bytes_to_hex c' →
            att_time att' = t' → 0 ≤ t' < 2 ^ 64 →
            att_id att' = bytes_to_hex
              (SHA256.digest (SHA256.digest pk ++ s ++ c ++ be_bytes 8 time)) →
            SHA256.digest pk ++ s' ++ c' ++ be_bytes 8 t'
            ≠ SHA256.digest pk ++ s ++ c ++ be_bytes 8 time →
            no_collision (SHA256.digest pk ++ s' ++ c' ++ be_bytes 8 t')
                         (SHA256.digest pk ++ s ++ c ++ be_bytes 8 time) →
            verdict_is nacl att' (public_key zone) IdentifierMismatch [true; false])
    as Hstep2.
  { intros att' s' c' t' Ez Es Ec Et Ht' Ei Hne Hnc.
    apply (id_mismatch_verdict nacl att' (public_key zone) pk
             (bytes_to_hex (SHA256.digest (SHA256.digest pk ++ s' ++ c' ++ be_bytes 8 t'))) Hpk).
    - by rewrite Ez.
    - rewrite Ez, Es, Ec, Et. unfold compute_attestation_id.
      by rewrite (attestation_id_data_Ok _ _ _ _ _ _ _ Hz
                    (hex_to_bytes_to_hex _) (hex_to_bytes_to_hex _) Ht').
    - rewrite Ei. intros E. by apply bytes_to_hex_inj, Hnc in E. }
  split_and!.
  - intros k Hk Hnc.
    apply (Hstep2 _ (flip_bit k s) c time); try done.
    + cbn [with_subject att_subject built]. fold s. apply flip_hex_bytes_to_hex.
    + intros E. apply app_inv_head, app_inv_tail in E.
      apply (flip_bit_neq k s); [lia|done].
  - intros k Hk Hnc.
    apply (Hstep2 _ s (flip_bit k c) time); try done.
    + cbn [with_canon att_canon built]. fold c. apply flip_hex_bytes_to_hex.
    + intros E. apply app_inv_head, app_inv_head, app_inv_tail in E.
      apply (flip_bit_neq k c); [lia|done].
  - intros k Hk Hnc.
    pose proof (flip_time_range k time Hk Ht) as Ht'.
    apply (Hstep2 _ s c (flip_time k time)); try done.
    intros E. do 3 apply app_inv_head in E.
    apply be_bytes_inj in E; [by apply flip_time_neq in E|..];
      change (256 ^ Z.of_nat 8) with (2 ^ 64); done.
  - intros k Hk.
    apply (zone_mismatch_verdict nacl _ (public_key zone) pk Hpk).
    cbn [with_zone att_zone built]. rewrite Hfp, flip_hex_bytes_to_hex.
    unfold sha256_hex. intros E. apply bytes_to_hex_inj in E.
    symmetry in E. apply flip_bit_neq in E; [done|]. rewrite length_sha256. lia.
  - intros k Hk.
    set (ok := match nacl with
               | Some E => VerifyKey_verify E pk _ (flip_bit k sg)
               | None => true
               end).
    change (with_proof (built zone subject_text canon_label time refs
                          (SHA256.digest pk) (bytes_to_hex sg))
              (flip_hex k (bytes_to_hex sg)))
      with (built zone subject_text canon_label time refs (SHA256.digest pk)
              (flip_hex k (bytes_to_hex sg))).
    eexists. split.
    { exact (verify_built nacl zone subject_text canon_label time refs sd pk
               _ Hzone Ht). }
    match goal with
    | |- context [signature_verdict nacl ?a ?p ?m] =>
        assert (signature_verdict nacl a p m = ok) as ->
    end.
    { subst ok. unfold signature_verdict. destruct nacl as [E|]; [|done].
      rewrite Hpk. cbn [att_proof built].
      by rewrite flip_hex_bytes_to_hex, hex_to_bytes_to_hex. }
    split; [by destruct ok|].
    cbn [steps map passed zone_step id_step att_zone att_id built].
    rewrite Hzid, !String.eqb_refl. unfold signature_step.
    subst ok. by destruct nacl.
Qed.

Lemma tampering_localised_witness :
  verdict_is (Some keyed_digest_nacl)
    (with_subject example_attestation (flip_hex 0 (att_subject example_attestation)))
    (public_key example_zone) IdentifierMismatch [true; false]
  ∧ verdict_is (Some keyed_digest_nacl)
      (with_zone example_attestation (flip_hex 0 (att_zone example_attestation)))
      (public_key example_zone) IdentityMismatch [false].
Proof.
  destruct (tampering_localised (Some keyed_digest_nacl) GLR "zone" example_zone
              "subject" "canon" 7 [GLR; GLR] example_attestation
              keyed_digest_nacl_laws example_zone_derived example_attestation_built)
    as (z & s & c & pk & sg & Hz & Hs & Hc & _ & _ & _ & Hsub & _ & _ & Hzone & _).
  split.
  - apply (Hsub 0%nat); [lia|].
    vm_compute in Hz, Hs, Hc.
    apply Ok_inj in Hz as <-. apply Ok_inj in Hs as <-. apply Ok_inj in Hc as <-.
    intros H. vm_compute in H. discriminate H.
  - apply (Hzone 0%nat). lia.
Defined.

(** C7, counterexample to the claim as stated. Without the primitive, the
    genesis attestation with the first bit of its proof flipped still
    verifies: step 3 does not fail. And with the first bit of its zone
    flipped, the verifier stops at step 1 and step 2 is never run. *)
Lemma tampered_proof_accepted_without_primitive :
  create_genesis_attestation None PRECOMPUTED_ZONE = Ok fallback_genesis_attestation
  ∧ flip_hex 0 (att_proof fallback_genesis_attestation)
    ≠ att_proof fallback_genesis_attestation
  ∧ verdict_is None
      (with_proof fallback_genesis_attestation
         (flip_hex 0 (att_proof fallback_genesis_attestation)))
      (public_key PRECOMPUTED_ZONE) Valid [true; true; true]
  ∧ verdict_is None
      (with_zone fallback_genesis_attestation
         (flip_hex 0 (att_zone fallback_genesis_attestation)))
      (public_key PRECOMPUTED_ZONE) IdentityMismatch [false].
Proof.
  split; [vm_compute; reflexivity|].
  split; [intros H; vm_compute in H; discriminate H|].
  split; (eexists; split; [vm_compute; reflexivity|]; split; reflexivity).
Qed.

(** ** Witness data *)

Lemma artifact_attestation_agree (artifact artifact' : gmap string value) :
  artifact !! "attestation" = artifact' !! "attestation" →
  artifact_attestation artifact = artifact_attestation artifact'.
Proof. unfold artifact_attestation. by intros ->. Qed.

Lemma make_artifact_attestation ceremony_time att witnesses :
  artifact_attestation (make_artifact ceremony_time att witnesses) = Ok att.
Proof.
  unfold artifact_attestation, make_artifact.
  rewrite lookup_insert_ne by done. rewrite lookup_insert_ne by done.
  by rewrite lookup_insert_eq.
Qed.

(** C9. Verification reads the artifact only through its "attestation"
    entry: two artifacts that agree on every key but "witnesses" - whether
    the bundles differ or one artifact has none - get the same result from
    [verify_artifact], and the same result from [verify_attestation] run on
    the attestation they carry, for every public key; so does the signature
    check of the stand-alone scripts. In particular the artifact assembled
    by the ceremony verifies as the attestation alone does, whatever
    witnesses are attached. *)
Theorem verification_ignores_witnesses (nacl : option NaCl)
    (artifact artifact' : gmap string value) :
  (∀ key, key ≠ "witnesses" → artifact !! key = artifact' !! key) →
  verify_artifact nacl (Some artifact) = verify_artifact nacl (Some artifact')
  ∧ (∀ public_key,
       (let* att := artifact_attestation artifact in
        verify_attestation nacl att public_key)
       = (let* att := artifact_attestation artifact' in
          verify_attestation nacl att public_key))
  ∧ verify_artifact nacl (Some (delete "witnesses" artifact))
    = verify_artifact nacl (Some artifact)
  ∧ (∀ w, verify_artifact nacl (Some (<["witnesses" := w]> artifact))
          = verify_artifact nacl (Some artifact))
  ∧ (∀ E verify_key,
       (let* att := artifact_attestation artifact in
        Scripts.signature_check E verify_key att)
       = (let* att := artifact_attestation artifact' in
          Scripts.signature_check E verify_key att))
  ∧ (∀ ceremony_time att w public_key,
       (let* a := artifact_attestation (make_artifact ceremony_time att w) in
        verify_attestation nacl a public_key)
       = verify_attestation nacl att public_key).
Proof.
  intros Hagree.
  assert (∀ a a' : gmap string value,
            a !! "attestation" = a' !! "attestation" →
            verify_artifact nacl (Some a) = verify_artifact nacl (Some a')) as Hva.
  { intros a a' H. unfold verify_artifact.
    by rewrite (artifact_attestation_agree a a' H). }
  split_and!.
  - apply Hva, Hagree. done.
  - intros pk. by rewrite (artifact_attestation_agree artifact artifact')
      by (by apply Hagree).
  - apply Hva. by rewrite lookup_delete_ne.
  - intros w. apply Hva. by rewrite lookup_insert_ne.
  - intros E vk. by rewrite (artifact_attestation_agree artifact artifact')
      by (by apply Hagree).
  - intros t att w pk. by rewrite make_artifact_attestation.
Qed.

Lemma example_artifacts_agree (w : json) (key : string) :
  key ≠ "witnesses" →
  example_artifact w !! key = delete "witnesses" (example_artifact JNull) !! key.
Proof.
  intros Hkey. unfold example_artifact, make_artifact.
  rewrite lookup_delete_ne by congruence.
  destruct (decide (key = "_ceremony")) as [->|H1].
  { rewrite lookup_insert_eq. symmetry. apply lookup_insert_eq. }
  rewrite !(lookup_insert_ne _ "_ceremony") by congruence.
  destruct (decide (key = "_timestamp")) as [->|H2].
  { rewrite lookup_insert_eq. symmetry. apply lookup_insert_eq. }
  rewrite !(lookup_insert_ne _ "_timestamp") by congruence.
  destruct (decide (key = "attestation")) as [->|H3].
  { rewrite lookup_insert_eq. symmetry. apply lookup_insert_eq. }
  rewrite !(lookup_insert_ne _ "attestation") by congruence.
  rewrite !(lookup_insert_ne _ "witnesses") by congruence.
  reflexivity.
Qed.

Lemma verification_ignores_witnesses_witness :
  verify_artifact None
    (Some (example_artifact
             (JObject [("_note", JString "Supplementary entropy witnesses")])))
  = verify_artifact None (Some (delete "witnesses" (example_artifact JNull))).
Proof.
  exact (proj1 (verification_ignores_witnesses None
                  (example_artifact
                     (JObject [("_note", JString "Supplementary entropy witnesses")]))
                  (delete "witnesses" (example_artifact JNull))
                  (example_artifacts_agree _))).
Defined.

(** * Further properties of the code *)

(** ** Codec *)

Lemma lower_hex_bytes_to_hex data :
  all_chars is_lower_hex_digit (bytes_to_hex data) = true.
Proof.
  induction data as [|b data IH]; [done|].
  cbn [bytes_to_hex all_chars]. rewrite IH. by destruct b.
Qed.

(** X1. Hex round trip: what [bytes_to_hex] writes, [hex_to_bytes] (and the
    scripts' [unhexlify]) read back as the same bytes; the text has two
    lower-case hex digits per byte, and different byte sequences get
    different texts. *)
Theorem hex_round_trip (data : bytes) :
  hex_to_bytes (bytes_to_hex data) = Ok data
  ∧ Scripts.unhexlify (bytes_to_hex data) = Ok data
  ∧ String.length (bytes_to_hex data) = (2 * length data)%nat
  ∧ all_chars is_lower_hex_digit (bytes_to_hex data) = true
  ∧ (∀ data', bytes_to_hex data = bytes_to_hex data' → data = data').
Proof.
  split_and!.
  - apply hex_to_bytes_to_hex.
  - apply unhexlify_bytes_to_hex.
  - apply length_bytes_to_hex.
  - apply lower_hex_bytes_to_hex.
  - intros data'. apply bytes_to_hex_inj.
Qed.

Lemma lower_hex_digit_value c :
  is_lower_hex_digit c = true →
  ∃ v, digit_value c = Some v ∧ 0 ≤ v < 16 ∧ hex_char v = c ∧ is_space c = false.
Proof.
  destruct c as [[] [] [] [] [] [] [] []]; intros H; vm_compute in H;
    try discriminate H; clear H;
    eexists; (split; [vm_compute; reflexivity|]); (split; [lia|]);
    split; reflexivity.
Qed.

Lemma hex_pair_byte top bot :
  0 ≤ top < 16 → 0 ≤ bot < 16 →
  Z_of_byte (byte_of_Z (16 * top + bot)) / 16 = top
  ∧ Z_of_byte (byte_of_Z (16 * top + bot)) mod 16 = bot.
Proof.
  intros Ht Hb. rewrite Z_of_byte_of_Z, Z.mod_small by lia.
  split.
  - rewrite Z.mul_comm, Z.div_add_l by lia. rewrite Z.div_small by lia. lia.
  - rewrite Z.add_comm, Z.mul_comm, Z.mod_add by lia. apply Z.mod_small. lia.
Qed.

Lemma string_length_ind (P : string → Prop) :
  (∀ s, (∀ t, (String.length t < String.length s)%nat → P t) → P s) → ∀ s, P s.
Proof.
  intros H s. remember (String.length s) as n eqn:Hn.
  revert s Hn. induction (lt_wf n) as [n _ IH]. intros s ->.
  apply H. intros t Ht. by apply (IH (String.length t)).
Qed.

Lemma fromhex_lower_hex s data :
  all_chars is_lower_hex_digit s = true → fromhex s = Some data →
  bytes_to_hex data = s.
Proof.
  revert data. induction s as [|c|c d s IH] using string_pair_ind; intros data.
  - intros _ [= <-]. done.
  - cbn [all_chars fromhex]. rewrite andb_true_r. intros Hc.
    destruct (lower_hex_digit_value c Hc) as (v & -> & _ & _ & ->). done.
  - cbn [all_chars fromhex].
    intros (Hc & (Hd & Hs)%andb_prop)%andb_prop.
    destruct (lower_hex_digit_value c Hc) as (top & -> & Htop & Ec & ->).
    destruct (lower_hex_digit_value d Hd) as (bot & -> & Hbot & Ed & _).
    destruct (fromhex s) as [rest|] eqn:Hrest; [|done].
    intros [= <-]. cbn [bytes_to_hex].
    destruct (hex_pair_byte top bot Htop Hbot) as [-> ->].
    by rewrite Ec, Ed, (IH rest Hs eq_refl).
Qed.

(** X2. Decoding is not injective on texts, encoding picks the canonical
    one: if [hex_to_bytes] accepts a text, re-encoding the bytes gives the
    text back exactly when the text is made of lower-case hex digits only
    (no upper case, no white space); in any case the re-encoded text decodes
    to the same bytes. *)
Theorem hex_canonical_form (s : string) (data : bytes) :
  hex_to_bytes s = Ok data →
  (bytes_to_hex data = s ↔ all_chars is_lower_hex_digit s = true)
  ∧ hex_to_bytes (bytes_to_hex data) = hex_to_bytes s.
Proof.
  intros H. split; [split|].
  - intros <-. apply lower_hex_bytes_to_hex.
  - intros Hs. unfold hex_to_bytes in H.
    destruct (fromhex s) as [d|] eqn:Hd; [|done]. apply Ok_inj in H as <-.
    by apply fromhex_lower_hex.
  - by rewrite H, hex_to_bytes_to_hex.
Qed.

Lemma hex_canonical_form_witness :
  hex_to_bytes "E3 b0" = Ok ["227"%byte; "176"%byte]
  ∧ bytes_to_hex ["227"%byte; "176"%byte] ≠ "E3 b0"
  ∧ hex_to_bytes (bytes_to_hex ["227"%byte; "176"%byte]) = hex_to_bytes "E3 b0".
Proof.
  assert (hex_to_bytes "E3 b0" = Ok ["227"%byte; "176"%byte]) as H
    by (vm_compute; reflexivity).
  destruct (hex_canonical_form "E3 b0" ["227"%byte; "176"%byte] H) as [Hiff Hdec].
  split; [exact H|]. split; [|exact Hdec].
  intros E. apply Hiff in E. vm_compute in E. discriminate E.
Defined.

Lemma is_hex_digit_Some c v : digit_value c = Some v → is_hex_digit c = true.
Proof. unfold is_hex_digit. by intros ->. Qed.

Lemma is_hex_digit_space c : is_space c = true → is_hex_digit c = false.
Proof.
  intros Hsp. unfold is_hex_digit.
  destruct (digit_value c) as [v|] eqn:Hv; [|done].
  by rewrite (digit_not_space c v Hv) in Hsp.
Qed.

Lemma fromhex_accepts s : ∀ data,
  fromhex s = Some data →
  all_chars (λ c, is_hex_digit c || is_space c) s = true
  ∧ hex_digits s = (2 * length data)%nat.
Proof.
  induction s as [s IH] using string_length_ind. intros data.
  destruct s as [|c s]; [by intros [= <-]|].
  cbn [fromhex all_chars hex_digits].
  destruct (is_space c) eqn:Hsp.
  - intros H. destruct (IH s ltac:(simpl; lia) data H) as [Ha Hn].
    rewrite Ha, (is_hex_digit_space c Hsp), Hn. done.
  - destruct (digit_value c) as [top|] eqn:Hc; [|done].
    destruct s as [|d s]; [done|].
    destruct (digit_value d) as [bot|] eqn:Hd; [|done].
    destruct (fromhex s) as [rest|] eqn:Hrest; [|done].
    intros [= <-].
    destruct (IH s ltac:(simpl; lia) rest Hrest) as [Ha Hn].
    cbn [all_chars hex_digits length].
    rewrite (is_hex_digit_Some c top Hc), (is_hex_digit_Some d bot Hd), Ha, Hn.
    split; [done|]. lia.
Qed.

Lemma fromhex_digits_only s :
  all_chars is_hex_digit s = true →
  (is_Some (fromhex s) ↔ Nat.Even (String.length s)).
Proof.
  induction s as [|c|c d s IH] using string_pair_ind.
  - intros _. split; [intros _; by exists O|by eexists].
  - cbn [all_chars fromhex String.length]. rewrite andb_true_r.
    unfold is_hex_digit. destruct (digit_value c) as [v|] eqn:Hv; [|done].
    intros _. rewrite (digit_not_space c v Hv). split.
    + by intros [? [=]].
    + intros [k Hk]. lia.
  - cbn [all_chars fromhex String.length]. unfold is_hex_digit at 1 2.
    destruct (digit_value c) as [top|] eqn:Hc; [|done].
    destruct (digit_value d) as [bot|] eqn:Hd; [|done].
    cbn [andb]. intros Hs. rewrite (digit_not_space c top Hc).
    rewrite fmap_is_Some, (IH Hs).
    split; intros [k Hk]; [exists (S k)|exists (k - 1)%nat]; lia.
Qed.

Lemma hex_to_bytes_Raise s e : hex_to_bytes s = Raise e → e = ValueError.
Proof. unfold hex_to_bytes. destruct (fromhex s); congruence. Qed.

Lemma uint64_be_out_of_range n :
  ¬ 0 ≤ n < 2 ^ 64 → uint64_be n = Raise StructError.
Proof.
  intros Hn. unfold uint64_be.
  destruct (Z.leb_spec 0 n), (Z.ltb_spec n (2 ^ 64)); try done. lia.
Qed.

(** X3. What [hex_to_bytes] rejects. The only exception it raises is
    [ValueError]. A text it accepts contains nothing but hex digits and
    ASCII white space, and exactly two digits per decoded byte. A text of
    hex digits only is accepted exactly when its length is even. *)
Theorem hex_to_bytes_rejects (s : string) :
  (∀ e, hex_to_bytes s = Raise e → e = ValueError)
  ∧ (∀ data, hex_to_bytes s = Ok data →
       all_chars (λ c, is_hex_digit c || is_space c) s = true
       ∧ hex_digits s = (2 * length data)%nat)
  ∧ (all_chars is_hex_digit s = true →
       (is_Ok (hex_to_bytes s) ↔ Nat.Even (String.length s))).
Proof.
  unfold hex_to_bytes, is_Ok. split_and!.
  - intros e. destruct (fromhex s); congruence.
  - intros data. destruct (fromhex s) as [d|] eqn:Hd; [|done].
    intros H. apply Ok_inj in H as <-. by apply fromhex_accepts.
  - intros Hs. rewrite <- (fromhex_digits_only s Hs).
    destruct (fromhex s) as [d|]; split.
    + by eexists.
    + by eexists.
    + by intros [? [=]].
    + by intros [? [=]].
Qed.

Lemma hex_to_bytes_rejects_witness :
  all_chars is_hex_digit "abc" = true ∧ ¬ is_Ok (hex_to_bytes "abc").
Proof.
  assert (all_chars is_hex_digit "abc" = true) as H by reflexivity.
  split; [exact H|].
  intros Hok.
  apply (proj2 (proj2 (hex_to_bytes_rejects "abc")) H) in Hok.
  destruct Hok as [k Hk]. simpl in Hk. lia.
Defined.

(** X4. [uint64_be] returns exactly on the unsigned 64-bit range and raises
    [struct.error] outside it (negative or 2^64 and above); what it returns
    is eight bytes whose big-endian value is the argument, so different
    times never get the same bytes. *)
Theorem uint64_be_spec (n : Z) :
  (0 ≤ n < 2 ^ 64 →
     ∃ b, uint64_be n = Ok b ∧ length b = 8%nat ∧ be_int b = n
          ∧ ∀ m, uint64_be m = Ok b → m = n)
  ∧ (¬ 0 ≤ n < 2 ^ 64 → uint64_be n = Raise StructError).
Proof.
  split.
  - intros Hn. exists (be_bytes 8 n). rewrite (uint64_be_in_range n Hn).
    split_and!; [done|apply length_be_bytes| |].
    + rewrite be_int_be_bytes. change (256 ^ Z.of_nat 8) with (2 ^ 64).
      by apply Z.mod_small.
    + intros m Hm. apply uint64_be_Ok_inv in Hm as [Hm E].
      apply (be_bytes_inj 8); [by change (256 ^ Z.of_nat 8) with (2 ^ 64)..|done].
  - apply uint64_be_out_of_range.
Qed.

Lemma uint64_be_spec_witness :
  uint64_be (-1) = Raise StructError
  ∧ uint64_be (2 ^ 64) = Raise StructError
  ∧ ∃ b, uint64_be GENESIS_TIMESTAMP = Ok b ∧ be_int b = GENESIS_TIMESTAMP.
Proof.
  split; [apply (proj2 (uint64_be_spec (-1))); lia|].
  split; [apply (proj2 (uint64_be_spec (2 ^ 64))); lia|].
  destruct (proj1 (uint64_be_spec GENESIS_TIMESTAMP)
              ltac:(unfold GENESIS_TIMESTAMP; lia)) as (b & Hb & _ & Hi & _).
  by exists b.
Defined.

(** ** Hashes of the statement *)

(** X5. Where the hashing helpers return, they return a well-formed hash
    text. On bytes, and on every text of the embedding (code points up to
    U+00FF, which UTF-8 always encodes), [sha256_hex] returns a text of 64
    lower-case hex digits that decodes to 32 bytes, and so does
    [compute_refs_hash] on every list of such texts, hex or not; the refs
    hash is then a well-formed field of the signing input. A Python [str]
    holding a lone surrogate is no such text: on it [data.encode('utf-8')]
    raises [UnicodeEncodeError] and neither function returns. *)
Theorem hash_texts_well_formed (data : str_or_bytes) (refs : list string) :
  (String.length (sha256_hex data) = 64%nat
   ∧ all_chars is_lower_hex_digit (sha256_hex data) = true
   ∧ ∃ h, hex_to_bytes (sha256_hex data) = Ok h ∧ length h = 32%nat)
  ∧ (String.length (compute_refs_hash refs) = 64%nat
     ∧ all_chars is_lower_hex_digit (compute_refs_hash refs) = true
     ∧ ∃ r, hex_to_bytes (compute_refs_hash refs) = Ok r ∧ length r = 32%nat).
Proof.
  split.
  - unfold sha256_hex. split_and!.
    + by rewrite length_bytes_to_hex, length_sha256.
    + apply lower_hex_bytes_to_hex.
    + eexists. split; [apply hex_to_bytes_to_hex|apply length_sha256].
  - rewrite compute_refs_hash_hex. split_and!.
    + by rewrite length_bytes_to_hex, length_refs_hash_bytes.
    + apply lower_hex_bytes_to_hex.
    + eexists. split; [apply hex_to_bytes_to_hex|apply length_refs_hash_bytes].
Qed.

Lemma sorted_singleton x : sorted [x] = [x].
Proof. apply sorted_unique; [done|]. repeat constructor. Qed.

(** X6. [compute_refs_hash] does not look at what a ref is: a single ref
    spelled as the "|"-joined sorted list hashes like the list itself, and a
    single empty ref hashes like no ref at all (the root anchor). *)
Theorem refs_hash_aliases (refs : list string) :
  refs ≠ [] →
  compute_refs_hash [String.concat REFS_DELIMITER (sorted refs)]
  = compute_refs_hash refs
  ∧ compute_refs_hash [""] = compute_refs_hash [].
Proof.
  intros Hne. split.
  - destruct refs as [|r refs]; [done|].
    unfold compute_refs_hash at 1. rewrite sorted_singleton.
    reflexivity.
  - vm_compute. reflexivity.
Qed.

Lemma refs_hash_aliases_witness :
  compute_refs_hash ["a|b"] = compute_refs_hash ["b"; "a"].
Proof.
  assert (String.concat REFS_DELIMITER (sorted ["b"; "a"]) = "a|b") as E
    by (vm_compute; reflexivity).
  rewrite <- E.
  exact (proj1 (refs_hash_aliases ["b"; "a"] ltac:(discriminate))).
Defined.

Lemma compute_attestation_id_closed_form zone subject canon time :
  compute_attestation_id zone subject canon time
  = match hex_to_bytes zone, hex_to_bytes subject, hex_to_bytes canon with
    | Ok z, Ok s, Ok c =>
        if decide (0 ≤ time < 2 ^ 64)
        then Ok (sha256_hex (Bytes (z ++ s ++ c ++ be_bytes 8 time)))
        else Raise StructError
    | _, _, _ => Raise ValueError
    end.
Proof.
  unfold compute_attestation_id, attestation_id_data.
  pose proof (hex_to_bytes_Raise zone) as Ez.
  pose proof (hex_to_bytes_Raise subject) as Es.
  pose proof (hex_to_bytes_Raise canon) as Ec.
  destruct (hex_to_bytes zone) as [z|ez]; cbn [bind];
    [|by rewrite (Ez ez eq_refl)].
  destruct (hex_to_bytes subject) as [s|es]; cbn [bind];
    [|by rewrite (Es es eq_refl)].
  destruct (hex_to_bytes canon) as [c|ec]; cbn [bind];
    [|by rewrite (Ec ec eq_refl)].
  case_decide as Ht.
  - by rewrite (uint64_be_in_range time Ht).
  - by rewrite (uint64_be_out_of_range time Ht).
Qed.

Lemma compute_attestation_id_Raise zone subject canon time e :
  compute_attestation_id zone subject canon time = Raise e →
  e = ValueError ∨ e = StructError.
Proof.
  rewrite compute_attestation_id_closed_form.
  destruct (hex_to_bytes zone), (hex_to_bytes subject), (hex_to_bytes canon);
    try case_decide; intros Hr; try discriminate Hr;
    (apply (f_equal (λ r, match r with Raise e' => e' | Ok _ => e end)) in Hr;
     cbn beta iota in Hr; subst e; auto).
Qed.

(** X7. When [compute_attestation_id] fails. It returns exactly when zone,
    subject and canon decode as hex and the time is in the unsigned 64-bit
    range; an undecodable field raises [ValueError], and only a time out of
    range with three decodable fields raises [struct.error]. The field
    lengths are not checked. *)
Theorem compute_attestation_id_errors (zone subject canon : string) (time : Z) :
  (is_Ok (compute_attestation_id zone subject canon time)
   ↔ is_Ok (hex_to_bytes zone) ∧ is_Ok (hex_to_bytes subject)
     ∧ is_Ok (hex_to_bytes canon) ∧ 0 ≤ time < 2 ^ 64)
  ∧ (compute_attestation_id zone subject canon time = Raise StructError
     ↔ is_Ok (hex_to_bytes zone) ∧ is_Ok (hex_to_bytes subject)
       ∧ is_Ok (hex_to_bytes canon) ∧ ¬ 0 ≤ time < 2 ^ 64)
  ∧ (∀ e, compute_attestation_id zone subject canon time = Raise e →
       e = ValueError ∨ e = StructError).
Proof.
  split_and!; [| |apply compute_attestation_id_Raise];
    rewrite compute_attestation_id_closed_form; unfold is_Ok;
    destruct (hex_to_bytes zone) as [z|ez], (hex_to_bytes subject) as [s|es],
      (hex_to_bytes canon) as [c|ec]; try case_decide.
  1-9: split;
    [ intros [x Hx];
      first [ discriminate Hx
            | split; [by eexists|]; split; [by eexists|]; split; [by eexists|];
              assumption ]
    | intros ([? Hz] & [? Hs] & [? Hc] & Hr);
      first [ discriminate Hz | discriminate Hs | discriminate Hc
            | contradiction | by eexists ] ].
  all: split;
    [ intros Hx;
      first [ discriminate Hx
            | split; [by eexists|]; split; [by eexists|]; split; [by eexists|];
              assumption ]
    | intros ([? Hz] & [? Hs] & [? Hc] & Hr);
      first [ discriminate Hz | discriminate Hs | discriminate Hc
            | contradiction | reflexivity ] ].
Qed.

(** X8. The fields are concatenated without a length check, so the split
    between neighbouring fields is not part of what is hashed or signed:
    bytes moved from the end of one field to the start of the next give the
    same identifier and the same signing input. *)
Theorem field_boundaries_not_bound (a b c d e : bytes) (time : Z) :
  compute_attestation_id (bytes_to_hex (a ++ b)) (bytes_to_hex c) (bytes_to_hex d) time
  = compute_attestation_id (bytes_to_hex a) (bytes_to_hex (b ++ c)) (bytes_to_hex d) time
  ∧ build_signature_input (bytes_to_hex (a ++ b)) (bytes_to_hex c) time
      (bytes_to_hex d) (bytes_to_hex e)
    = build_signature_input (bytes_to_hex a) (bytes_to_hex (b ++ c)) time
        (bytes_to_hex d) (bytes_to_hex e)
  ∧ build_signature_input (bytes_to_hex a) (bytes_to_hex b) time
      (bytes_to_hex (c ++ d)) (bytes_to_hex e)
    = build_signature_input (bytes_to_hex a) (bytes_to_hex b) time
        (bytes_to_hex c) (bytes_to_hex (d ++ e)).
Proof.
  unfold compute_attestation_id, attestation_id_data, build_signature_input.
  rewrite !hex_to_bytes_to_hex. cbn [bind].
  destruct (uint64_be time) as [t|]; cbn [bind]; [|done].
  by rewrite <- !app_assoc.
Qed.

(** X9. With fields of the protocol's sizes the layout is unambiguous: two
    calls of [build_signature_input] (or of the identifier's input) on
    32-byte fields that return the same bytes were given the same field
    bytes and the same time. *)
Theorem signature_input_injective
    (i s r c i' s' r' c' : string) (time time' : Z)
    (ib sb rb cb ib' sb' rb' cb' : bytes) (m : bytes) :
  hex_to_bytes i = Ok ib → hex_to_bytes s = Ok sb →
  hex_to_bytes r = Ok rb → hex_to_bytes c = Ok cb →
  hex_to_bytes i' = Ok ib' → hex_to_bytes s' = Ok sb' →
  hex_to_bytes r' = Ok rb' → hex_to_bytes c' = Ok cb' →
  length ib = 32%nat → length sb = 32%nat → length rb = 32%nat →
  length ib' = 32%nat → length sb' = 32%nat → length rb' = 32%nat →
  (build_signature_input i s time r c = Ok m →
   build_signature_input i' s' time' r' c' = Ok m →
   ib = ib' ∧ sb = sb' ∧ time = time' ∧ rb = rb' ∧ cb = cb')
  ∧ (attestation_id_data i s r time = Ok m →
     attestation_id_data i' s' r' time' = Ok m →
     ib = ib' ∧ sb = sb' ∧ rb = rb' ∧ time = time').
Proof.
  intros Hi Hs Hr Hc Hi' Hs' Hr' Hc' Li Ls Lr Li' Ls' Lr'.
  assert (∀ t t', 0 ≤ t < 2 ^ 64 → 0 ≤ t' < 2 ^ 64 →
            be_bytes 8 t = be_bytes 8 t' → t = t') as Hbe.
  { intros t t' Ht Ht'.
    apply (be_bytes_inj 8); by change (256 ^ Z.of_nat 8) with (2 ^ 64). }
  split.
  - unfold build_signature_input.
    rewrite Hi, Hs, Hr, Hc, Hi', Hs', Hr', Hc'. cbn [bind].
    destruct (uint64_be time) as [t|] eqn:Ht; [|done].
    destruct (uint64_be time') as [t'|] eqn:Ht'; [|by intros _ [=]].
    apply uint64_be_Ok_inv in Ht as [Ht Et], Ht' as [Ht' Et'].
    cbn [bind]. intros E1 E. rewrite <- E1 in E. apply Ok_inj in E.
    apply app_inj_1 in E as [<- E]; [|lia].
    apply app_inj_1 in E as [<- E]; [|lia].
    apply app_inj_1 in E as [Ett E];
      [|by rewrite Et, Et', !length_be_bytes].
    apply app_inj_1 in E as [<- <-]; [|lia].
    rewrite Et, Et' in Ett.
    split_and!; try reflexivity. symmetry. by apply Hbe.
  - unfold attestation_id_data.
    rewrite Hi, Hs, Hr, Hi', Hs', Hr'. cbn [bind].
    destruct (uint64_be time) as [t|] eqn:Ht; [|done].
    destruct (uint64_be time') as [t'|] eqn:Ht'; [|by intros _ [=]].
    apply uint64_be_Ok_inv in Ht as [Ht Et], Ht' as [Ht' Et'].
    cbn [bind]. intros E1 E. rewrite <- E1 in E. apply Ok_inj in E.
    apply app_inj_1 in E as [<- E]; [|lia].
    apply app_inj_1 in E as [<- E]; [|lia].
    apply app_inj_1 in E as [<- Ett]; [|lia].
    rewrite Et, Et' in Ett.
    split_and!; try reflexivity. symmetry. by apply Hbe.
Qed.

Lemma signature_input_injective_witness :
  hex_to_bytes GLR = Ok (SHA256.digest [])
  ∧ hex_to_bytes "E3B0C44298FC1C149AFBF4C8996FB92427AE41E4649B934CA495991B7852B855"
    = Ok (SHA256.digest [])
  ∧ ∃ m, build_signature_input GLR GLR 1 GLR GLR = Ok m
         ∧ build_signature_input
             "E3B0C44298FC1C149AFBF4C8996FB92427AE41E4649B934CA495991B7852B855"
             GLR 1 GLR GLR = Ok m.
Proof.
  assert (hex_to_bytes GLR = Ok (SHA256.digest [])) as H by (vm_compute; reflexivity).
  assert (hex_to_bytes "E3B0C44298FC1C149AFBF4C8996FB92427AE41E4649B934CA495991B7852B855"
          = Ok (SHA256.digest [])) as H' by (vm_compute; reflexivity).
  pose proof (length_sha256 []) as L.
  split; [exact H|]. split; [exact H'|].
  assert (∃ m, build_signature_input GLR GLR 1 GLR GLR = Ok m
               ∧ build_signature_input
                   "E3B0C44298FC1C149AFBF4C8996FB92427AE41E4649B934CA495991B7852B855"
                   GLR 1 GLR GLR = Ok m) as (m & Hm & Hm').
  { eexists. split; vm_compute; reflexivity. }
  pose proof (proj1 (signature_input_injective GLR GLR GLR GLR
    "E3B0C44298FC1C149AFBF4C8996FB92427AE41E4649B934CA495991B7852B855"
    GLR GLR GLR 1 1 _ _ _ _ _ _ _ _ m H H H H H' H H H L L L L L L) Hm Hm')
    as (_ & _ & _ & _ & _).
  exists m. split; [exact Hm|exact Hm'].
Defined.

(** ** Signatures *)

(** X10. Signing and verifying compose: with the primitive present, for a
    32-byte seed given in hex and the hex of its verification key,
    [sign_message] returns a 128-character signature text on every message
    and [verify_signature] accepts it on that message. *)
Theorem sign_then_verify (E : NaCl) (message : bytes)
    (private_key_hex public_key_hex : string) (sd pk : bytes) :
  NaClCorrect E →
  hex_to_bytes private_key_hex = Ok sd → length sd = 32%nat →
  SigningKey_verify_key E sd = Some pk →
  hex_to_bytes public_key_hex = Ok pk →
  ∃ signature_hex,
    sign_message (Some E) message private_key_hex = Ok signature_hex
    ∧ String.length signature_hex = 128%nat
    ∧ verify_signature (Some E) message signature_hex public_key_hex = Ok true.
Proof.
  intros HE Hsd Hlen Hkey Hpk.
  destruct (sign_total E HE sd message Hlen) as (sg & Hsg & Hsglen).
  exists (bytes_to_hex sg). unfold sign_message, verify_signature.
  rewrite Hsd, Hpk, hex_to_bytes_to_hex. cbn [bind from_nacl].
  rewrite Hsg. cbn [bind from_nacl]. split_and!; [done| |].
  - by rewrite length_bytes_to_hex, Hsglen.
  - by rewrite (sign_verify E HE sd message pk sg Hkey Hsg).
Qed.

Lemma sign_then_verify_witness :
  hex_to_bytes GLR = Ok (SHA256.digest [])
  ∧ ∃ signature_hex,
      sign_message (Some keyed_digest_nacl) [] GLR = Ok signature_hex
      ∧ String.length signature_hex = 128%nat
      ∧ verify_signature (Some keyed_digest_nacl) [] signature_hex GLR = Ok true.
Proof.
  assert (hex_to_bytes GLR = Ok (SHA256.digest [])) as H
    by (vm_compute; reflexivity).
  assert (SigningKey_verify_key keyed_digest_nacl (SHA256.digest [])
          = Some (SHA256.digest [])) as Hkey by (vm_compute; reflexivity).
  split; [exact H|].
  exact (sign_then_verify keyed_digest_nacl [] GLR GLR _ _
           keyed_digest_nacl_correct H (length_sha256 []) Hkey H).
Defined.

(** ** The verifier *)

(** X11. When [verify_attestation] raises instead of returning a verdict,
    on an attestation whose refs are texts of the embedding (code points up
    to U+00FF, which UTF-8 always encodes): exactly when the public key is
    not hex, or when step 1 passes and the identifier cannot be recomputed
    (subject or canon not hex, time outside the unsigned 64-bit range); the
    exception is then [ValueError] or [struct.error]. A malformed id is a
    mismatch and a malformed proof is, at most, an invalid signature. The
    refs are hashed at step 3 whether or not PyNaCl is present; a ref that
    UTF-8 cannot encode (a lone surrogate) makes that call raise
    [UnicodeEncodeError], and is no text of the embedding. *)
Theorem verify_attestation_raises (nacl : option NaCl) (att : Attestation)
    (public_key : string) (e : exn) :
  (verify_attestation nacl att public_key = Raise e
   ↔ hex_to_bytes public_key = Raise e
     ∨ ∃ pkb, hex_to_bytes public_key = Ok pkb
              ∧ sha256_hex (Bytes pkb) = att_zone att
              ∧ compute_attestation_id (att_zone att) (att_subject att)
                  (att_canon att) (att_time att) = Raise e)
  ∧ (verify_attestation nacl att public_key = Raise e →
     e = ValueError ∨ e = StructError).
Proof.
  assert (verify_attestation nacl att public_key = Raise e
   ↔ hex_to_bytes public_key = Raise e
     ∨ ∃ pkb, hex_to_bytes public_key = Ok pkb
              ∧ sha256_hex (Bytes pkb) = att_zone att
              ∧ compute_attestation_id (att_zone att) (att_subject att)
                  (att_canon att) (att_time att) = Raise e) as Hiff.
  { destruct (hex_to_bytes public_key) as [pkb|e'] eqn:Hpk.
    - destruct (decide (sha256_hex (Bytes pkb) = att_zone att)) as [Hz|Hz].
      + destruct (compute_attestation_id (att_zone att) (att_subject att)
                    (att_canon att) (att_time att)) as [cid|e'] eqn:Hid.
        * destruct (decide (cid = att_id att)) as [->|Hne].
          -- destruct (verify_reaches_signature nacl att public_key pkb Hpk Hz Hid)
               as (i & s & c & _ & _ & _ & _ & _ & ->).
             split; [done|]. intros [[=]|(? & _ & _ & [=])].
          -- rewrite (verify_id_mismatch nacl att public_key pkb cid Hpk Hz Hid Hne).
             split; [done|]. intros [[=]|(? & _ & _ & [=])].
        * rewrite (verify_id_raises nacl att public_key pkb e' Hpk Hz Hid).
          split.
          -- intros [= ->]. right. by exists pkb.
          -- intros [[=]|(? & _ & _ & [= ->])]. done.
      + rewrite (verify_zone_mismatch nacl att public_key pkb Hpk Hz).
        split; [done|]. intros [[=]|(? & [= <-] & ? & _)]. done.
    - unfold verify_attestation. rewrite Hpk. cbn [bind]. split.
      + intros [= ->]. by left.
      + intros [[= ->]|(? & [=] & _)]. done. }
  split; [exact Hiff|].
  intros [Hpk|(pkb & _ & _ & Hid)]%Hiff.
  - left. by apply (hex_to_bytes_Raise public_key).
  - by apply compute_attestation_id_Raise in Hid.
Qed.

Lemma compute_attestation_id_respelled zone subject canon zone' subject' canon' time :
  hex_to_bytes zone' = hex_to_bytes zone →
  hex_to_bytes subject' = hex_to_bytes subject →
  hex_to_bytes canon' = hex_to_bytes canon →
  compute_attestation_id zone' subject' canon' time
  = compute_attestation_id zone subject canon time.
Proof.
  intros Hz Hs Hc. unfold compute_attestation_id, attestation_id_data.
  by rewrite Hz, Hs, Hc.
Qed.

Lemma build_signature_input_respelled i s r c i' s' r' c' time :
  hex_to_bytes i' = hex_to_bytes i → hex_to_bytes s' = hex_to_bytes s →
  hex_to_bytes r' = hex_to_bytes r → hex_to_bytes c' = hex_to_bytes c →
  build_signature_input i' s' time r' c' = build_signature_input i s time r c.
Proof.
  intros Hi Hs Hr Hc. unfold build_signature_input. by rewrite Hi, Hs, Hr, Hc.
Qed.

Lemma verify_signature_respelled nacl m sg pk sg' pk' :
  hex_to_bytes sg' = hex_to_bytes sg → hex_to_bytes pk' = hex_to_bytes pk →
  verify_signature nacl m sg' pk' = verify_signature nacl m sg pk.
Proof. intros Hs Hp. unfold verify_signature. by rewrite Hs, Hp. Qed.

Lemma hex_to_bytes_space s : hex_to_bytes (String " " s) = hex_to_bytes s.
Proof. reflexivity. Qed.

Lemma verify_attestation_proof_respelled nacl att public_key proof' :
  hex_to_bytes proof' = hex_to_bytes (att_proof att) →
  verify_attestation nacl (with_proof att proof') public_key
  = verify_attestation nacl att public_key.
Proof.
  intros Hp. unfold verify_attestation.
  cbn [with_proof att_id att_zone att_subject att_canon att_time att_refs att_proof].
  destruct (hex_to_bytes public_key) as [pkb|]; [|reflexivity]. cbn [bind].
  destruct (negb _); [reflexivity|].
  destruct (compute_attestation_id _ _ _ _) as [cid|]; [|reflexivity]. cbn [bind].
  destruct (negb _); [reflexivity|].
  destruct (build_signature_input _ _ _ _ _) as [m|]; [|reflexivity]. cbn [bind].
  by rewrite (verify_signature_respelled nacl m (att_proof att) public_key
                proof' public_key Hp eq_refl).
Qed.

(** X12. Subject, canon, proof and public key enter verification only
    through the bytes they decode to: replacing any of them by another
    spelling of the same bytes (upper case, white space between bytes) leaves
    the whole result of [verify_attestation] unchanged. The stored record is
    thus not the only one the verifier accepts for a signed statement. *)
Theorem verify_attestation_respelling (nacl : option NaCl) (att : Attestation)
    (public_key subject' canon' proof' public_key' : string) :
  hex_to_bytes subject' = hex_to_bytes (att_subject att) →
  hex_to_bytes canon' = hex_to_bytes (att_canon att) →
  hex_to_bytes proof' = hex_to_bytes (att_proof att) →
  hex_to_bytes public_key' = hex_to_bytes public_key →
  verify_attestation nacl
    (with_proof (with_canon (with_subject att subject') canon') proof') public_key'
  = verify_attestation nacl att public_key.
Proof.
  intros Hs Hc Hp Hk. unfold verify_attestation.
  cbn [with_proof with_canon with_subject att_id att_zone att_subject att_canon
       att_time att_refs att_proof].
  rewrite (compute_attestation_id_respelled (att_zone att) (att_subject att)
             (att_canon att) (att_zone att) subject' canon' (att_time att)
             eq_refl Hs Hc).
  rewrite (build_signature_input_respelled (att_id att) (att_subject att)
             (compute_refs_hash (att_refs att)) (att_canon att)
             (att_id att) subject' (compute_refs_hash (att_refs att)) canon'
             (att_time att) eq_refl Hs eq_refl Hc).
  pose proof (λ m, verify_signature_respelled nacl m (att_proof att) public_key
                     proof' public_key' Hp Hk) as Hsig.
  rewrite Hk.
  destruct (hex_to_bytes public_key) as [pkb|]; [|reflexivity]. cbn [bind].
  destruct (negb _); [reflexivity|].
  destruct (compute_attestation_id _ _ _ _) as [cid|]; [|reflexivity]. cbn [bind].
  destruct (negb _); [reflexivity|].
  destruct (build_signature_input _ _ _ _ _) as [m|]; [|reflexivity]. cbn [bind].
  by rewrite Hsig.
Qed.

Lemma verify_attestation_respelling_witness :
  verify_attestation None
    (with_proof
       (with_canon
          (with_subject fallback_genesis_attestation
             (String " " (att_subject fallback_genesis_attestation)))
          (String " " (att_canon fallback_genesis_attestation)))
       (String " " (att_proof fallback_genesis_attestation)))
    (String " " (public_key PRECOMPUTED_ZONE))
  = verify_attestation None fallback_genesis_attestation (public_key PRECOMPUTED_ZONE).
Proof.
  exact (verify_attestation_respelling None fallback_genesis_attestation
           (public_key PRECOMPUTED_ZONE) _ _ _ _
           (hex_to_bytes_space _) (hex_to_bytes_space _) (hex_to_bytes_space _)
           (hex_to_bytes_space _)).
Defined.

Lemma sha256_hex_Bytes b : sha256_hex (Bytes b) = bytes_to_hex (SHA256.digest b).
Proof. reflexivity. Qed.

Lemma verify_attestation_valid_inv nacl att public_key v :
  verify_attestation nacl att public_key = Ok v → valid v = true →
  ∃ pkb s c, acceptable nacl att public_key pkb s c
    ∧ v = {| valid := true; error := None;
             steps := [zone_step att (att_zone att); id_step att (att_id att);
                       signature_step nacl true] |}.
Proof.
  intros Hv Hvalid.
  destruct (hex_to_bytes public_key) as [pkb|e'] eqn:Hpk;
    [|unfold verify_attestation in Hv; rewrite Hpk in Hv; discriminate Hv].
  destruct (decide (sha256_hex (Bytes pkb) = att_zone att)) as [Hz|Hz];
    [|rewrite (verify_zone_mismatch nacl att public_key pkb Hpk Hz) in Hv;
      apply Ok_inj in Hv; subst v; discriminate Hvalid].
  destruct (compute_attestation_id (att_zone att) (att_subject att)
              (att_canon att) (att_time att)) as [cid|e'] eqn:Hid;
    [|rewrite (verify_id_raises nacl att public_key pkb e' Hpk Hz Hid) in Hv;
      discriminate Hv].
  destruct (decide (cid = att_id att)) as [->|Hne];
    [|rewrite (verify_id_mismatch nacl att public_key pkb cid Hpk Hz Hid Hne) in Hv;
      apply Ok_inj in Hv; subst v; discriminate Hvalid].
  destruct (verify_reaches_signature nacl att public_key pkb Hpk Hz Hid)
    as (i & s & c & Hi & Hs & Hc & Ht & Li & Hres).
  cbv zeta in Hres. rewrite Hres in Hv. apply Ok_inj in Hv. subst v.
  cbn [valid] in Hvalid.
  apply compute_attestation_id_Ok_inv in Hid as (data & Hdata & Hcid).
  pose proof Hz as Hz2. rewrite sha256_hex_Bytes in Hz2.
  assert (hex_to_bytes (att_zone att) = Ok (SHA256.digest pkb)) as Hzb
    by (rewrite <- Hz2; apply hex_to_bytes_to_hex).
  rewrite (attestation_id_data_Ok _ _ _ _ _ _ _ Hzb Hs Hc Ht) in Hdata.
  apply Ok_inj in Hdata. subst data.
  assert (i = SHA256.digest (SHA256.digest pkb ++ s ++ c ++ be_bytes 8 (att_time att)))
    as Ei.
  { rewrite Hcid, hex_to_bytes_to_hex in Hi. by apply Ok_inj in Hi. }
  rewrite Ei in Hvalid |- *.
  exists pkb, s, c. split.
  - by repeat (split; [assumption || (symmetry; assumption)|]).
  - rewrite Hvalid, Hz. reflexivity.
Qed.

Lemma verify_attestation_acceptable nacl att public_key pkb s c :
  acceptable nacl att public_key pkb s c →
  verify_attestation nacl att public_key
  = Ok {| valid := true; error := None;
          steps := [zone_step att (att_zone att); id_step att (att_id att);
                    signature_step nacl true] |}.
Proof.
  intros (Hpk & Hz & Hs & Hc & Ht & Hid & Hsig).
  assert (hex_to_bytes (att_zone att) = Ok (SHA256.digest pkb)) as Hzb
    by (rewrite Hz; apply hex_to_bytes_to_hex).
  assert (compute_attestation_id (att_zone att) (att_subject att) (att_canon att)
            (att_time att) = Ok (att_id att)) as Hcid.
  { unfold compute_attestation_id.
    rewrite (attestation_id_data_Ok _ _ _ _ _ _ _ Hzb Hs Hc Ht). cbn [bind].
    by rewrite sha256_hex_Bytes, Hid. }
  assert (sha256_hex (Bytes pkb) = att_zone att) as Hz'.
  { by rewrite sha256_hex_Bytes. }
  destruct (verify_reaches_signature nacl att public_key pkb Hpk Hz' Hcid)
    as (i & s' & c' & Hi & Hs' & Hc' & _ & _ & Hres).
  cbv zeta in Hres. rewrite Hres.
  rewrite Hs in Hs'. apply Ok_inj in Hs'. subst s'.
  rewrite Hc in Hc'. apply Ok_inj in Hc'. subst c'.
  rewrite Hid, hex_to_bytes_to_hex in Hi. apply Ok_inj in Hi. subst i.
  rewrite Hsig, Hz'. reflexivity.
Qed.

(** X13. What [verify_attestation] accepts: it returns [valid = true]
    exactly when the public key decodes, the zone is the lower-case hex of
    its SHA-256, subject and canon decode (to any number of bytes), the time
    is in the unsigned 64-bit range, the id is the lower-case hex of the
    hash of the four fields, and step 3 passes. The report is then the same
    three passed steps. Field lengths, the refs' format and the time's value
    are not examined. *)
Theorem verify_attestation_accepts (nacl : option NaCl) (att : Attestation)
    (public_key : string) :
  (∃ v, verify_attestation nacl att public_key = Ok v ∧ valid v = true)
  ↔ ∃ pkb s c, acceptable nacl att public_key pkb s c.
Proof.
  split.
  - intros (v & Hv & Hvalid).
    destruct (verify_attestation_valid_inv nacl att public_key v Hv Hvalid)
      as (pkb & s & c & Hacc & _).
    by exists pkb, s, c.
  - intros (pkb & s & c & Hacc). eexists. split.
    + by apply (verify_attestation_acceptable nacl att public_key pkb s c).
    + reflexivity.
Qed.

(** X14. The verifier sees the refs only through [compute_refs_hash]: any
    rearrangement of the refs leaves the whole result of
    [verify_attestation] unchanged, and likewise the signature check of the
    stand-alone scripts. *)
Theorem verify_attestation_refs_order (nacl : option NaCl) (att : Attestation)
    (public_key : string) (refs' : list string) :
  refs' ≡ₚ att_refs att →
  verify_attestation nacl (with_refs att refs') public_key
  = verify_attestation nacl att public_key
  ∧ ∀ E verify_key,
      Scripts.signature_check E verify_key (with_refs att refs')
      = Scripts.signature_check E verify_key att.
Proof.
  intros Hp. split.
  - unfold verify_attestation.
    cbn [with_refs att_id att_zone att_subject att_canon att_time att_refs att_proof].
    assert (compute_refs_hash refs' = compute_refs_hash (att_refs att)) as ->;
      [|reflexivity].
    rewrite !compute_refs_hash_hex. f_equal.
    unfold refs_hash_bytes. rewrite (sorted_perm_eq _ _ Hp).
    destruct refs' as [|r' refs'], (att_refs att) as [|r refs];
      first [ reflexivity
            | by apply Permutation_nil_cons in Hp
            | symmetry in Hp; by apply Permutation_nil_cons in Hp ].
  - intros E verify_key. unfold Scripts.signature_check, Scripts.sign_input.
    assert (Scripts.refs_hash (with_refs att refs') = Scripts.refs_hash att) as ->;
      [|reflexivity].
    unfold Scripts.refs_hash, Scripts.refs_concat. cbn [with_refs att_refs].
    by rewrite (sorted_perm_eq _ _ Hp).
Qed.

Lemma verify_attestation_refs_order_witness :
  verify_attestation None
    (with_refs (with_refs fallback_genesis_attestation ["b"; "a"]) ["a"; "b"])
    (public_key PRECOMPUTED_ZONE)
  = verify_attestation None (with_refs fallback_genesis_attestation ["b"; "a"])
      (public_key PRECOMPUTED_ZONE).
Proof.
  exact (proj1 (verify_attestation_refs_order None
                  (with_refs fallback_genesis_attestation ["b"; "a"])
                  (public_key PRECOMPUTED_ZONE) ["a"; "b"]
                  (perm_swap "b" "a" []))).
Defined.

Lemma build_signature_input_is_Ok aid subject time refs refs' canon :
  is_Ok (build_signature_input aid subject time (compute_refs_hash refs) canon)
  → is_Ok (build_signature_input aid subject time (compute_refs_hash refs') canon).
Proof.
  unfold build_signature_input, is_Ok. rewrite !compute_refs_hash_hex.
  rewrite !hex_to_bytes_to_hex.
  destruct (hex_to_bytes aid), (hex_to_bytes subject), (uint64_be time),
    (hex_to_bytes canon); cbn [bind]; intros [m Hm]; try discriminate Hm.
  by eexists.
Qed.

(** X15. Without PyNaCl the verifier never looks at the proof, and uses the
    refs only to hash them. Replacing the proof by anything leaves the whole
    result of [verify_attestation] unchanged (first part). The refs are
    hashed at step 3, before the availability guard, and the hash is then
    discarded: when old and new refs are texts of the embedding (code points
    up to U+00FF, which UTF-8 always encodes), replacing refs and proof
    together leaves the result unchanged as well (second part). A ref that
    UTF-8 cannot encode (a lone surrogate) is no such text: it makes the
    hashing raise [UnicodeEncodeError], so the refs are not ignored
    altogether. *)
Theorem fallback_discards_proof_and_refs_hash (att : Attestation)
    (public_key : string) (refs' : list string) (proof' : string) :
  verify_attestation None (with_proof att proof') public_key
  = verify_attestation None att public_key
  ∧ verify_attestation None (with_proof (with_refs att refs') proof') public_key
    = verify_attestation None att public_key.
Proof.
  split.
  { unfold verify_attestation.
    cbn [with_proof att_id att_zone att_subject att_canon att_time att_refs
         att_proof NACL_AVAILABLE].
    reflexivity. }
  unfold verify_attestation.
  cbn [with_proof with_refs att_id att_zone att_subject att_canon att_time
       att_refs att_proof NACL_AVAILABLE].
  destruct (hex_to_bytes public_key) as [pkb|]; [|reflexivity]. cbn [bind].
  destruct (negb _); [reflexivity|].
  destruct (compute_attestation_id _ _ _ _) as [cid|]; [|reflexivity]. cbn [bind].
  destruct (negb _); [reflexivity|].
  pose proof (build_signature_input_is_Ok (att_id att) (att_subject att)
                (att_time att) refs' (att_refs att) (att_canon att)) as H1.
  pose proof (build_signature_input_is_Ok (att_id att) (att_subject att)
                (att_time att) (att_refs att) refs' (att_canon att)) as H2.
  unfold is_Ok in H1, H2.
  destruct (build_signature_input _ _ _ (compute_refs_hash refs') _) as [m'|e'] eqn:E';
    destruct (build_signature_input _ _ _ (compute_refs_hash (att_refs att)) _)
      as [m|e] eqn:E; cbn [bind].
  - reflexivity.
  - destruct (H1 (ex_intro _ m' eq_refl)) as [? Hx]. discriminate Hx.
  - destruct (H2 (ex_intro _ m eq_refl)) as [? Hx]. discriminate Hx.
  - unfold build_signature_input in E, E'.
    rewrite compute_refs_hash_hex, hex_to_bytes_to_hex in E, E'.
    destruct (hex_to_bytes (att_id att)), (hex_to_bytes (att_subject att)),
      (uint64_be (att_time att)), (hex_to_bytes (att_canon att));
      cbn [bind] in E, E'; try discriminate E; congruence.
Qed.

(** X16. The verifier without PyNaCl differs from the verifier with it in
    step 3 only: they raise together, whatever the full verifier accepts the
    fallback accepts, and a rejection by the fallback is a rejection by the
    full verifier with the same report (a zone or id mismatch); the one
    disagreement is an invalid signature, which the fallback accepts. *)
Theorem fallback_verifier_is_weaker (E : NaCl) (att : Attestation)
    (public_key : string) :
  match verify_attestation (Some E) att public_key with
  | Raise e => verify_attestation None att public_key = Raise e
  | Ok v =>
      ∃ v', verify_attestation None att public_key = Ok v'
            ∧ (valid v = true → valid v' = true)
            ∧ (valid v' = false → v' = v)
            ∧ (valid v = false → valid v' = true →
               error v = Some "Invalid signature")
  end.
Proof.
  destruct (hex_to_bytes public_key) as [pkb|e'] eqn:Hpk.
  - destruct (decide (sha256_hex (Bytes pkb) = att_zone att)) as [Hz|Hz].
    + destruct (compute_attestation_id (att_zone att) (att_subject att)
                  (att_canon att) (att_time att)) as [cid|e'] eqn:Hid.
      * destruct (decide (cid = att_id att)) as [->|Hne].
        -- destruct (verify_reaches_signature (Some E) att public_key pkb Hpk Hz Hid)
             as (i & s & c & Hi & Hs & Hc & _ & _ & ->).
           destruct (verify_reaches_signature None att public_key pkb Hpk Hz Hid)
             as (i' & s' & c' & _ & _ & _ & _ & _ & ->).
           cbv zeta. eexists. split; [reflexivity|].
           cbn [valid error signature_verdict]. split_and!.
           ++ done.
           ++ intros [=].
           ++ by intros ->.
        -- rewrite !(verify_id_mismatch _ att public_key pkb cid Hpk Hz Hid Hne).
           eexists. split; [reflexivity|]. cbn [valid]. split_and!; done.
      * by rewrite !(verify_id_raises _ att public_key pkb e' Hpk Hz Hid).
    + rewrite !(verify_zone_mismatch _ att public_key pkb Hpk Hz).
      eexists. split; [reflexivity|]. cbn [valid]. split_and!; done.
  - unfold verify_attestation. by rewrite Hpk.
Qed.

(** X17. Zone and id are compared as texts with the lower-case hex the
    verifier computes. Starting from an attestation the verifier accepts,
    any other id gives "Attestation ID mismatch" and any other zone gives
    "Zone ID mismatch", also when the new text spells the same bytes (upper
    case, white space), in contrast to subject, canon and proof. *)
Theorem zone_and_id_compared_as_text (nacl : option NaCl) (att : Attestation)
    (public_key : string) (ps : list bool) (i z : string) :
  verdict_is nacl att public_key Valid ps →
  (i ≠ att_id att →
   verdict_is nacl (with_id att i) public_key IdentifierMismatch [true; false])
  ∧ (z ≠ att_zone att →
     verdict_is nacl (with_zone att z) public_key IdentityMismatch [false]).
Proof.
  intros (v & Hv & Ho & _).
  assert (valid v = true) as Hvalid.
  { unfold outcome in Ho. destruct (valid v); [done|].
    destruct (error v) as [e|]; [|done].
    repeat (destruct (String.eqb e _)); done. }
  destruct (verify_attestation_valid_inv nacl att public_key v Hv Hvalid)
    as (pkb & s & c & (Hpk & Hz & Hs & Hc & Ht & Hid & _) & _).
  assert (hex_to_bytes (att_zone att) = Ok (SHA256.digest pkb)) as Hzb
    by (rewrite Hz; apply hex_to_bytes_to_hex).
  split.
  - intros Hi.
    apply (id_mismatch_verdict nacl (with_id att i) public_key pkb (att_id att) Hpk).
    + by rewrite sha256_hex_Bytes.
    + cbn [with_id att_zone att_subject att_canon att_time].
      unfold compute_attestation_id.
      rewrite (attestation_id_data_Ok _ _ _ _ _ _ _ Hzb Hs Hc Ht). cbn [bind].
      by rewrite sha256_hex_Bytes, Hid.
    + cbn [with_id att_id]. congruence.
  - intros Hzne.
    apply (zone_mismatch_verdict nacl (with_zone att z) public_key pkb Hpk).
    cbn [with_zone att_zone]. rewrite sha256_hex_Bytes. congruence.
Qed.

Lemma fallback_genesis_valid :
  verdict_is None fallback_genesis_attestation (public_key PRECOMPUTED_ZONE)
    Valid [true; true; true].
Proof.
  eexists. split; [vm_compute; reflexivity|].
  split; vm_compute; reflexivity.
Qed.

Lemma String_neq c s : String c s ≠ s.
Proof.
  intros H. apply (f_equal String.length) in H. cbn [String.length] in H. lia.
Qed.

Lemma zone_and_id_compared_as_text_witness :
  hex_to_bytes (String " " (att_id fallback_genesis_attestation))
  = hex_to_bytes (att_id fallback_genesis_attestation)
  ∧ verdict_is None
      (with_id fallback_genesis_attestation
         (String " " (att_id fallback_genesis_attestation)))
      (public_key PRECOMPUTED_ZONE) IdentifierMismatch [true; false].
Proof.
  split; [apply hex_to_bytes_space|].
  exact (proj1 (zone_and_id_compared_as_text None fallback_genesis_attestation
                  (public_key PRECOMPUTED_ZONE) [true; true; true]
                  (String " " (att_id fallback_genesis_attestation)) ""
                  fallback_genesis_valid)
           (String_neq _ _)).
Defined.

(** ** The ceremony's artifact *)

Lemma sha256_hex_Str s :
  sha256_hex (Str s) = bytes_to_hex (SHA256.digest (encode_utf8 s)).
Proof. reflexivity. Qed.

Lemma make_artifact_lookup ct att w :
  make_artifact ct att w !! "attestation" = Some (VAttestation att).
Proof.
  unfold make_artifact.
  rewrite lookup_insert_ne by done. rewrite lookup_insert_ne by done.
  by rewrite lookup_insert_eq.
Qed.

Lemma artifact_attestation_Ok artifact att :
  artifact_attestation artifact = Ok att
  ↔ artifact !! "attestation" = Some (VAttestation att).
Proof.
  unfold artifact_attestation.
  destruct (artifact !! "attestation") as [[]|]; split; intros H;
    try discriminate H; congruence.
Qed.

Lemma genesis_zone_ok nacl zone :
  (∀ E, nacl = Some E → NaClCorrect E) →
  derive_genesis_zone nacl = Ok zone →
  ∃ sd pk, zone_ok nacl zone sd pk.
Proof.
  intros Hlaws Hz. apply (derives_zone_ok nacl GLR DOMAIN_SEPARATOR zone Hlaws).
  rewrite <- Hz. by apply derives_genesis.
Qed.

Lemma hex_to_bytes_GLR : hex_to_bytes GLR = Ok (SHA256.digest []).
Proof. vm_compute. reflexivity. Qed.

Lemma derive_genesis_zone_total nacl :
  (∀ E, nacl = Some E → NaClCorrect E) → is_Ok (derive_genesis_zone nacl).
Proof.
  intros Hlaws. destruct nacl as [E|]; [|by eexists].
  destruct (derive_zone_closed_form E GLR DOMAIN_SEPARATOR _ (Hlaws E eq_refl)
              hex_to_bytes_GLR) as (pk & _ & _ & Hd).
  eexists. exact Hd.
Qed.

Lemma glr_check : String.eqb (sha256_hex (Str "")) GLR = true.
Proof. vm_compute. reflexivity. Qed.

Lemma precomputed_proof_hex :
  bytes_to_hex (match hex_to_bytes PRECOMPUTED_PROOF with
                | Ok b => b
                | Raise _ => []
                end) = PRECOMPUTED_PROOF.
Proof. vm_compute. reflexivity. Qed.

(** What the builder returns for an identity with matching keys. *)
Lemma build_attestation_signed nacl zone sd pk subject_text canon_label time refs :
  (∀ E, nacl = Some E → NaClCorrect E) →
  zone_ok nacl zone sd pk → 0 ≤ time < 2 ^ 64 →
  ∃ sg,
    build_attestation nacl zone subject_text canon_label time refs
    = Ok (built zone subject_text canon_label time refs (SHA256.digest pk)
            (bytes_to_hex sg))
    ∧ ∀ E, nacl = Some E →
        VerifyKey_verify E pk
          (built_message subject_text canon_label time refs (SHA256.digest pk)) sg
        = true.
Proof.
  intros Hlaws [Hsd Hsdlen Hpk Hfp Hkp] Ht.
  assert (hex_to_bytes (zone_id zone) = Ok (SHA256.digest pk)) as Hz
    by (rewrite Hfp; apply hex_to_bytes_to_hex).
  rewrite (build_attestation_unfold _ _ _ _ _ _ _ Hz Ht).
  set (m := built_message subject_text canon_label time refs (SHA256.digest pk)).
  destruct nacl as [E|]; cbn [NACL_AVAILABLE].
  - destruct (sign_total E (Hlaws E eq_refl) sd m Hsdlen) as (sg & Hsg & _).
    exists sg. unfold sign_message.
    rewrite Hsd. cbn [bind from_nacl]. rewrite Hsg. cbn [bind from_nacl].
    split; [reflexivity|]. intros E' HE. apply Some_inj in HE. subst E'.
    exact (sign_verify E (Hlaws E eq_refl) sd m pk sg (Hkp E eq_refl) Hsg).
  - exists (match hex_to_bytes PRECOMPUTED_PROOF with Ok b => b | Raise _ => [] end).
    rewrite precomputed_proof_hex. cbn [bind]. split; [reflexivity|].
    intros E HE. discriminate HE.
Qed.

Lemma signature_verdict_built nacl zone sd pk att m sg :
  zone_ok nacl zone sd pk → att_proof att = bytes_to_hex sg →
  (∀ E, nacl = Some E → VerifyKey_verify E pk m sg = true) →
  signature_verdict nacl att (public_key zone) m = true.
Proof.
  intros [_ _ Hpk _ _] Hproof Hsig. destruct nacl as [E|]; [|reflexivity].
  unfold signature_verdict. rewrite Hpk, Hproof, hex_to_bytes_to_hex.
  by apply Hsig.
Qed.

(** [verify_artifact] on an attestation of the builder's form for the genesis
    statement. *)
Lemma verify_artifact_built nacl artifact zone sd pk time refs proof :
  derive_genesis_zone nacl = Ok zone → zone_ok nacl zone sd pk →
  0 ≤ time < 2 ^ 64 →
  artifact_attestation artifact
  = Ok (built zone "From nothing, truth emerges" "raw:sha256:1.0" time refs
          (SHA256.digest pk) proof) →
  verify_artifact nacl (Some artifact)
  = Ok (signature_verdict nacl
          (built zone "From nothing, truth emerges" "raw:sha256:1.0" time refs
             (SHA256.digest pk) proof)
          (public_key zone)
          (built_message "From nothing, truth emerges" "raw:sha256:1.0" time refs
             (SHA256.digest pk))).
Proof.
  intros Hz Hzone Ht Hart.
  pose proof (verify_built nacl zone "From nothing, truth emerges" "raw:sha256:1.0"
                time refs sd pk proof Hzone Ht) as Hv.
  cbv zeta in Hv.
  destruct Hzone as [Hsd Hsdlen Hpk Hfp Hkp].
  assert (hex_to_bytes (zone_id zone) = Ok (SHA256.digest pk)) as Hzb
    by (rewrite Hfp; apply hex_to_bytes_to_hex).
  unfold verify_artifact. rewrite Hart. cbn [bind]. rewrite glr_check, Hz.
  cbn [bind]. rewrite Hv. rewrite !sha256_hex_Str.
  unfold built at 1 2 3 4 5 6 7 8.
  cbn [att_id att_zone att_subject att_canon att_time].
  unfold compute_attestation_id.
  rewrite (attestation_id_data_Ok _ _ _ _ _ _ _ Hzb
             (hex_to_bytes_to_hex _) (hex_to_bytes_to_hex _) Ht).
  cbn [bind]. rewrite sha256_hex_Bytes, !String.eqb_refl. cbn [andb bind valid].
  destruct nacl; reflexivity.
Qed.

(** X18. The ceremony closes: under the laws of the signature primitive
    (or without PyNaCl), [derive_genesis_zone] and
    [create_genesis_attestation] return, and [verify_artifact] run on the
    artifact assembled from the result returns [True], whatever ceremony
    time string and witness readings the artifact carries. *)
Theorem ceremony_round_trip (nacl : option NaCl) :
  (∀ E, nacl = Some E → NaClCorrect E) →
  ∃ zone att,
    derive_genesis_zone nacl = Ok zone
    ∧ create_genesis_attestation nacl zone = Ok att
    ∧ ∀ ceremony_time witnesses,
        verify_artifact nacl (Some (make_artifact ceremony_time att witnesses))
        = Ok true.
Proof.
  intros Hlaws.
  destruct (derive_genesis_zone_total nacl Hlaws) as [zone Hz].
  destruct (genesis_zone_ok nacl zone Hlaws Hz) as (sd & pk & Hzone).
  assert (0 ≤ GENESIS_TIMESTAMP < 2 ^ 64) as Ht by (unfold GENESIS_TIMESTAMP; lia).
  destruct (build_attestation_signed nacl zone sd pk "From nothing, truth emerges"
              "raw:sha256:1.0" GENESIS_TIMESTAMP [GLR] Hlaws Hzone Ht)
    as (sg & Hb & Hsig).
  eexists zone, _. split; [exact Hz|]. split; [exact Hb|].
  intros ct w.
  rewrite (verify_artifact_built nacl _ zone sd pk GENESIS_TIMESTAMP [GLR]
             (bytes_to_hex sg) Hz Hzone Ht (make_artifact_attestation _ _ _)).
  f_equal. by apply (signature_verdict_built nacl zone sd pk _ _ sg).
Qed.

Lemma ceremony_round_trip_witness :
  ∃ zone att,
    derive_genesis_zone (Some keyed_digest_nacl) = Ok zone
    ∧ create_genesis_attestation (Some keyed_digest_nacl) zone = Ok att
    ∧ verify_artifact (Some keyed_digest_nacl)
        (Some (make_artifact "2025-12-21T15:03:00.000Z" att JNull)) = Ok true.
Proof.
  destruct (ceremony_round_trip (Some keyed_digest_nacl) keyed_digest_nacl_laws)
    as (zone & att & Hz & Ha & Hv).
  exists zone, att. split; [exact Hz|]. split; [exact Ha|]. apply Hv.
Defined.

Lemma verify_artifact_true_inv nacl artifact :
  verify_artifact nacl (Some artifact) = Ok true →
  ∃ att zone,
    artifact_attestation artifact = Ok att
    ∧ derive_genesis_zone nacl = Ok zone
    ∧ zone_id zone = att_zone att
    ∧ att_subject att = GENESIS_SUBJECT
    ∧ att_canon att = GENESIS_CANON
    ∧ compute_attestation_id (att_zone att) (att_subject att) (att_canon att)
        (att_time att) = Ok (att_id att)
    ∧ ∀ E, nacl = Some E →
        ∃ v, verify_attestation nacl att (public_key zone) = Ok v
             ∧ valid v = true.
Proof.
  unfold verify_artifact, GENESIS_SUBJECT, GENESIS_CANON.
  destruct (artifact_attestation artifact) as [att|]; [|discriminate].
  cbn [bind]. rewrite glr_check.
  destruct (derive_genesis_zone nacl) as [zone|]; [|discriminate]. cbn [bind].
  destruct (compute_attestation_id _ _ _ _) as [cid|] eqn:Hid; [|discriminate].
  cbn [bind andb].
  destruct (String.eqb_spec (zone_id zone) (att_zone att)) as [Hzn|];
    [|destruct nacl; cbn [NACL_AVAILABLE andb];
      [destruct (verify_attestation _ _ _)|]; discriminate].
  destruct (String.eqb_spec (sha256_hex (Str "From nothing, truth emerges"))
              (att_subject att)) as [Hsb|];
    [|destruct nacl; cbn [NACL_AVAILABLE andb];
      [destruct (verify_attestation _ _ _)|]; discriminate].
  destruct (String.eqb_spec (sha256_hex (Str "raw:sha256:1.0"))
              (att_canon att)) as [Hcn|];
    [|destruct nacl; cbn [NACL_AVAILABLE andb];
      [destruct (verify_attestation _ _ _)|]; discriminate].
  destruct (String.eqb_spec cid (att_id att)) as [Hcid|];
    [|destruct nacl; cbn [NACL_AVAILABLE andb];
      [destruct (verify_attestation _ _ _)|]; discriminate].
  cbn [andb]. intros H. exists att, zone.
  split; [reflexivity|]. split; [reflexivity|]. split; [exact Hzn|].
  split; [symmetry; exact Hsb|]. split; [symmetry; exact Hcn|].
  split; [by rewrite Hid, Hcid|].
  intros E ->. cbn [NACL_AVAILABLE] in H.
  destruct (verify_attestation _ _ _) as [v|]; [|discriminate H].
  cbn [bind] in H. exists v. split; [reflexivity|].
  destruct (valid v); [reflexivity|discriminate H].
Qed.

Lemma verify_artifact_true_intro nacl artifact att zone :
  artifact_attestation artifact = Ok att →
  derive_genesis_zone nacl = Ok zone →
  zone_id zone = att_zone att →
  att_subject att = GENESIS_SUBJECT →
  att_canon att = GENESIS_CANON →
  compute_attestation_id (att_zone att) (att_subject att) (att_canon att)
    (att_time att) = Ok (att_id att) →
  (∀ E, nacl = Some E →
     ∃ v, verify_attestation nacl att (public_key zone) = Ok v ∧ valid v = true) →
  verify_artifact nacl (Some artifact) = Ok true.
Proof.
  intros Hart Hz Hzn Hsb Hcn Hid Hv. unfold verify_artifact.
  rewrite Hart. cbn [bind]. rewrite glr_check, Hz. cbn [bind]. rewrite Hid.
  cbn [bind]. fold GENESIS_SUBJECT GENESIS_CANON.
  rewrite Hzn, Hsb, Hcn, !String.eqb_refl. cbn [andb].
  destruct nacl as [E|]; cbn [NACL_AVAILABLE]; [|reflexivity].
  destruct (Hv E eq_refl) as (v & Hver & Hval).
  rewrite Hver. cbn [bind]. rewrite Hval. reflexivity.
Qed.

(** X19. What [verify_artifact] accepts. For the genesis identity it returns
    [True] exactly on an artifact whose 'attestation' entry has the form the
    builder gives the genesis statement for some time in the unsigned 64-bit
    range, some refs and some proof that passes step 3. The time is not
    compared with the ceremony's timestamp and the refs are not compared
    with [[GLR]]; without PyNaCl, where step 3 always passes, any time, refs
    and proof are accepted. *)
Theorem verify_artifact_accepts (nacl : option NaCl) (zone : Zone)
    (artifact : gmap string value) :
  (∀ E, nacl = Some E → NaClCorrect E) →
  derive_genesis_zone nacl = Ok zone →
  (verify_artifact nacl (Some artifact) = Ok true
   ↔ ∃ z time refs proof,
       hex_to_bytes (zone_id zone) = Ok z ∧ 0 ≤ time < 2 ^ 64
       ∧ artifact !! "attestation"
         = Some (VAttestation
                   (built zone "From nothing, truth emerges" "raw:sha256:1.0"
                      time refs z proof))
       ∧ signature_verdict nacl
           (built zone "From nothing, truth emerges" "raw:sha256:1.0"
              time refs z proof)
           (public_key zone)
           (built_message "From nothing, truth emerges" "raw:sha256:1.0"
              time refs z) = true).
Proof.
  intros Hlaws Hz.
  destruct (genesis_zone_ok nacl zone Hlaws Hz) as (sd & pk & Hzone).
  pose proof Hzone as [Hsd Hsdlen Hpk Hfp Hkp].
  assert (hex_to_bytes (zone_id zone) = Ok (SHA256.digest pk)) as Hzb
    by (rewrite Hfp; apply hex_to_bytes_to_hex).
  split.
  - intros H.
    destruct (verify_artifact_true_inv nacl artifact H)
      as (att & zone' & Hart & Hz' & Hzn & Hsb & Hcn & Hid & Hv).
    rewrite Hz in Hz'. apply Ok_inj in Hz'. subst zone'.
    apply compute_attestation_id_Ok_inv in Hid as (data & Hdata & Hcid).
    apply attestation_id_data_Ok_inv in Hdata
      as (z & s & c & Hz1 & Hs1 & Hc1 & Ht & ->).
    rewrite <- Hzn, Hzb in Hz1. apply Ok_inj in Hz1. subst z.
    unfold GENESIS_SUBJECT in Hsb. unfold GENESIS_CANON in Hcn.
    rewrite sha256_hex_Str in Hsb, Hcn.
    rewrite Hsb, hex_to_bytes_to_hex in Hs1. apply Ok_inj in Hs1. subst s.
    rewrite Hcn, hex_to_bytes_to_hex in Hc1. apply Ok_inj in Hc1. subst c.
    assert (att = built zone "From nothing, truth emerges" "raw:sha256:1.0"
                    (att_time att) (att_refs att) (SHA256.digest pk)
                    (att_proof att)) as Hatt.
    { destruct att as [aid azone asubject acanon atime arefs aproof].
      cbn [att_id att_zone att_subject att_canon att_time att_refs att_proof] in *.
      unfold built. by rewrite Hcid, Hzn, Hsb, Hcn. }
    exists (SHA256.digest pk), (att_time att), (att_refs att), (att_proof att).
    split; [exact Hzb|]. split; [exact Ht|]. rewrite <- Hatt.
    split; [by apply artifact_attestation_Ok|].
    destruct nacl as [E|]; [|reflexivity].
    destruct (Hv E eq_refl) as (v & Hver & Hvalid).
    rewrite Hatt in Hver.
    rewrite (verify_built (Some E) zone _ _ (att_time att) (att_refs att) sd pk
               (att_proof att) Hzone Ht) in Hver.
    apply Ok_inj in Hver. subst v. cbn [valid] in Hvalid.
    rewrite Hatt at 1. exact Hvalid.
  - intros (z & time & refs & proof & Hz1 & Ht & Hart & Hsig).
    rewrite Hzb in Hz1. apply Ok_inj in Hz1. subst z.
    apply artifact_attestation_Ok in Hart.
    rewrite (verify_artifact_built nacl artifact zone sd pk time refs proof
               Hz Hzone Ht Hart).
    by rewrite Hsig.
Qed.

Lemma verify_artifact_accepts_witness :
  verify_artifact None
    (Some (make_artifact "any time"
             (built PRECOMPUTED_ZONE "From nothing, truth emerges" "raw:sha256:1.0"
                0 [] PRECOMPUTED_ZONE_ID_BYTES "")
             JNull)) = Ok true.
Proof.
  apply (proj2 (verify_artifact_accepts None PRECOMPUTED_ZONE _
                  ltac:(intros E HE; discriminate HE) eq_refl)).
  exists PRECOMPUTED_ZONE_ID_BYTES, 0, [], "".
  split; [vm_compute; reflexivity|]. split; [lia|].
  split; [apply make_artifact_lookup|reflexivity].
Defined.

(** ** The stand-alone checkers *)

Lemma genesis_domain_bytes :
  encode_utf8 DOMAIN_SEPARATOR = String.list_byte_of_string "glogos-genesis".
Proof. vm_compute. reflexivity. Qed.

Lemma script_glr : sha256_hex (Bytes []) = GLR.
Proof. vm_compute. reflexivity. Qed.

(** The key of check 4 is the key of the ceremony's identity. *)
Lemma script_verify_key_spec E :
  derive_genesis_zone (Some E)
  = let* pk := VerifyFull.verify_key E in
    Ok {| seed := bytes_to_hex
                    (SHA256.digest (SHA256.digest []
                                    ++ String.list_byte_of_string "glogos-genesis"));
          private_key := bytes_to_hex
                    (SHA256.digest (SHA256.digest []
                                    ++ String.list_byte_of_string "glogos-genesis"));
          public_key := bytes_to_hex pk;
          zone_id := bytes_to_hex (SHA256.digest pk) |}.
Proof.
  unfold VerifyFull.verify_key, derive_genesis_zone, derive_zone. cbv zeta.
  rewrite sha256_hex_Bytes, unhexlify_bytes_to_hex, hex_to_bytes_GLR. cbn [bind].
  rewrite genesis_domain_bytes. unfold sha256_bytes.
  destruct (SigningKey_verify_key E _) as [pk|]; reflexivity.
Qed.

Lemma scripts_sign_input_Ok att z s c :
  Scripts.unhexlify (att_zone att) = Ok z →
  Scripts.unhexlify (att_subject att) = Ok s →
  Scripts.unhexlify (att_canon att) = Ok c →
  0 ≤ att_time att < 2 ^ 64 →
  Scripts.sign_input att
  = Ok (signed_bytes (SHA256.digest (z ++ s ++ c ++ be_bytes 8 (att_time att)))
          s (att_time att) (refs_hash_bytes (att_refs att)) c).
Proof.
  intros Hz Hs Hc Ht.
  unfold Scripts.sign_input, Scripts.computed_id, Scripts.id_payload,
    Scripts.to_bytes8.
  rewrite Hz. cbn [bind]. rewrite Hs. cbn [bind]. rewrite Hc. cbn [bind].
  rewrite (uint64_be_in_range _ Ht). cbn [bind].
  rewrite unhexlify_bytes_to_hex. cbn [bind].
  rewrite scripts_refs_hash. unfold signed_bytes.
  rewrite app_nil_l, <- !app_assoc. reflexivity.
Qed.

Lemma scripts_sign_input_Ok_inv att m :
  Scripts.sign_input att = Ok m →
  ∃ z s c,
    Scripts.unhexlify (att_zone att) = Ok z
    ∧ Scripts.unhexlify (att_subject att) = Ok s
    ∧ Scripts.unhexlify (att_canon att) = Ok c
    ∧ 0 ≤ att_time att < 2 ^ 64
    ∧ m = signed_bytes (SHA256.digest (z ++ s ++ c ++ be_bytes 8 (att_time att)))
            s (att_time att) (refs_hash_bytes (att_refs att)) c.
Proof.
  intros H.
  destruct (Scripts.unhexlify (att_zone att)) as [z|] eqn:Hz;
    [|unfold Scripts.sign_input, Scripts.computed_id, Scripts.id_payload in H;
      rewrite Hz in H; discriminate H].
  destruct (Scripts.unhexlify (att_subject att)) as [s|] eqn:Hs;
    [|unfold Scripts.sign_input, Scripts.computed_id, Scripts.id_payload in H;
      rewrite Hz in H; cbn [bind] in H; rewrite Hs in H; discriminate H].
  destruct (Scripts.unhexlify (att_canon att)) as [c|] eqn:Hc;
    [|unfold Scripts.sign_input, Scripts.computed_id, Scripts.id_payload in H;
      rewrite Hz in H; cbn [bind] in H; rewrite Hs in H; cbn [bind] in H;
      rewrite Hc in H; discriminate H].
  destruct (uint64_be (att_time att)) as [t|] eqn:Ht;
    [|unfold Scripts.sign_input, Scripts.computed_id, Scripts.id_payload,
        Scripts.to_bytes8 in H;
      rewrite Hz in H; cbn [bind] in H; rewrite Hs in H; cbn [bind] in H;
      rewrite Hc in H; cbn [bind] in H; rewrite Ht in H; discriminate H].
  apply uint64_be_Ok_inv in Ht as [Ht _].
  rewrite (scripts_sign_input_Ok att z s c Hz Hs Hc Ht) in H.
  apply Ok_inj in H. exists z, s, c. by rewrite H.
Qed.

(** X20. The stand-alone checkers never read the stored id: whatever is put
    in its place, part 1 of verify_full.py ends the same way. The ceremony's
    own [verify_artifact] does compare it: an artifact it accepts is
    rejected once the id is changed. *)
Theorem script_never_reads_id (nacl : option NaCl) (att : Attestation)
    (i ceremony_time : string) (witnesses : json) :
  VerifyFull.cryptographic_verification nacl (with_id att i)
  = VerifyFull.cryptographic_verification nacl att
  ∧ (verify_artifact nacl (Some (make_artifact ceremony_time att witnesses))
     = Ok true →
     i ≠ att_id att →
     verify_artifact nacl
       (Some (make_artifact ceremony_time (with_id att i) witnesses)) = Ok false).
Proof.
  split; [reflexivity|].
  intros H Hi.
  destruct (verify_artifact_true_inv nacl _ H)
    as (att' & zone & Hart & Hz & Hzn & Hsb & Hcn & Hid & Hv).
  rewrite make_artifact_attestation in Hart. apply Ok_inj in Hart. subst att'.
  unfold verify_artifact. rewrite make_artifact_attestation. cbn [bind].
  rewrite glr_check, Hz. cbn [bind].
  cbn [with_id att_id att_zone att_subject att_canon att_time].
  rewrite Hid. cbn [bind].
  assert (String.eqb (att_id att) i = false) as ->
    by (apply String.eqb_neq; congruence).
  rewrite !andb_false_r.
  destruct nacl as [E|]; cbn [NACL_AVAILABLE]; [|reflexivity].
  destruct (Hv E eq_refl) as (v & Hver & Hvalid).
  destruct (verify_attestation_valid_inv (Some E) att (public_key zone) v Hver Hvalid)
    as (pkb & s & c & (Hpk & Hzb & _) & _).
  rewrite (verify_id_mismatch (Some E) (with_id att i) (public_key zone) pkb
             (att_id att) Hpk).
  - reflexivity.
  - by rewrite sha256_hex_Bytes.
  - exact Hid.
  - cbn [with_id att_id]. congruence.
Qed.

Lemma script_finished_inv E att :
  VerifyFull.cryptographic_verification (Some E) att = VerifyFull.Finished true →
  ∃ rest pk m sg,
    att_refs att = GLR :: rest
    ∧ att_subject att = GENESIS_SUBJECT
    ∧ att_canon att = GENESIS_CANON
    ∧ VerifyFull.verify_key E = Ok pk
    ∧ att_zone att = bytes_to_hex (SHA256.digest pk)
    ∧ Scripts.sign_input att = Ok m
    ∧ Scripts.unhexlify (att_proof att) = Ok sg
    ∧ VerifyKey_verify E pk m sg = true.
Proof.
  unfold VerifyFull.cryptographic_verification. rewrite script_glr.
  fold GENESIS_SUBJECT GENESIS_CANON.
  destruct (att_refs att) as [|ref0 rest]; [discriminate|].
  destruct (VerifyFull.verify_key E) as [pk|]; [|discriminate].
  destruct (Scripts.signature_check E pk att) as [[|]|] eqn:Hsig;
    [|discriminate..].
  cbn [andb]. intros H.
  assert ((ref0 =? GLR)%string && (att_subject att =? GENESIS_SUBJECT)%string
          && (att_canon att =? GENESIS_CANON)%string
          && (att_zone att =? bytes_to_hex (SHA256.digest pk))%string = true)
    as Hall by congruence.
  clear H.
  apply andb_prop in Hall as [Hall Hzone]. apply andb_prop in Hall as [Hall Hcanon].
  apply andb_prop in Hall as [Hglr Hsubject].
  apply String.eqb_eq in Hglr, Hsubject, Hcanon, Hzone.
  unfold Scripts.signature_check in Hsig.
  destruct (Scripts.sign_input att) as [m|]; [|discriminate Hsig].
  cbn [bind] in Hsig.
  destruct (Scripts.unhexlify (att_proof att)) as [sg|]; [|discriminate Hsig].
  apply Ok_inj in Hsig.
  exists rest, pk, m, sg. rewrite Hglr. by split_and!.
Qed.

Lemma script_finished_fallback att :
  VerifyFull.cryptographic_verification None att = VerifyFull.Finished true
  ↔ ∃ rest, att_refs att = GLR :: rest
            ∧ att_subject att = GENESIS_SUBJECT
            ∧ att_canon att = GENESIS_CANON
            ∧ att_zone att = VerifyFull.KNOWN_ZONE.
Proof.
  unfold VerifyFull.cryptographic_verification. rewrite script_glr.
  fold GENESIS_SUBJECT GENESIS_CANON.
  destruct (att_refs att) as [|ref0 rest].
  { split; [discriminate|]. intros (? & [=] & _). }
  cbn [andb].
  destruct (String.eqb_spec ref0 GLR) as [->|Hglr];
    [|split; [discriminate|]; intros (? & [= ? _] & _); contradiction].
  destruct (String.eqb_spec (att_subject att) GENESIS_SUBJECT) as [Hs|Hs];
    [|split; [discriminate|]; intros (? & _ & ? & _); contradiction].
  destruct (String.eqb_spec (att_canon att) GENESIS_CANON) as [Hc|Hc];
    [|split; [discriminate|]; intros (? & _ & _ & ? & _); contradiction].
  destruct (String.eqb_spec (att_zone att) VerifyFull.KNOWN_ZONE) as [Hz|Hz];
    [|split; [discriminate|]; intros (? & _ & _ & _ & ?); contradiction].
  split; [|reflexivity]. intros _. by exists rest.
Qed.

(** X21. The checker scripts and [verify_artifact] agree up to the id: on an
    attestation that passes part 1 of verify_full.py (the five checks of
    verify_quick.py), [verify_artifact] returns [True] exactly when the
    stored id is the recomputed one. Everything else [verify_artifact]
    examines, the script has examined. *)
Theorem script_pass_and_verify_artifact (nacl : option NaCl) (att : Attestation)
    (ceremony_time : string) (witnesses : json) :
  VerifyFull.cryptographic_verification nacl att = VerifyFull.Finished true →
  (verify_artifact nacl (Some (make_artifact ceremony_time att witnesses)) = Ok true
   ↔ compute_attestation_id (att_zone att) (att_subject att) (att_canon att)
       (att_time att) = Ok (att_id att)).
Proof.
  intros Hscript. split.
  { intros H.
    destruct (verify_artifact_true_inv nacl _ H)
      as (att' & zone & Hart & _ & _ & _ & _ & Hid & _).
    rewrite make_artifact_attestation in Hart. apply Ok_inj in Hart.
    by subst att'. }
  intros Hid. destruct nacl as [E|].
  - destruct (script_finished_inv E att Hscript)
      as (rest & pk & m & sg & Hrefs & Hsb & Hcn & Hkey & Hzn & Hm & Hsg & Hver).
    pose proof (script_verify_key_spec E) as Hz. rewrite Hkey in Hz. cbn [bind] in Hz.
    apply (verify_artifact_true_intro (Some E) _ att _
             (make_artifact_attestation _ _ _) Hz);
      [by rewrite Hzn|exact Hsb|exact Hcn|exact Hid|].
    intros E' _. cbn [public_key].
    destruct (scripts_sign_input_Ok_inv att m Hm)
      as (z & s & c & Hz1 & Hs1 & Hc1 & Ht & ->).
    rewrite Hzn, unhexlify_bytes_to_hex in Hz1. apply Ok_inj in Hz1. subst z.
    rewrite (verify_attestation_acceptable (Some E) att (bytes_to_hex pk) pk s c);
      [eexists; split; reflexivity|].
    assert (hex_to_bytes (att_zone att) = Ok (SHA256.digest pk)) as Hzb
      by (rewrite Hzn; apply hex_to_bytes_to_hex).
    apply unhexlify_hex_to_bytes in Hs1, Hc1, Hsg.
    assert (att_id att
            = bytes_to_hex (SHA256.digest (SHA256.digest pk ++ s ++ c
                                           ++ be_bytes 8 (att_time att)))) as Hid'.
    { unfold compute_attestation_id in Hid.
      rewrite (attestation_id_data_Ok _ _ _ _ _ _ _ Hzb Hs1 Hc1 Ht) in Hid.
      cbn [bind] in Hid. apply Ok_inj in Hid. by rewrite <- Hid. }
    refine (conj _ (conj Hzn (conj Hs1 (conj Hc1 (conj Ht (conj Hid' _)))))).
    + apply hex_to_bytes_to_hex.
    + unfold signature_verdict. by rewrite hex_to_bytes_to_hex, Hsg.
  - apply script_finished_fallback in Hscript as (rest & _ & Hsb & Hcn & Hzn).
    apply (verify_artifact_true_intro None _ att PRECOMPUTED_ZONE
             (make_artifact_attestation _ _ _) eq_refl);
      [by rewrite Hzn|exact Hsb|exact Hcn|exact Hid|].
    intros E HE. discriminate HE.
Qed.

Lemma fallback_genesis_passes_script :
  VerifyFull.cryptographic_verification None fallback_genesis_attestation
  = VerifyFull.Finished true.
Proof. vm_compute. reflexivity. Qed.

Lemma fallback_genesis_id :
  compute_attestation_id (att_zone fallback_genesis_attestation)
    (att_subject fallback_genesis_attestation)
    (att_canon fallback_genesis_attestation)
    (att_time fallback_genesis_attestation)
  = Ok (att_id fallback_genesis_attestation).
Proof. vm_compute. reflexivity. Qed.

Lemma script_pass_and_verify_artifact_witness :
  verify_artifact None (Some (example_artifact JNull)) = Ok true.
Proof.
  exact (proj2 (script_pass_and_verify_artifact None fallback_genesis_attestation
                  "2025-12-21T15:03:00.000Z" JNull fallback_genesis_passes_script)
           fallback_genesis_id).
Defined.

(** X22. What the checker script examines. Check 1 reads [att['refs'][0]]
    unguarded: part 1 ends in [IndexError] exactly when the refs are empty.
    Without PyNaCl it passes exactly when the first ref is the hash of the
    empty input, subject and canon are the two genesis hashes and the zone
    is the stored constant; the id, the time, the proof and the further refs
    are not examined. *)
Theorem script_checks (att : Attestation) :
  (∀ nacl, VerifyFull.cryptographic_verification nacl att = VerifyFull.IndexError
           ↔ att_refs att = [])
  ∧ (VerifyFull.cryptographic_verification None att = VerifyFull.Finished true
     ↔ ∃ rest, att_refs att = GLR :: rest
               ∧ att_subject att = GENESIS_SUBJECT
               ∧ att_canon att = GENESIS_CANON
               ∧ att_zone att = VerifyFull.KNOWN_ZONE).
Proof.
  split; [|apply script_finished_fallback].
  intros nacl. unfold VerifyFull.cryptographic_verification.
  destruct (att_refs att) as [|ref0 rest]; [done|].
  split; [|discriminate].
  destruct nacl as [E|]; [|discriminate].
  destruct (VerifyFull.verify_key E) as [pk|]; [|discriminate].
  destruct (Scripts.signature_check E pk att) as [[|]|]; discriminate.
Qed.

Lemma script_finished_intro E att rest pk m sg :
  att_refs att = GLR :: rest →
  att_subject att = GENESIS_SUBJECT →
  att_canon att = GENESIS_CANON →
  VerifyFull.verify_key E = Ok pk →
  att_zone att = bytes_to_hex (SHA256.digest pk) →
  Scripts.sign_input att = Ok m →
  Scripts.unhexlify (att_proof att) = Ok sg →
  VerifyKey_verify E pk m sg = true →
  VerifyFull.cryptographic_verification (Some E) att = VerifyFull.Finished true.
Proof.
  intros Hrefs Hsb Hcn Hkey Hzn Hm Hsg Hver.
  unfold VerifyFull.cryptographic_verification. rewrite script_glr.
  fold GENESIS_SUBJECT GENESIS_CANON.
  rewrite Hrefs, Hkey. unfold Scripts.signature_check.
  rewrite Hm. cbn [bind]. rewrite Hsg, Hver, Hsb, Hcn, Hzn, !String.eqb_refl.
  reflexivity.
Qed.

(** X23. The checker scripts pass what the ceremony produces: for the
    genesis identity and the genesis statement, an attestation the builder
    returns for any time and any refs that start with [GLR] passes all five
    checks of part 1, with PyNaCl (under the laws of the primitive) and
    without. *)
Theorem built_genesis_passes_script (nacl : option NaCl) (zone : Zone)
    (time : Z) (rest : list string) (att : Attestation) :
  (∀ E, nacl = Some E → NaClCorrect E) →
  derive_genesis_zone nacl = Ok zone →
  build_attestation nacl zone "From nothing, truth emerges" "raw:sha256:1.0"
    time (GLR :: rest) = Ok att →
  VerifyFull.cryptographic_verification nacl att = VerifyFull.Finished true.
Proof.
  intros Hlaws Hz Hb.
  destruct (genesis_zone_ok nacl zone Hlaws Hz) as (sd & pk & Hzone).
  destruct (build_attestation_Ok_inv _ _ _ _ _ _ _ Hb) as (_ & _ & Ht).
  destruct (build_attestation_signed nacl zone sd pk "From nothing, truth emerges"
              "raw:sha256:1.0" time (GLR :: rest) Hlaws Hzone Ht)
    as (sg & Hb' & Hsig).
  rewrite Hb in Hb'. apply Ok_inj in Hb'. subst att.
  destruct Hzone as [Hsd Hsdlen Hpk Hfp Hkp].
  destruct nacl as [E|].
  - pose proof (script_verify_key_spec E) as Hspec. rewrite Hz in Hspec.
    destruct (VerifyFull.verify_key E) as [pk'|] eqn:Hkey; [|discriminate Hspec].
    cbn [bind] in Hspec. apply Ok_inj in Hspec.
    assert (pk' = pk) as ->.
    { rewrite Hspec in Hpk. cbn [public_key] in Hpk.
      rewrite hex_to_bytes_to_hex in Hpk. by apply Ok_inj in Hpk. }
    apply (script_finished_intro E _ rest pk
             (built_message "From nothing, truth emerges" "raw:sha256:1.0" time
                (GLR :: rest) (SHA256.digest pk)) sg).
    + reflexivity.
    + reflexivity.
    + reflexivity.
    + exact Hkey.
    + exact Hfp.
    + rewrite (scripts_sign_input_Ok _ (SHA256.digest pk)
                 (SHA256.digest (encode_utf8 "From nothing, truth emerges"))
                 (SHA256.digest (encode_utf8 "raw:sha256:1.0"))).
      * reflexivity.
      * unfold built. cbn [att_zone]. rewrite Hfp. apply unhexlify_bytes_to_hex.
      * apply unhexlify_bytes_to_hex.
      * apply unhexlify_bytes_to_hex.
      * exact Ht.
    + apply unhexlify_bytes_to_hex.
    + by apply Hsig.
  - apply Ok_inj in Hz. subst zone.
    apply script_finished_fallback. exists rest. by split_and!.
Qed.

Lemma built_genesis_passes_script_witness :
  ∃ zone att,
    derive_genesis_zone (Some keyed_digest_nacl) = Ok zone
    ∧ create_genesis_attestation (Some keyed_digest_nacl) zone = Ok att
    ∧ VerifyFull.cryptographic_verification (Some keyed_digest_nacl) att
      = VerifyFull.Finished true.
Proof.
  destruct (derive_genesis_zone_total (Some keyed_digest_nacl)
              keyed_digest_nacl_laws) as [zone Hz].
  destruct (genesis_zone_ok (Some keyed_digest_nacl) zone keyed_digest_nacl_laws Hz)
    as (sd & pk & Hzone).
  destruct (build_attestation_signed (Some keyed_digest_nacl) zone sd pk
              "From nothing, truth emerges" "raw:sha256:1.0" GENESIS_TIMESTAMP
              [GLR] keyed_digest_nacl_laws Hzone
              ltac:(unfold GENESIS_TIMESTAMP; lia)) as (sg & Hb & _).
  exists zone, (built zone "From nothing, truth emerges" "raw:sha256:1.0"
                  GENESIS_TIMESTAMP [GLR] (SHA256.digest pk) (bytes_to_hex sg)).
  split; [exact Hz|]. split; [exact Hb|].
  exact (built_genesis_passes_script (Some keyed_digest_nacl) zone
           GENESIS_TIMESTAMP [] _ keyed_digest_nacl_laws Hz Hb).
Defined.

Lemma unhexlify_opt_digits s :
  all_chars is_hex_digit s = true → Scripts.unhexlify_opt s = fromhex s.
Proof.
  induction s as [|c|c d s IH] using string_pair_ind.
  - reflexivity.
  - cbn [all_chars Scripts.unhexlify_opt fromhex]. rewrite andb_true_r.
    unfold is_hex_digit. destruct (digit_value c) as [v|] eqn:Hv; [|done].
    intros _. by rewrite (digit_not_space c v Hv).
  - cbn [all_chars Scripts.unhexlify_opt fromhex]. unfold is_hex_digit at 1 2.
    destruct (digit_value c) as [top|] eqn:Hc; [|done].
    destruct (digit_value d) as [bot|] eqn:Hd; [|done].
    cbn [andb]. intros Hs. rewrite (digit_not_space c top Hc). by rewrite (IH Hs).
Qed.

Lemma unhexlify_opt_all_digits s data :
  Scripts.unhexlify_opt s = Some data → all_chars is_hex_digit s = true.
Proof.
  revert data. induction s as [|c|c d s IH] using string_pair_ind; intros data.
  - reflexivity.
  - discriminate.
  - cbn [all_chars Scripts.unhexlify_opt]. unfold is_hex_digit at 1 2.
    destruct (digit_value c) as [top|]; [|discriminate].
    destruct (digit_value d) as [bot|]; [|discriminate].
    destruct (Scripts.unhexlify_opt s) as [rest|]; [|discriminate].
    intros _. by rewrite (IH rest eq_refl).
Qed.

(** X24. [binascii.unhexlify], which the scripts use, is stricter than
    [bytes.fromhex], which the ceremony uses: it accepts exactly the texts
    made of hex digits only that [hex_to_bytes] accepts, with the same
    bytes; white space is refused. *)
Theorem unhexlify_stricter_than_fromhex (s : string) (data : bytes) :
  Scripts.unhexlify s = Ok data
  ↔ all_chars is_hex_digit s = true ∧ hex_to_bytes s = Ok data.
Proof.
  unfold Scripts.unhexlify, hex_to_bytes. split.
  - destruct (Scripts.unhexlify_opt s) as [d|] eqn:Hd; [|discriminate].
    intros H. apply Ok_inj in H. subst d.
    split; [by apply (unhexlify_opt_all_digits s data)|].
    by rewrite (unhexlify_fromhex s data Hd).
  - intros [Hs H]. by rewrite (unhexlify_opt_digits s Hs).
Qed.

(** X25. Hence the two checkers can disagree on one artifact: when the
    proof is respelled with a character that is no hex digit (white space
    between bytes), the script's signature check fails, while
    [verify_attestation] returns what it returned for the original proof. *)
Theorem script_rejects_respelled_proof (E : NaCl) (verify_key : bytes)
    (att : Attestation) (proof' : string) :
  all_chars is_hex_digit proof' = false →
  hex_to_bytes proof' = hex_to_bytes (att_proof att) →
  is_Ok (Scripts.sign_input att) →
  Scripts.signature_check E verify_key (with_proof att proof') = Ok false
  ∧ ∀ nacl public_key,
      verify_attestation nacl (with_proof att proof') public_key
      = verify_attestation nacl att public_key.
Proof.
  intros Hnd Hp [m Hm]. split.
  - unfold Scripts.signature_check.
    change (Scripts.sign_input (with_proof att proof')) with (Scripts.sign_input att).
    rewrite Hm. cbn [bind with_proof att_proof].
    unfold Scripts.unhexlify.
    destruct (Scripts.unhexlify_opt proof') as [sg|] eqn:Hsg; [|reflexivity].
    rewrite (unhexlify_opt_all_digits _ _ Hsg) in Hnd. discriminate Hnd.
  - intros nacl public_key.
    by apply verify_attestation_proof_respelled.
Qed.

Lemma script_rejects_respelled_proof_witness :
  Scripts.signature_check keyed_digest_nacl []
    (with_proof fallback_genesis_attestation
       (String " " (att_proof fallback_genesis_attestation))) = Ok false.
Proof.
  assert (is_Ok (Scripts.sign_input fallback_genesis_attestation)) as Hok
    by (eexists; vm_compute; reflexivity).
  exact (proj1 (script_rejects_respelled_proof keyed_digest_nacl []
                  fallback_genesis_attestation
                  (String " " (att_proof fallback_genesis_attestation))
                  eq_refl (hex_to_bytes_space _) Hok)).
Defined.

(** ** The countdown *)

(** X26. The countdown is a mixed-radix reading of the remaining seconds:
    hours below 24, minutes and seconds below 60, and together with the
    whole days they add up to the remaining seconds. *)
Theorem countdown_fields_spec (seconds : Z) :
  let '(hours, minutes, secs) := countdown_fields seconds in
  0 ≤ hours < 24 ∧ 0 ≤ minutes < 60 ∧ 0 ≤ secs < 60
  ∧ seconds = 86400 * (seconds / 86400) + 3600 * hours + 60 * minutes + secs.
Proof.
  unfold countdown_fields. Z.to_euclidean_division_equations. lia.
Qed.
